(** * snowflake-hvac: the synthetic data generator [data_generation/main.py]

    A shallow embedding of the generator script and the properties of the
    tables it produces.

    Effects.  A generator is a computation over the state of the random
    sources that either returns or raises a Python exception ([Py.M]).
    The script draws from three independent pseudo-random sources:
    - Python's [random] module ([random.choice], [random.randint],
      [random.uniform]), a process-wide generator;
    - numpy's generator, behind [DataFrame.sample];
    - Faker, which owns a private [random.Random] instance.
    The first two are tapes of raw draws that the primitives consume one
    cell at a time, so a statement quantified over the tapes covers every
    outcome of a run.  Faker never advances either tape and no generator
    branches on a Faker value: the fields it fills (names, addresses, phone
    numbers, free text, dates and the dates derived from them) are left out
    of the rows, and its calls are taken to return.  Where the [random]
    module decides whether or which Faker value is produced, the draw is
    still consumed, in the evaluation order of the source.

    Data.  A row is a record with the keys of the source's dict, in order;
    keys are integers ([Z]), categorical values are strings, nullable
    fields are options, amounts are binary64 floats computed with the
    kernel's primitive operations.  A table is a [pd.frame]: pandas tells
    [pd.DataFrame([])], which has no column, from a frame that has its
    columns and no row, and so does the embedding.

    Runs.  [main_full] is the full generation of [main], and
    [generate_incremental_data] the incremental one over the seed files it
    reads.  [save_to_csv] is left out: both return the dict of tables they
    would hand to it.  The incremental run is followed over seed files
    that each hold a row; the keys it reads are numpy.int64 values and the
    keys it computes are their integer sums, which numpy's sums are as long
    as they stay below 2^63. *)

From Stdlib Require Import ZArith List String Ascii Lia Bool Sorting.Sorted.
From Stdlib Require Import Sorting.Permutation.
From Stdlib Require Import DecimalString.
From Stdlib Require Import PrimFloat FloatOps SpecFloat Uint63.
Import ListNotations.

#[local] Set Warnings "-inexact-float".
#[local] Open Scope string_scope.
#[local] Open Scope list_scope.
#[local] Open Scope Z_scope.

(** ** Python runtime *)

Module Py.

Inductive exn : Type :=
| IndexError
| KeyError (key : string)
| ValueError.

Inductive result (A : Type) : Type :=
| Ok (a : A)
| Raise (e : exn).
Arguments Ok {A} a.
Arguments Raise {A} e.

(** The two tapes and the read heads. *)
Record sources : Type := mkSources {
  random_tape : nat -> Z;
  random_pos : nat;
  numpy_tape : nat -> Z;
  numpy_pos : nat
}.

Definition M (A : Type) : Type := sources -> result (A * sources).

Definition ret {A} (a : A) : M A := fun s => Ok (a, s).

Definition bind {A B} (m : M A) (k : A -> M B) : M B :=
  fun s => match m s with
           | Ok (a, s') => k a s'
           | Raise e => Raise e
           end.

Definition raise {A} (e : exn) : M A := fun _ => Raise e.

Definition lift {A} (r : result A) : M A :=
  match r with
  | Ok a => ret a
  | Raise e => raise e
  end.

(** [range(n)]: empty when [n <= 0]. *)
Definition range (n : Z) : list Z := map Z.of_nat (seq 0 (Z.to_nat n)).

(** [len(l)] *)
Definition len {A} (l : list A) : Z := Z.of_nat (List.length l).

(** [for x in l: rows.append(f(x))] *)
Fixpoint forM {A B} (l : list A) (f : A -> M B) : M (list B) :=
  match l with
  | [] => ret []
  | x :: t => bind (f x) (fun y => bind (forM t f) (fun ys => ret (y :: ys)))
  end.

(** [for x in l: acc = f(acc, x)]: a loop that reads what it has built. *)
Fixpoint foldM {A S} (f : S -> A -> M S) (l : list A) (acc : S) : M S :=
  match l with
  | [] => ret acc
  | x :: t => bind (f acc x) (foldM f t)
  end.

(** [enumerate(l)] *)
Definition enumerate {A} (l : list A) : list (Z * A) :=
  combine (range (len l)) l.

(** [d[key]] on a dict literal *)
Fixpoint getitem {V} (d : list (string * V)) (key : string) : result V :=
  match d with
  | [] => Raise (KeyError key)
  | (k, v) :: t => if String.eqb k key then Ok v else getitem t key
  end.

(** [s.lower()] on ASCII text *)
Definition lower_ascii (c : ascii) : ascii :=
  let n := nat_of_ascii c in
  if andb (Nat.leb 65 n) (Nat.leb n 90) then ascii_of_nat (n + 32) else c.

Fixpoint lower (s : string) : string :=
  match s with
  | EmptyString => EmptyString
  | String c t => String (lower_ascii c) (lower t)
  end.

(** [str(z)], and [f"{z:0wd}"] for the non-negative numbers formatted here *)
Definition str (z : Z) : string := NilZero.string_of_int (Z.to_int z).

Fixpoint zeros (n : nat) : string :=
  match n with
  | O => EmptyString
  | S k => String "0" (zeros k)
  end.

Definition zfill (width : nat) (z : Z) : string :=
  let digits := str z in
  String.append (zeros (width - String.length digits)) digits.

(** *** Floats: binary64, as CPython and pandas compute them *)

(** [float(z)], exact for [|z| <= 2^53]. *)
Definition float_of_Z (z : Z) : float :=
  if 0 <=? z then PrimFloat.of_uint63 (Uint63.of_Z z)
  else PrimFloat.opp (PrimFloat.of_uint63 (Uint63.of_Z (- z))).

(** [int(x)]: truncation toward zero. *)
Definition int (x : float) : Z :=
  match Prim2SF x with
  | S754_finite s m e =>
      let a := if 0 <=? e then Z.pos m * 2 ^ e else Z.pos m / 2 ^ (- e) in
      if s then - a else a
  | _ => 0
  end.

Definition half_even (n d : Z) : Z :=
  let q := n / d in
  let r := n mod d in
  if 2 * r <? d then q
  else if d <? 2 * r then q + 1
  else if Z.even q then q else q + 1.

(** [round(x, ndigits)]: the exact binary value of [x] is rounded half to
    even at [10^-ndigits] and the decimal result is read back as the
    nearest double (the division of two exact doubles is that nearest
    double while the scaled value stays below [2^53]). *)
Definition round (x : float) (ndigits : Z) : float :=
  match Prim2SF x with
  | S754_finite s m e =>
      let p := 10 ^ ndigits in
      let k := if 0 <=? e then Z.pos m * 2 ^ e * p
               else half_even (Z.pos m * p) (2 ^ (- e)) in
      let y := PrimFloat.div (float_of_Z k) (float_of_Z p) in
      if s then PrimFloat.opp y else y
  | _ => x
  end.

End Py.

Import Py.

Declare Scope py_scope.
Delimit Scope py_scope with py.
Notation "x <- m ;; k" := (bind m (fun x => k))
  (at level 61, m at next level, right associativity) : py_scope.
Notation "m ;;; k" := (bind m (fun _ => k))
  (at level 61, right associativity) : py_scope.
#[local] Open Scope py_scope.

(** ** The [random] module *)

Module random.

(** One raw draw from the process-wide generator. *)
Definition raw : M Z :=
  fun s => Ok (random_tape s (random_pos s),
               mkSources (random_tape s) (S (random_pos s))
                         (numpy_tape s) (numpy_pos s)).

(** [random.choice(seq)]: [IndexError] on an empty sequence. *)
Definition choice {A} (seq : list A) : M A :=
  match seq with
  | [] => raise IndexError
  | x :: _ => r <- raw ;; ret (nth (Z.to_nat (r mod len seq)) seq x)
  end.

(** [random.randint(a, b)]: both ends included, [ValueError] on an empty
    range. *)
Definition randint (a b : Z) : M Z :=
  if b <? a then raise ValueError
  else r <- raw ;; ret (a + r mod (b - a + 1)).

(** [random.random()]: a multiple of [2^-53] in [[0, 1)]. *)
Definition random_of (r : Z) : float :=
  PrimFloat.div (float_of_Z (r mod 2 ^ 53)) (float_of_Z (2 ^ 53)).

(** [random.uniform(a, b)] is [a + (b - a) * random()]. *)
Definition uniform_of (a b : float) (r : Z) : float :=
  PrimFloat.add a (PrimFloat.mul (PrimFloat.sub b a) (random_of r)).

Definition uniform (a b : float) : M float :=
  r <- raw ;; ret (uniform_of a b r).

(** [random.choice([True, False])] *)
Definition coin : M bool := choice [true; false].

(** [<expr> if random.choice([True, False]) else None]: the condition is
    drawn first, and [<expr>] is evaluated only when it holds. *)
Definition maybe {A} (expr : M A) : M (option A) :=
  chosen <- coin ;;
  if chosen : bool then x <- expr ;; ret (Some x) else ret None.

End random.

(** ** pandas *)

Module pd.

(** A frame over rows of type [R].  [pd.DataFrame([])] has no columns, and
    selecting a column of it raises [KeyError]; a frame with columns may
    still have no rows (a filter that matches nothing, a CSV file with
    only its header). *)
Inductive frame (R : Type) : Type :=
| NoColumns
| Frame (rows : list R).
Arguments NoColumns {R}.
Arguments Frame {R} rows.

(** [pd.DataFrame(records)] *)
Definition DataFrame {R} (records : list R) : frame R :=
  match records with
  | [] => NoColumns
  | _ => Frame records
  end.

(** [df.iterrows()] *)
Definition iterrows {R} (df : frame R) : list R :=
  match df with
  | NoColumns => []
  | Frame rows => rows
  end.

(** [len(df)] *)
Definition len {R} (df : frame R) : Z := Py.len (iterrows df).

(** [df[name].tolist()] *)
Definition col {R V} (df : frame R) (name : string) (field : R -> V)
  : M (list V) :=
  match df with
  | NoColumns => raise (KeyError name)
  | Frame rows => ret (map field rows)
  end.

(** [df[df[name] <test>]]: boolean-mask selection on one column. *)
Definition where_ {R} (df : frame R) (name : string) (test : R -> bool)
  : M (frame R) :=
  match df with
  | NoColumns => raise (KeyError name)
  | Frame rows => ret (Frame (filter test rows))
  end.

(** [df.iloc[i]] for a position [i >= 0] *)
Definition iloc {R} (df : frame R) (i : Z) : M R :=
  match nth_error (iterrows df) (Z.to_nat i) with
  | Some r => if i <? 0 then raise IndexError else ret r
  | None => raise IndexError
  end.

(** [pd.concat([a, b])] *)
Definition concat {R} (a b : frame R) : frame R :=
  match a, b with
  | NoColumns, _ => b
  | _, NoColumns => a
  | Frame ra, Frame rb => Frame (ra ++ rb)
  end.

(** [series.max()]: [None] stands for the NaN of an empty column. *)
Definition max (ids : list Z) : option Z :=
  match ids with
  | [] => None
  | x :: t => Some (fold_left Z.max t x)
  end.

Definition numpy_raw : M Z :=
  fun s => Ok (numpy_tape s (numpy_pos s),
               mkSources (random_tape s) (random_pos s)
                         (numpy_tape s) (S (numpy_pos s))).

Fixpoint remove_nth {R} (i : nat) (l : list R) : list R :=
  match l, i with
  | [], _ => []
  | _ :: t, O => t
  | x :: t, S j => x :: remove_nth j t
  end.

(** [k] rows drawn without replacement, in the order drawn. *)
Fixpoint draw {R} (k : nat) (rows : list R) : M (list R) :=
  match k, rows with
  | O, _ => ret []
  | S _, [] => raise ValueError
  | S k', x :: _ =>
      r <- numpy_raw ;;
      let i := Z.to_nat (r mod Py.len rows) in
      rest <- draw k' (remove_nth i rows) ;;
      ret (nth i rows x :: rest)
  end.

(** [df.sample(n=n)]: [ValueError] for a negative [n] and for an [n]
    above the population. *)
Definition sample {R} (df : frame R) (n : Z) : M (frame R) :=
  if (n <? 0) || (len df <? n) then raise ValueError
  else match df with
       | NoColumns => ret NoColumns
       | Frame rows => rows' <- draw (Z.to_nat n) rows ;; ret (Frame rows')
       end.

End pd.

(** ** Rows *)

Module Customer.
Record t : Type := mk {
  customer_id : Z;
  customer_type : string
}.
End Customer.

Module Technician.
Record t : Type := mk {
  technician_id : Z;
  technician_level : string;
  hourly_rate : Z;
  years_experience : Z;
  certification_level : string;
  (** the keys added by [technician.update(technician_skills)] *)
  skills : list (string * Z)
}.
End Technician.

Module EquipmentType.
Record t : Type := mk {
  equipment_id : Z;
  brand : string;
  model : string;
  equipment_type : string;
  btu_rating : Z;
  energy_rating : float
}.
End EquipmentType.

Module Part.
Record t : Type := mk {
  part_id : Z;
  part_category : string;
  unit_cost : float
}.
End Part.

Module InstalledDevice.
Record t : Type := mk {
  installation_id : Z;
  customer_id : Z;
  equipment_id : Z;
  installation_location : string;
  status : string
}.
End InstalledDevice.

Module ServiceCall.
Record t : Type := mk {
  service_call_id : Z;
  customer_id : Z;
  technician_id : Z;
  equipment_id : Z;
  service_type : string;
  duration_hours : float;
  labor_cost : float;
  parts_cost : float;
  total_cost : float
}.
(** one cell of [df['total_cost'] = ...] *)
Definition set_total_cost (r : t) (v : float) : t :=
  mk (service_call_id r) (customer_id r) (technician_id r) (equipment_id r)
     (service_type r) (duration_hours r) (labor_cost r) (parts_cost r) v.
End ServiceCall.

Module PartsUsage.
Record t : Type := mk {
  usage_id : Z;
  service_call_id : Z;
  part_id : Z;
  quantity_used : Z
}.
End PartsUsage.

Module IncidentResponse.
Record t : Type := mk {
  incident_id : Z;
  service_call_id : Z;
  incident_type : string;
  severity_level : string;
  response_time_minutes : Z;
  resolution_time_minutes : Z;
  responding_technician_id : Z;
  backup_technician_id : option Z;
  resolution_status : string;
  customer_satisfaction : Z;
  follow_up_required : bool
}.
End IncidentResponse.

Module Vehicle.
Record t : Type := mk {
  vehicle_id : Z;
  vehicle_number : string;
  make : string;
  year : Z;
  vehicle_type : string;
  assigned_technician_id : option Z;
  current_mileage : Z;
  next_maintenance_mileage : Z;
  status : string;
  fuel_type : string;
  gps_enabled : bool
}.
End Vehicle.

Module Contact.
Record t : Type := mk {
  contact_id : Z;
  customer_id : option Z;
  contact_source : string;
  subscription_status : string;
  preferred_contact_method : string;
  interests : string
}.
End Contact.

Module Subscription.
Record t : Type := mk {
  subscription_id : Z;
  customer_id : Z;
  service_plan : string;
  annual_cost : Z;
  payment_frequency : string;
  status : string;
  auto_renewal : bool;
  services_included : string;
  discount_percentage : Z
}.
End Subscription.

Module Invoice.
Record t : Type := mk {
  invoice_id : Z;
  service_call_id : Z;
  customer_id : Z;
  payment_terms : string;
  subtotal : float;
  tax_rate : float;
  tax_amount : float;
  total_amount : float;
  status : string
}.
End Invoice.

Module Payment.
Record t : Type := mk {
  payment_id : Z;
  invoice_id : Z;
  amount : float;
  payment_method : string;
  status : string;
  processing_fee : float;
  notes : option string
}.
End Payment.

Module Inventory.
Record t : Type := mk {
  inventory_id : Z;
  part_id : Z;
  warehouse_location : string;
  current_stock : Z;
  reorder_point : Z;
  max_stock_level : Z;
  last_restock_quantity : Z;
  avg_monthly_usage : Z;
  stock_status : string;
  supplier_lead_time_days : Z;
  abc_classification : string;
  unit_cost : float;
  total_value : float
}.
End Inventory.

Module Appointment.
Record t : Type := mk {
  appointment_id : Z;
  customer_id : Z;
  technician_id : Z;
  service_call_id : option Z;
  appointment_type : string;
  estimated_duration_hours : float;
  status : string;
  priority : string
}.
End Appointment.

Module Quote.
Record t : Type := mk {
  quote_id : Z;
  customer_id : Z;
  equipment_id : option Z;
  quote_type : string;
  labor_hours : float;
  labor_rate : Z;
  labor_cost : float;
  equipment_cost : float;
  parts_cost : float;
  total_amount : float;
  status : string;
  created_by : string
}.
End Quote.

Module WorkOrder.
Record t : Type := mk {
  work_order_id : Z;
  service_call_id : Z;
  technician_id : Z;
  safety_requirements : string;
  estimated_hours : float;
  actual_hours : float;
  status : string;
  priority : string;
  customer_signature_required : bool
}.
End WorkOrder.

Module Feedback.
Record t : Type := mk {
  feedback_id : Z;
  service_call_id : Z;
  customer_id : Z;
  feedback_type : string;
  overall_satisfaction : Z;
  technician_rating : Z;
  timeliness_rating : Z;
  quality_rating : Z;
  value_rating : Z;
  would_recommend : bool;
  follow_up_required : bool;
  source : string
}.
End Feedback.

Module Lead.
Record t : Type := mk {
  lead_id : Z;
  lead_source : string;
  service_interest : string;
  estimated_value : float;
  urgency : string;
  status : string;
  assigned_to : string;
  conversion_probability : Z
}.
End Lead.

(** ** Entity generators *)

Definition generate_customers (n_customers : Z) : M (pd.frame Customer.t) :=
  customers <- forM (range n_customers) (fun i =>
    (* customer_name: fake.company() or fake.name() *)
    random.coin ;;;
    customer_type <- random.choice ["residential"; "commercial"] ;;
    ret (Customer.mk (i + 1) customer_type)) ;;
  ret (pd.DataFrame customers).

Definition levels : list string := ["junior"; "senior"; "lead"; "specialist"].

Definition skill_names : list string :=
  ["HVAC_Installation"; "Electrical"; "Refrigeration"; "Ductwork";
   "Diagnostics"; "Customer_Service"; "Safety_Protocols"].

Definition base_skills : list (string * Z) :=
  [("junior", 3); ("senior", 6); ("lead", 8); ("specialist", 9)].

Definition certification_levels : list string :=
  ["Basic"; "Intermediate"; "Advanced"; "Master"].

(** The body of the technician loop, shared by the full and the incremental
    generator, which differ in the key only. *)
Definition technician_row (technician_id : Z) : M Technician.t :=
  level <- random.choice levels ;;
  base_skill <- lift (getitem base_skills level) ;;
  technician_skills <- forM skill_names (fun skill =>
    skill_variance <- random.randint (-2) 2 ;;
    let skill_level := Z.max 1 (Z.min 10 (base_skill + skill_variance)) in
    ret ((lower skill ++ "_skill")%string, skill_level)) ;;
  hourly_rate <- random.randint 25 75 ;;
  years_experience <- random.randint 1 20 ;;
  certification_level <- random.choice certification_levels ;;
  ret (Technician.mk technician_id level hourly_rate years_experience
         certification_level technician_skills).

Definition generate_technicians (n_technicians : Z)
  : M (pd.frame Technician.t) :=
  technicians <- forM (range n_technicians) (fun i =>
    technician_row (i + 1)) ;;
  ret (pd.DataFrame technicians).

Definition brands : list string :=
  ["Carrier"; "Trane"; "Lennox"; "Rheem"; "Goodman"; "York"; "Daikin"].

Definition equipment_kinds : list string :=
  ["Central AC"; "Heat Pump"; "Furnace"; "Ductless Mini-Split";
   "Package Unit"].

(** The body of the equipment loop; the key is [i + 1] in a full run and
    [start_id + i] in an incremental one. *)
Definition equipment_row (equipment_id : Z) : M EquipmentType.t :=
  brand <- random.choice brands ;;
  prefix <- random.choice ["X"; "Pro"; "Elite"; "Prime"] ;;
  number <- random.randint 100 999 ;;
  equipment_type <- random.choice equipment_kinds ;;
  btu_rating <- random.choice [18000; 24000; 36000; 48000; 60000] ;;
  u <- random.uniform 13 20 ;;
  ret (EquipmentType.mk equipment_id brand (prefix ++ str number)%string
         equipment_type btu_rating (round u 1)).

Definition generate_equipment_types (n_equipment : Z)
  : M (pd.frame EquipmentType.t) :=
  equipment <- forM (range n_equipment) (fun i => equipment_row (i + 1)) ;;
  ret (pd.DataFrame equipment).

Definition part_types : list string :=
  ["Filter"; "Compressor"; "Coil"; "Fan Motor"; "Thermostat"; "Capacitor";
   "Contactor"; "Refrigerant"; "Ductwork"; "Valve"].

Definition part_row (part_id : Z) : M Part.t :=
  (* part_name: a part type and a Faker word *)
  random.choice part_types ;;;
  part_category <- random.choice part_types ;;
  u <- random.uniform 5 500 ;;
  ret (Part.mk part_id part_category (round u 2)).

Definition generate_parts (n_parts : Z) : M (pd.frame Part.t) :=
  parts <- forM (range n_parts) (fun i => part_row (i + 1)) ;;
  ret (pd.DataFrame parts).

Definition generate_installed_devices
  (customers_df : pd.frame Customer.t)
  (equipment_df : pd.frame EquipmentType.t)
  (n_installations : Z) : M (pd.frame InstalledDevice.t) :=
  installations <- forM (range n_installations) (fun i =>
    (* warranty_months, read by warranty_end_date only *)
    random.choice [12; 24; 36; 60] ;;;
    customer_ids <- pd.col customers_df "customer_id" Customer.customer_id ;;
    customer_id <- random.choice customer_ids ;;
    equipment_ids <-
      pd.col equipment_df "equipment_id" EquipmentType.equipment_id ;;
    equipment_id <- random.choice equipment_ids ;;
    installation_location <-
      random.choice ["Main Floor"; "Basement"; "Attic"; "Garage"; "Roof"] ;;
    status <-
      random.choice ["Active"; "Inactive"; "Under Maintenance"; "Replaced"] ;;
    (* last_maintenance_date: a Faker date or None *)
    random.coin ;;;
    ret (InstalledDevice.mk (i + 1) customer_id equipment_id
           installation_location status)) ;;
  ret (pd.DataFrame installations).

Definition service_types : list string :=
  ["Maintenance"; "Repair"; "Installation"; "Emergency"; "Inspection"].

(** The body of the service-call loop, the same in [generate_service_calls]
    and [generate_service_calls_incremental] up to the key.  [total_cost] is
    0 until the column is assigned. *)
Definition service_call_row (service_call_id : Z)
  (customers_df : pd.frame Customer.t)
  (technicians_df : pd.frame Technician.t)
  (equipment_df : pd.frame EquipmentType.t) : M ServiceCall.t :=
  u <- random.uniform 1 8 ;;
  let duration := round u 1 in
  customer_ids <- pd.col customers_df "customer_id" Customer.customer_id ;;
  customer_id <- random.choice customer_ids ;;
  technician_ids <-
    pd.col technicians_df "technician_id" Technician.technician_id ;;
  technician_id <- random.choice technician_ids ;;
  equipment_ids <-
    pd.col equipment_df "equipment_id" EquipmentType.equipment_id ;;
  equipment_id <- random.choice equipment_ids ;;
  service_type <- random.choice service_types ;;
  rate <- random.randint 50 100 ;;
  let labor_cost := round (PrimFloat.mul duration (float_of_Z rate)) 2 in
  v <- random.uniform 0 300 ;;
  let parts_cost := round v 2 in
  ret (ServiceCall.mk service_call_id customer_id technician_id equipment_id
         service_type duration labor_cost parts_cost 0).

(** [df['total_cost'] = df['labor_cost'] + df['parts_cost']] *)
Definition assign_total_cost (df : pd.frame ServiceCall.t)
  : M (pd.frame ServiceCall.t) :=
  labor <- pd.col df "labor_cost" ServiceCall.labor_cost ;;
  parts <- pd.col df "parts_cost" ServiceCall.parts_cost ;;
  let total := map (fun '(l, p) => PrimFloat.add l p) (combine labor parts) in
  ret (pd.Frame (map (fun '(r, v) => ServiceCall.set_total_cost r v)
                     (combine (pd.iterrows df) total))).

Definition generate_service_calls
  (customers_df : pd.frame Customer.t)
  (technicians_df : pd.frame Technician.t)
  (equipment_df : pd.frame EquipmentType.t)
  (n_calls : Z) : M (pd.frame ServiceCall.t) :=
  service_calls <- forM (range n_calls) (fun i =>
    service_call_row (i + 1) customers_df technicians_df equipment_df) ;;
  assign_total_cost (pd.DataFrame service_calls).

Definition generate_parts_usage
  (service_calls_df : pd.frame ServiceCall.t)
  (parts_df : pd.frame Part.t)
  (avg_parts_per_call : Z) : M (pd.frame PartsUsage.t) :=
  parts_usage <- foldM (fun parts_usage call =>
    n_parts <- random.randint 0 (avg_parts_per_call * 2) ;;
    foldM (fun parts_usage _ =>
      part_ids <- pd.col parts_df "part_id" Part.part_id ;;
      part_id <- random.choice part_ids ;;
      quantity_used <- random.randint 1 5 ;;
      ret (parts_usage ++
           [PartsUsage.mk (len parts_usage + 1)
              (ServiceCall.service_call_id call) part_id quantity_used]))
      (range n_parts) parts_usage)
    (pd.iterrows service_calls_df) [] ;;
  ret (pd.DataFrame parts_usage).

Definition is_emergency (call : ServiceCall.t) : bool :=
  String.eqb (ServiceCall.service_type call) "Emergency".

Definition generate_incident_response
  (service_calls_df : pd.frame ServiceCall.t)
  (technicians_df : pd.frame Technician.t)
  (n_incidents : Z) : M (pd.frame IncidentResponse.t) :=
  emergency_calls <- pd.where_ service_calls_df "service_type" is_emergency ;;
  incidents <-
    forM (range (Z.min n_incidents (pd.len emergency_calls))) (fun i =>
      call <- pd.iloc emergency_calls (i mod pd.len emergency_calls) ;;
      response_time <- random.randint 15 240 ;;
      resolution_time <- random.randint 30 480 ;;
      incident_type <-
        random.choice ["No Heat/AC"; "Gas Leak"; "Electrical Issue";
                       "Water Damage"; "System Failure";
                       "Carbon Monoxide Alert"] ;;
      severity_level <- random.choice ["Low"; "Medium"; "High"; "Critical"] ;;
      backup_technician_id <-
        random.maybe
          (technician_ids <-
             pd.col technicians_df "technician_id" Technician.technician_id ;;
           random.choice technician_ids) ;;
      resolution_status <-
        random.choice ["Resolved"; "Pending"; "Escalated";
                       "Requires Follow-up"] ;;
      customer_satisfaction <- random.randint 1 10 ;;
      follow_up_required <- random.coin ;;
      ret (IncidentResponse.mk (i + 1) (ServiceCall.service_call_id call)
             incident_type severity_level response_time resolution_time
             (ServiceCall.technician_id call) backup_technician_id
             resolution_status customer_satisfaction follow_up_required)) ;;
  ret (pd.DataFrame incidents).

Definition generate_vehicle_fleet
  (technicians_df : pd.frame Technician.t)
  (n_vehicles : Z) : M (pd.frame Vehicle.t) :=
  vehicles <- forM (range n_vehicles) (fun i =>
    mileage <- random.randint 20000 150000 ;;
    make <- random.choice ["Ford"; "Chevrolet"; "Ram"; "GMC"; "Mercedes"] ;;
    year <- random.randint 2015 2023 ;;
    vehicle_type <- random.choice ["Van"; "Truck"; "SUV"] ;;
    assigned_technician_id <-
      random.maybe
        (technician_ids <-
           pd.col technicians_df "technician_id" Technician.technician_id ;;
         random.choice technician_ids) ;;
    delta <- random.randint 3000 8000 ;;
    status <-
      random.choice ["Active"; "Maintenance"; "Out of Service"; "Retired"] ;;
    fuel_type <- random.choice ["Gasoline"; "Diesel"; "Hybrid"] ;;
    gps_enabled <- random.coin ;;
    ret (Vehicle.mk (i + 1) ("HVAC-" ++ zfill 3 (i + 1))%string make year
           vehicle_type assigned_technician_id mileage (mileage + delta)
           status fuel_type gps_enabled)) ;;
  ret (pd.DataFrame vehicles).

Definition subscription_statuses : list string :=
  ["Subscribed"; "Unsubscribed"].

Definition contact_methods : list string := ["Email"; "Phone"; "Mail"].

Definition interest_topics : list string :=
  ["Maintenance Tips"; "Seasonal Offers"; "New Products";
   "Energy Efficiency"].

Definition generate_mailing_list
  (customers_df : pd.frame Customer.t)
  (n_additional : Z) : M (pd.frame Contact.t) :=
  (* Include existing customers *)
  mailing_list <- foldM (fun mailing_list customer =>
    subscription_status <- random.choice subscription_statuses ;;
    preferred_contact_method <- random.choice contact_methods ;;
    interests <- random.choice interest_topics ;;
    ret (mailing_list ++
         [Contact.mk (len mailing_list + 1)
            (Some (Customer.customer_id customer)) "Existing Customer"
            subscription_status preferred_contact_method interests]))
    (pd.iterrows customers_df) [] ;;
  (* Add additional prospects *)
  mailing_list <- foldM (fun mailing_list _ =>
    contact_source <-
      random.choice ["Website"; "Referral"; "Trade Show"; "Social Media";
                     "Direct Mail"] ;;
    subscription_status <- random.choice subscription_statuses ;;
    preferred_contact_method <- random.choice contact_methods ;;
    interests <- random.choice interest_topics ;;
    ret (mailing_list ++
         [Contact.mk (len mailing_list + 1) None contact_source
            subscription_status preferred_contact_method interests]))
    (range n_additional) mailing_list ;;
  ret (pd.DataFrame mailing_list).

Definition service_plans : list string :=
  ["Basic"; "Premium"; "Comprehensive"; "Commercial"].

Definition plan_costs : list (string * Z) :=
  [("Basic", 120); ("Premium", 200); ("Comprehensive", 350);
   ("Commercial", 500)].

Definition generate_subscriptions
  (customers_df : pd.frame Customer.t)
  (n_subscriptions : Z) : M (pd.frame Subscription.t) :=
  subscriptions <- forM (range n_subscriptions) (fun i =>
    plan <- random.choice service_plans ;;
    (* contract_months, read by end_date only *)
    random.choice [12; 24; 36] ;;;
    customer_ids <- pd.col customers_df "customer_id" Customer.customer_id ;;
    customer_id <- random.choice customer_ids ;;
    annual_cost <- lift (getitem plan_costs plan) ;;
    payment_frequency <- random.choice ["Monthly"; "Quarterly"; "Annual"] ;;
    status <- random.choice ["Active"; "Expired"; "Cancelled"; "Suspended"] ;;
    auto_renewal <- random.coin ;;
    services_included <-
      random.choice ["Seasonal Tune-ups, Priority Service";
                     "Bi-annual Maintenance, Parts Discount";
                     "Quarterly Inspections, Emergency Service";
                     "Monthly Monitoring, Full Coverage"] ;;
    discount_percentage <- random.choice [0; 5; 10; 15; 20] ;;
    (* next_service_date: a Faker date or None *)
    random.coin ;;;
    ret (Subscription.mk (i + 1) customer_id plan annual_cost
           payment_frequency status auto_renewal services_included
           discount_percentage)) ;;
  ret (pd.DataFrame subscriptions).

Definition tax_rates : list float := [0.065; 0.075; 0.08; 0.085]%float.

Definition invoice_status : list string :=
  ["Paid"; "Pending"; "Overdue"; "Cancelled"].

(** [n_invoices=None] is the default: 85% of the service calls. *)
Definition generate_invoices
  (service_calls_df : pd.frame ServiceCall.t)
  (customers_df : pd.frame Customer.t)
  (n_invoices : option Z) : M (pd.frame Invoice.t) :=
  let n_invoices :=
    match n_invoices with
    | None =>
        int (PrimFloat.mul (float_of_Z (pd.len service_calls_df)) 0.85)
    | Some n => n
    end in
  selected_calls <-
    pd.sample service_calls_df (Z.min n_invoices (pd.len service_calls_df)) ;;
  invoices <- forM (enumerate (pd.iterrows selected_calls)) (fun '(i, call) =>
    (* issue_date and due_date offsets *)
    random.randint 0 3 ;;;
    random.choice [15; 30; 45] ;;;
    markup <- random.uniform 1.1 1.3 ;;
    let subtotal :=
      round (PrimFloat.mul (ServiceCall.total_cost call) markup) 2 in
    tax_rate <- random.choice tax_rates ;;
    let tax_amount := round (PrimFloat.mul subtotal tax_rate) 2 in
    let total_amount := PrimFloat.add subtotal tax_amount in
    payment_terms <-
      random.choice ["Net 15"; "Net 30"; "Due on Receipt"; "Net 45"] ;;
    status <- random.choice invoice_status ;;
    (* notes: a Faker sentence or None *)
    random.coin ;;;
    ret (Invoice.mk (i + 1) (ServiceCall.service_call_id call)
           (ServiceCall.customer_id call) payment_terms subtotal tax_rate
           tax_amount total_amount status)) ;;
  ret (pd.DataFrame invoices).

Definition payment_methods : list string :=
  ["Credit Card"; "Check"; "Cash"; "ACH Transfer"; "Online Payment"].

(** [round(amount * random.uniform(0.02, 0.035), 2) if
    random.choice([True, False]) else 0.0] *)
Definition processing_fee_of (amount : float) : M float :=
  charged <- random.coin ;;
  if charged : bool then
    u <- random.uniform 0.02 0.035 ;;
    ret (round (PrimFloat.mul amount u) 2)
  else ret 0%float.

Definition is_payable (invoice : Invoice.t) : bool :=
  existsb (String.eqb (Invoice.status invoice)) ["Paid"; "Pending"].

(** One turn of the payment loop over the payments built so far and the
    [payment_id] counter. *)
Definition payment_step (state : list Payment.t * Z) (invoice : Invoice.t)
  : M (list Payment.t * Z) :=
  let '(payments, payment_id) := state in
  if String.eqb (Invoice.status invoice) "Paid" then
    (* Full payment *)
    payment_method <- random.choice payment_methods ;;
    processing_fee <- processing_fee_of (Invoice.total_amount invoice) ;;
    ret (payments ++
         [Payment.mk payment_id (Invoice.invoice_id invoice)
            (Invoice.total_amount invoice) payment_method "Completed"
            processing_fee None],
         payment_id + 1)
  else if String.eqb (Invoice.status invoice) "Pending" then
    partial <- random.coin ;;
    if partial : bool then
      (* Partial payment *)
      u <- random.uniform 0.3 0.8 ;;
      let partial_amount :=
        round (PrimFloat.mul (Invoice.total_amount invoice) u) 2 in
      payment_method <- random.choice payment_methods ;;
      status <- random.choice ["Completed"; "Pending"] ;;
      processing_fee <- processing_fee_of partial_amount ;;
      ret (payments ++
           [Payment.mk payment_id (Invoice.invoice_id invoice) partial_amount
              payment_method status processing_fee (Some "Partial payment")],
           payment_id + 1)
    else ret (payments, payment_id)
  else ret (payments, payment_id).

Definition generate_payments (invoices_df : pd.frame Invoice.t)
  : M (pd.frame Payment.t) :=
  payable_invoices <- pd.where_ invoices_df "status" is_payable ;;
  state <- foldM payment_step (pd.iterrows payable_invoices) ([], 1) ;;
  ret (pd.DataFrame (fst state)).

Definition generate_inventory (parts_df : pd.frame Part.t)
  : M (pd.frame Inventory.t) :=
  inventory <- forM (pd.iterrows parts_df) (fun part =>
    current_stock <- random.randint 0 100 ;;
    reorder_point <- random.randint 5 25 ;;
    max_stock <- random.randint 50 200 ;;
    avg_monthly_usage <- random.randint 2 30 ;;
    aisle <- random.choice ["A"; "B"; "C"] ;;
    rack <- random.randint 1 20 ;;
    shelf <- random.randint 1 10 ;;
    last_restock_quantity <- random.randint 20 100 ;;
    supplier_lead_time_days <- random.randint 3 21 ;;
    abc_classification <- random.choice ["A"; "B"; "C"] ;;
    ret (Inventory.mk (Part.part_id part) (Part.part_id part)
           (aisle ++ "-" ++ zfill 2 rack ++ "-" ++ str shelf)%string
           current_stock reorder_point max_stock last_restock_quantity
           avg_monthly_usage
           (if current_stock <=? reorder_point then "Low Stock"
            else "In Stock")
           supplier_lead_time_days abc_classification (Part.unit_cost part)
           (round (PrimFloat.mul (float_of_Z current_stock)
                                 (Part.unit_cost part)) 2))) ;;
  ret (pd.DataFrame inventory).

Definition appointment_types : list string :=
  ["Maintenance"; "Repair"; "Installation"; "Inspection"; "Emergency";
   "Consultation"].

(** The historical turn of the appointment loop: one appointment per
    service call, over the list built so far and the [appointment_id]
    counter. *)
Definition historical_appointment (state : list Appointment.t * Z)
  (call : ServiceCall.t) : M (list Appointment.t * Z) :=
  let '(appointments, appointment_id) := state in
  priority <- random.choice ["Low"; "Medium"; "High"; "Emergency"] ;;
  (* special_instructions: a Faker sentence or None *)
  random.coin ;;;
  (* created_date offset *)
  random.randint 1 7 ;;;
  (* confirmed_date: scheduled_time plus some hours, or None *)
  random.maybe (random.randint 1 48) ;;;
  ret (appointments ++
       [Appointment.mk appointment_id (ServiceCall.customer_id call)
          (ServiceCall.technician_id call)
          (Some (ServiceCall.service_call_id call))
          (ServiceCall.service_type call) (ServiceCall.duration_hours call)
          "Completed" priority],
       appointment_id + 1).

(** The future turn: appointments with no service call yet. *)
Definition future_appointment
  (customers_df : pd.frame Customer.t)
  (technicians_df : pd.frame Technician.t)
  (state : list Appointment.t * Z) (i : Z) : M (list Appointment.t * Z) :=
  let '(appointments, appointment_id) := state in
  customer_ids <- pd.col customers_df "customer_id" Customer.customer_id ;;
  customer_id <- random.choice customer_ids ;;
  technician_ids <-
    pd.col technicians_df "technician_id" Technician.technician_id ;;
  technician_id <- random.choice technician_ids ;;
  appointment_type <- random.choice appointment_types ;;
  u <- random.uniform 1 6 ;;
  status <- random.choice ["Scheduled"; "Confirmed"] ;;
  priority <- random.choice ["Low"; "Medium"; "High"] ;;
  (* special_instructions and confirmed_date: Faker values or None *)
  random.coin ;;;
  random.coin ;;;
  ret (appointments ++
       [Appointment.mk appointment_id customer_id technician_id None
          appointment_type (round u 1) status priority],
       appointment_id + 1).

Definition generate_appointments
  (customers_df : pd.frame Customer.t)
  (technicians_df : pd.frame Technician.t)
  (service_calls_df : pd.frame ServiceCall.t)
  (n_appointments : Z) : M (pd.frame Appointment.t) :=
  (* Create appointments for existing service calls (historical) *)
  state <-
    foldM historical_appointment (pd.iterrows service_calls_df) ([], 1) ;;
  (* Create future appointments *)
  let remaining_appointments := n_appointments - len (fst state) in
  state <- foldM (future_appointment customers_df technicians_df)
             (range remaining_appointments) state ;;
  ret (pd.DataFrame (fst state)).

(** [random.uniform(500, 8000) if random.choice([True, False]) else 0] *)
Definition equipment_cost_of : M float :=
  with_equipment <- random.coin ;;
  if with_equipment : bool then random.uniform 500 8000 else ret 0%float.

(** [random.choice(ids) if equipment_cost > 0 else None] *)
Definition quoted_equipment (equipment_df : pd.frame EquipmentType.t)
  (equipment_cost : float) : M (option Z) :=
  if PrimFloat.ltb 0 equipment_cost then
    equipment_ids <-
      pd.col equipment_df "equipment_id" EquipmentType.equipment_id ;;
    e <- random.choice equipment_ids ;;
    ret (Some e)
  else ret None.

Definition generate_quotes
  (customers_df : pd.frame Customer.t)
  (equipment_df : pd.frame EquipmentType.t)
  (n_quotes : Z) : M (pd.frame Quote.t) :=
  quotes <- forM (range n_quotes) (fun i =>
    (* valid_until offset *)
    random.randint 15 45 ;;;
    u <- random.uniform 2 16 ;;
    let labor_hours := round u 1 in
    labor_rate <- random.randint 75 125 ;;
    let labor_cost := PrimFloat.mul labor_hours (float_of_Z labor_rate) in
    equipment_cost <- equipment_cost_of ;;
    parts_cost <- random.uniform 50 1200 ;;
    let subtotal :=
      PrimFloat.add (PrimFloat.add labor_cost equipment_cost) parts_cost in
    markup <- random.uniform 1.1 1.4 ;;
    let total_amount := round (PrimFloat.mul subtotal markup) 2 in
    customer_ids <- pd.col customers_df "customer_id" Customer.customer_id ;;
    customer_id <- random.choice customer_ids ;;
    equipment_id <- quoted_equipment equipment_df equipment_cost ;;
    quote_type <-
      random.choice ["Repair"; "Installation"; "Replacement";
                     "Maintenance Contract"; "System Upgrade"] ;;
    status <-
      random.choice ["Pending"; "Accepted"; "Declined"; "Expired";
                     "Revised"] ;;
    rep <- random.randint 1 5 ;;
    (* follow_up_date: quote_date plus some days, or None *)
    random.maybe (random.randint 3 14) ;;;
    (* notes: a Faker sentence or None *)
    random.coin ;;;
    ret (Quote.mk (i + 1) customer_id equipment_id quote_type labor_hours
           labor_rate labor_cost (round equipment_cost 2)
           (round parts_cost 2) total_amount status
           ("Sales Rep " ++ str rep)%string)) ;;
  ret (pd.DataFrame quotes).

Definition generate_work_orders
  (service_calls_df : pd.frame ServiceCall.t)
  (technicians_df : pd.frame Technician.t) : M (pd.frame WorkOrder.t) :=
  work_orders <- forM (pd.iterrows service_calls_df) (fun call =>
    safety_requirements <-
      random.choice ["Standard PPE"; "Electrical Safety"; "Confined Space";
                     "Height Work"] ;;
    u <- random.uniform (-0.5) 1.0 ;;
    priority <- random.choice ["Low"; "Medium"; "High"; "Emergency"] ;;
    customer_signature_required <- random.coin ;;
    ret (WorkOrder.mk (ServiceCall.service_call_id call)
           (ServiceCall.service_call_id call)
           (ServiceCall.technician_id call) safety_requirements
           (ServiceCall.duration_hours call)
           (PrimFloat.add (ServiceCall.duration_hours call) u)
           "Completed" priority customer_signature_required)) ;;
  ret (pd.DataFrame work_orders).

Definition generate_customer_feedback
  (service_calls_df : pd.frame ServiceCall.t)
  (customers_df : pd.frame Customer.t)
  (n_feedback : Z) : M (pd.frame Feedback.t) :=
  (* Sample service calls for feedback *)
  selected_calls <-
    pd.sample service_calls_df (Z.min n_feedback (pd.len service_calls_df)) ;;
  feedback <- forM (enumerate (pd.iterrows selected_calls)) (fun '(i, call) =>
    (* feedback_date offset *)
    random.randint 1 14 ;;;
    feedback_type <-
      random.choice ["Survey"; "Review"; "Complaint"; "Compliment";
                     "Suggestion"] ;;
    overall_satisfaction <- random.randint 1 10 ;;
    technician_rating <- random.randint 1 10 ;;
    timeliness_rating <- random.randint 1 10 ;;
    quality_rating <- random.randint 1 10 ;;
    value_rating <- random.randint 1 10 ;;
    would_recommend <- random.coin ;;
    follow_up_required <- random.coin ;;
    source <-
      random.choice ["Email Survey"; "Phone Call"; "Online Review";
                     "In Person"] ;;
    ret (Feedback.mk (i + 1) (ServiceCall.service_call_id call)
           (ServiceCall.customer_id call) feedback_type overall_satisfaction
           technician_rating timeliness_rating quality_rating value_rating
           would_recommend follow_up_required source)) ;;
  ret (pd.DataFrame feedback).

Definition generate_leads (n_leads : Z) : M (pd.frame Lead.t) :=
  leads <- forM (range n_leads) (fun i =>
    (* company_name: a Faker company or None *)
    random.coin ;;;
    lead_source <-
      random.choice ["Website"; "Referral"; "Cold Call"; "Trade Show";
                     "Social Media"; "Advertisement"] ;;
    service_interest <-
      random.choice ["AC Repair"; "Heating Repair"; "Installation";
                     "Maintenance"; "Emergency Service"] ;;
    u <- random.uniform 200 5000 ;;
    urgency <- random.choice ["Low"; "Medium"; "High"] ;;
    status <-
      random.choice ["New"; "Contacted"; "Qualified"; "Converted"; "Lost";
                     "Nurturing"] ;;
    (* last_contact_date: a Faker date or None *)
    random.coin ;;;
    rep <- random.randint 1 5 ;;
    conversion_probability <- random.randint 10 90 ;;
    ret (Lead.mk (i + 1) lead_source service_interest (round u 2) urgency
           status ("Sales Rep " ++ str rep)%string
           conversion_probability)) ;;
  ret (pd.DataFrame leads).

(** ** The incremental generators of the base tables *)

Definition generate_customers_incremental (n_customers start_id : Z)
  : M (pd.frame Customer.t) :=
  customers <- forM (range n_customers) (fun i =>
    random.coin ;;;
    customer_type <- random.choice ["residential"; "commercial"] ;;
    ret (Customer.mk (start_id + i) customer_type)) ;;
  ret (pd.DataFrame customers).

Definition generate_technicians_incremental (n_technicians start_id : Z)
  : M (pd.frame Technician.t) :=
  technicians <- forM (range n_technicians) (fun i =>
    technician_row (start_id + i)) ;;
  ret (pd.DataFrame technicians).

Definition generate_equipment_types_incremental (n_equipment start_id : Z)
  : M (pd.frame EquipmentType.t) :=
  equipment <- forM (range n_equipment) (fun i =>
    equipment_row (start_id + i)) ;;
  ret (pd.DataFrame equipment).

Definition generate_parts_incremental (n_parts start_id : Z)
  : M (pd.frame Part.t) :=
  parts <- forM (range n_parts) (fun i => part_row (start_id + i)) ;;
  ret (pd.DataFrame parts).

Definition generate_service_calls_incremental (n_calls start_id : Z)
  (customers_df : pd.frame Customer.t)
  (technicians_df : pd.frame Technician.t)
  (equipment_df : pd.frame EquipmentType.t) : M (pd.frame ServiceCall.t) :=
  service_calls <- forM (range n_calls) (fun i =>
    service_call_row (start_id + i) customers_df technicians_df
      equipment_df) ;;
  assign_total_cost (pd.DataFrame service_calls).

(** ** The two runs *)

(** The dict handed to [save_to_csv] by a full run. *)
Module Datasets.
Record t : Type := mk {
  customers : pd.frame Customer.t;
  technicians : pd.frame Technician.t;
  equipment_types : pd.frame EquipmentType.t;
  parts : pd.frame Part.t;
  installed_devices : pd.frame InstalledDevice.t;
  service_calls : pd.frame ServiceCall.t;
  parts_usage : pd.frame PartsUsage.t;
  incident_response : pd.frame IncidentResponse.t;
  vehicle_fleet : pd.frame Vehicle.t;
  mailing_list : pd.frame Contact.t;
  subscriptions : pd.frame Subscription.t;
  invoices : pd.frame Invoice.t;
  payments : pd.frame Payment.t;
  inventory : pd.frame Inventory.t;
  appointments : pd.frame Appointment.t;
  quotes : pd.frame Quote.t;
  work_orders : pd.frame WorkOrder.t;
  customer_feedback : pd.frame Feedback.t;
  leads : pd.frame Lead.t
}.
End Datasets.

(** The [else] branch of [main]: the full generation. *)
Definition main_full : M Datasets.t :=
  customers <- generate_customers 500 ;;
  technicians <- generate_technicians 15 ;;
  equipment <- generate_equipment_types 50 ;;
  parts <- generate_parts 200 ;;
  installed_devices <- generate_installed_devices customers equipment 800 ;;
  service_calls <-
    generate_service_calls customers technicians equipment 2000 ;;
  parts_usage <- generate_parts_usage service_calls parts 2 ;;
  incident_response <-
    generate_incident_response service_calls technicians 150 ;;
  vehicle_fleet <- generate_vehicle_fleet technicians 20 ;;
  mailing_list <- generate_mailing_list customers 300 ;;
  subscriptions <- generate_subscriptions customers 250 ;;
  invoices <- generate_invoices service_calls customers None ;;
  payments <- generate_payments invoices ;;
  inventory <- generate_inventory parts ;;
  appointments <-
    generate_appointments customers technicians service_calls 500 ;;
  quotes <- generate_quotes customers equipment 400 ;;
  work_orders <- generate_work_orders service_calls technicians ;;
  customer_feedback <-
    generate_customer_feedback service_calls customers 800 ;;
  leads <- generate_leads 600 ;;
  ret (Datasets.mk customers technicians equipment parts installed_devices
         service_calls parts_usage incident_response vehicle_fleet
         mailing_list subscriptions invoices payments inventory appointments
         quotes work_orders customer_feedback leads).

(** The seed files an incremental run reads: [None] is a missing file, and
    a file that exists has its header, hence its columns. *)
Module Seeds.
Record t : Type := mk {
  customers : option (list Customer.t);
  technicians : option (list Technician.t);
  equipment_types : option (list EquipmentType.t);
  parts : option (list Part.t);
  service_calls : option (list ServiceCall.t)
}.
End Seeds.

(** The dict handed to [save_to_csv] by an incremental run. *)
Module Increment.
Record t : Type := mk {
  customers : pd.frame Customer.t;
  technicians : pd.frame Technician.t;
  equipment_types : pd.frame EquipmentType.t;
  parts : pd.frame Part.t;
  service_calls : pd.frame ServiceCall.t;
  parts_usage : pd.frame PartsUsage.t;
  invoices : pd.frame Invoice.t;
  payments : pd.frame Payment.t;
  appointments : pd.frame Appointment.t;
  quotes : pd.frame Quote.t;
  work_orders : pd.frame WorkOrder.t;
  customer_feedback : pd.frame Feedback.t;
  leads : pd.frame Lead.t
}.
End Increment.

(** How an incremental run ends.  [NaNKeys] marks the runs this embedding
    does not follow: over a seed file that has its header and no row,
    pandas gives NaN for the maximum of the empty key column and the code
    goes on with NaN keys (it then raises ValueError in
    [generate_work_orders] when it is service_calls.csv that has no row,
    and writes rows keyed NaN otherwise).  The integer keys of the rows
    here do not represent NaN, so every statement about an incremental run
    is made over seed files that each hold a row. *)
Inductive incremental_run : Type :=
| NoExistingData
| NaNKeys
| Generated (datasets : Increment.t).

(** The body of [generate_incremental_data] once the seed files are read
    and the next keys are known. *)
Definition generate_increment
  (existing_customers : list Customer.t)
  (existing_technicians : list Technician.t)
  (existing_equipment : list EquipmentType.t)
  (existing_parts : list Part.t)
  (next_customer_id next_technician_id next_equipment_id next_part_id
   next_service_call_id : Z) : M Increment.t :=
  new_customers <- generate_customers_incremental 5 next_customer_id ;;
  new_technicians <- generate_technicians_incremental 2 next_technician_id ;;
  new_equipment <-
    generate_equipment_types_incremental 3 next_equipment_id ;;
  new_parts <- generate_parts_incremental 10 next_part_id ;;
  let all_customers := pd.concat (pd.Frame existing_customers) new_customers in
  let all_technicians :=
    pd.concat (pd.Frame existing_technicians) new_technicians in
  let all_equipment := pd.concat (pd.Frame existing_equipment) new_equipment in
  new_service_calls <-
    generate_service_calls_incremental 200 next_service_call_id
      all_customers all_technicians all_equipment ;;
  new_parts_usage <-
    generate_parts_usage new_service_calls
      (pd.concat (pd.Frame existing_parts) new_parts) 2 ;;
  new_invoices <- generate_invoices new_service_calls all_customers None ;;
  new_payments <- generate_payments new_invoices ;;
  new_appointments <-
    generate_appointments all_customers all_technicians new_service_calls 50 ;;
  new_quotes <- generate_quotes all_customers all_equipment 30 ;;
  new_work_orders <- generate_work_orders new_service_calls all_technicians ;;
  new_customer_feedback <-
    generate_customer_feedback new_service_calls all_customers 100 ;;
  new_leads <- generate_leads 50 ;;
  ret (Increment.mk new_customers new_technicians new_equipment new_parts
         new_service_calls new_parts_usage new_invoices new_payments
         new_appointments new_quotes new_work_orders new_customer_feedback
         new_leads).

(** [generate_incremental_data()], over the seed directory.  The key
    columns read from the seed files are numpy.int64 in the code, where
    [max() + 1] and [start_id + i] wrap around at 2^63; the keys are
    computed here in Z, which is the code's arithmetic as long as the
    maximum of a key column plus the number of new rows is below 2^63. *)
Definition generate_incremental_data (seeds : Seeds.t) : M incremental_run :=
  match Seeds.customers seeds, Seeds.technicians seeds,
        Seeds.equipment_types seeds, Seeds.parts seeds,
        Seeds.service_calls seeds with
  | Some existing_customers, Some existing_technicians,
    Some existing_equipment, Some existing_parts,
    Some existing_service_calls =>
      match pd.max (map Customer.customer_id existing_customers),
            pd.max (map Technician.technician_id existing_technicians),
            pd.max (map EquipmentType.equipment_id existing_equipment),
            pd.max (map Part.part_id existing_parts),
            pd.max (map ServiceCall.service_call_id existing_service_calls)
      with
      | Some max_customer, Some max_technician, Some max_equipment,
        Some max_part, Some max_service_call =>
          datasets <-
            generate_increment existing_customers existing_technicians
              existing_equipment existing_parts
              (max_customer + 1) (max_technician + 1) (max_equipment + 1)
              (max_part + 1) (max_service_call + 1) ;;
          ret (Generated datasets)
      | _, _, _, _, _ =>
          (* a key column without a value: its maximum is NaN *)
          ret NaNKeys
      end
  | _, _, _, _, _ =>
      (* FileNotFoundError: "No existing data found." *)
      ret NoExistingData
  end.

Inductive run : Type :=
| FullRun (datasets : Datasets.t)
| IncrementalRun (outcome : incremental_run).

(** [main()], over [sys.argv] and the seed directory. *)
Definition main (argv : list string) (seeds : Seeds.t) : M run :=
  if (1 <? len argv) && String.eqb (nth 1 argv "") "--incremental" then
    outcome <- generate_incremental_data seeds ;;
    ret (IncrementalRun outcome)
  else
    datasets <- main_full ;;
    ret (FullRun datasets).

(** * Specification vocabulary

    The predicates the statements below are written with, and the inputs
    of the worked examples. *)

(** [Total m Q]: from every state of the two tapes, [m] returns (it raises
    nothing) and its value satisfies [Q]. *)
Definition Total {A} (m : M A) (Q : A -> Prop) : Prop :=
  forall s, exists a s', m s = Ok (a, s') /\ Q a.

(** The keys [start, start + 1, ..., start + n - 1]. *)
Definition run_of_keys (start n : Z) : list Z := map (Z.add start) (range n).

(** [built key ids P df]: [df] is [pd.DataFrame(rows)] for rows whose key
    column is [ids] and that all satisfy [P]. *)
Definition built {R} (key : R -> Z) (ids : list Z) (P : R -> Prop)
  (df : pd.frame R) : Prop :=
  exists rows, df = pd.DataFrame rows /\ map key rows = ids /\ Forall P rows.

(** The tier base of a level, [{'junior': 3, ...}[level]]. *)
Definition base_skill_of (level : string) : result Z :=
  getitem base_skills level.

(** One entry of [technician_skills] for a technician of [level]: the tier
    base plus a variance within [-2, 2], clamped into [1, 10]. *)
Definition skill_entry_ok (level : string) (entry : string * Z) : Prop :=
  exists base variance,
    base_skill_of level = Ok base /\
    -2 <= variance <= 2 /\
    snd entry = Z.max 1 (Z.min 10 (base + variance)).

(** The skill columns, [f'{skill.lower()}_skill'] for each skill. *)
Definition skill_columns : list string :=
  map (fun skill => (lower skill ++ "_skill")%string) skill_names.

(** The skills of a technician row: the seven columns, each the clamped
    tier base plus variance, each in [1, 10]. *)
Definition skills_ok (t : Technician.t) : Prop :=
  map fst (Technician.skills t) = skill_columns /\
  Forall (skill_entry_ok (Technician.technician_level t))
         (Technician.skills t) /\
  Forall (fun entry => 1 <= snd entry <= 10) (Technician.skills t).

(** A service call's costs: the total is the float sum of the labor and
    parts costs, each of which was rounded to 2 decimals. *)
Definition costs_ok (r : ServiceCall.t) : Prop :=
  ServiceCall.total_cost r =
    PrimFloat.add (ServiceCall.labor_cost r) (ServiceCall.parts_cost r) /\
  (exists x, ServiceCall.labor_cost r = round x 2) /\
  (exists y, ServiceCall.parts_cost r = round y 2).

(** The parents a service call points at. *)
Definition call_refers (customer_ids technician_ids equipment_ids : list Z)
  (r : ServiceCall.t) : Prop :=
  In (ServiceCall.customer_id r) customer_ids /\
  In (ServiceCall.technician_id r) technician_ids /\
  In (ServiceCall.equipment_id r) equipment_ids.

(** A row once [total_cost] is assigned. *)
Definition with_total_cost (r : ServiceCall.t) : ServiceCall.t :=
  ServiceCall.set_total_cost r
    (PrimFloat.add (ServiceCall.labor_cost r) (ServiceCall.parts_cost r)).

(** Rows keyed 1, 2, ... in order, that all satisfy [P]: the invariant of
    a loop that numbers a row [len(rows) + 1]. *)
Definition numbered {R} (key : R -> Z) (P : R -> Prop) (rows : list R)
  : Prop :=
  map key rows = run_of_keys 1 (len rows) /\ Forall P rows.

(** The incident row built for an emergency call. *)
Definition incident_of (call : ServiceCall.t) (r : IncidentResponse.t)
  : Prop :=
  IncidentResponse.service_call_id r = ServiceCall.service_call_id call /\
  IncidentResponse.responding_technician_id r = ServiceCall.technician_id call.

(** The backup technician of an incident, when there is one, is a
    technician. *)
Definition backup_refers (technician_ids : list Z) (r : IncidentResponse.t)
  : Prop :=
  forall t, IncidentResponse.backup_technician_id r = Some t ->
            In t technician_ids.

(** The customer of a mailing-list contact, when there is one, is a
    customer. *)
Definition contact_refers (customer_ids : list Z) (r : Contact.t) : Prop :=
  forall c, Contact.customer_id r = Some c -> In c customer_ids.

(** An invoice's amounts: the total is the float sum of subtotal and tax,
    and the tax is the subtotal times the rate rounded to 2 decimals. *)
Definition amounts_ok (r : Invoice.t) : Prop :=
  Invoice.total_amount r =
    PrimFloat.add (Invoice.subtotal r) (Invoice.tax_amount r) /\
  Invoice.tax_amount r =
    round (PrimFloat.mul (Invoice.subtotal r) (Invoice.tax_rate r)) 2.

(** The invoice raised for a service call. *)
Definition invoice_of (call : ServiceCall.t) (r : Invoice.t) : Prop :=
  Invoice.service_call_id r = ServiceCall.service_call_id call /\
  Invoice.customer_id r = ServiceCall.customer_id call.

(** [n_invoices], once the default is resolved. *)
Definition invoices_requested (service_calls_df : pd.frame ServiceCall.t)
  (n_invoices : option Z) : Z :=
  match n_invoices with
  | None => int (PrimFloat.mul (float_of_Z (pd.len service_calls_df)) 0.85)
  | Some n => n
  end.

(** The payment rows produced for one invoice: one full payment when it is
    "Paid"; none or one partial payment, of the total times a
    [random.uniform(0.3, 0.8)] draw rounded to 2 decimals, when it is
    "Pending"; none otherwise. *)
Definition paid_for (invoice : Invoice.t) (chunk : list Payment.t) : Prop :=
  if String.eqb (Invoice.status invoice) "Paid" then
    exists p, chunk = [p] /\
      Payment.invoice_id p = Invoice.invoice_id invoice /\
      Payment.amount p = Invoice.total_amount invoice
  else if String.eqb (Invoice.status invoice) "Pending" then
    chunk = [] \/
    exists p u, chunk = [p] /\
      Payment.invoice_id p = Invoice.invoice_id invoice /\
      Payment.amount p =
        round (PrimFloat.mul (Invoice.total_amount invoice)
                             (random.uniform_of 0.3 0.8 u)) 2
  else chunk = [].

(** The invariant of the payment loop once the invoices [pre] are done:
    the counter is one past the rows, the rows are keyed 1, 2, ... and they
    are the payments of [pre], invoice by invoice. *)
Definition payments_so_far (pre : list Invoice.t)
  (state : list Payment.t * Z) : Prop :=
  snd state = len (fst state) + 1 /\
  map Payment.payment_id (fst state) = run_of_keys 1 (len (fst state)) /\
  exists chunks, fst state = List.concat chunks /\ Forall2 paid_for pre chunks.

(** The work order opened for a service call. *)
Definition work_order_of (call : ServiceCall.t) (r : WorkOrder.t) : Prop :=
  WorkOrder.service_call_id r = ServiceCall.service_call_id call /\
  WorkOrder.technician_id r = ServiceCall.technician_id call.

(** The feedback collected for a service call. *)
Definition feedback_of (call : ServiceCall.t) (r : Feedback.t) : Prop :=
  Feedback.service_call_id r = ServiceCall.service_call_id call /\
  Feedback.customer_id r = ServiceCall.customer_id call.

(** The historical appointment of a service call. *)
Definition appointment_of (call : ServiceCall.t) (r : Appointment.t) : Prop :=
  Appointment.customer_id r = ServiceCall.customer_id call /\
  Appointment.technician_id r = ServiceCall.technician_id call /\
  Appointment.service_call_id r = Some (ServiceCall.service_call_id call).

(** A future appointment: no service call yet, and parents drawn from the
    customer and technician tables. *)
Definition future_ok (customer_ids technician_ids : list Z)
  (r : Appointment.t) : Prop :=
  In (Appointment.customer_id r) customer_ids /\
  In (Appointment.technician_id r) technician_ids /\
  Appointment.service_call_id r = None.

(** The invariant of the [appointment_id] counter: one past the rows, which
    are keyed 1, 2, ... *)
Definition counted (state : list Appointment.t * Z) : Prop :=
  snd state = len (fst state) + 1 /\
  map Appointment.appointment_id (fst state) =
    run_of_keys 1 (len (fst state)).

(** What the full run built, table by table: the keys of every table and,
    for every row, the parents it points at among the keys of the parent
    tables, with the derived amounts of service calls and invoices. *)
Definition full_run_built (ds : Datasets.t) : Prop :=
  let customer_ids := run_of_keys 1 500 in
  let technician_ids := run_of_keys 1 15 in
  let equipment_ids := run_of_keys 1 50 in
  let part_ids := run_of_keys 1 200 in
  let service_call_ids := run_of_keys 1 2000 in
  let invoice_ids := run_of_keys 1 1700 in
  built Customer.customer_id customer_ids (fun _ => True)
    (Datasets.customers ds) /\
  built Technician.technician_id technician_ids skills_ok
    (Datasets.technicians ds) /\
  built EquipmentType.equipment_id equipment_ids (fun _ => True)
    (Datasets.equipment_types ds) /\
  built Part.part_id part_ids (fun _ => True) (Datasets.parts ds) /\
  built InstalledDevice.installation_id (run_of_keys 1 800)
    (fun r => In (InstalledDevice.customer_id r) customer_ids /\
              In (InstalledDevice.equipment_id r) equipment_ids)
    (Datasets.installed_devices ds) /\
  built ServiceCall.service_call_id service_call_ids
    (fun r => call_refers customer_ids technician_ids equipment_ids r /\
              costs_ok r)
    (Datasets.service_calls ds) /\
  built PartsUsage.usage_id
    (run_of_keys 1 (pd.len (Datasets.parts_usage ds)))
    (fun r => In (PartsUsage.service_call_id r) service_call_ids /\
              In (PartsUsage.part_id r) part_ids)
    (Datasets.parts_usage ds) /\
  built IncidentResponse.incident_id
    (run_of_keys 1
       (Z.min 150 (len (filter is_emergency
                          (pd.iterrows (Datasets.service_calls ds))))))
    (fun r => In (IncidentResponse.service_call_id r) service_call_ids /\
              In (IncidentResponse.responding_technician_id r)
                 technician_ids /\
              backup_refers technician_ids r)
    (Datasets.incident_response ds) /\
  built Vehicle.vehicle_id (run_of_keys 1 20)
    (fun r => forall t, Vehicle.assigned_technician_id r = Some t ->
                        In t technician_ids)
    (Datasets.vehicle_fleet ds) /\
  built Contact.contact_id (run_of_keys 1 800) (contact_refers customer_ids)
    (Datasets.mailing_list ds) /\
  built Subscription.subscription_id (run_of_keys 1 250)
    (fun r => In (Subscription.customer_id r) customer_ids)
    (Datasets.subscriptions ds) /\
  built Invoice.invoice_id invoice_ids
    (fun r => amounts_ok r /\
              In (Invoice.service_call_id r) service_call_ids /\
              In (Invoice.customer_id r) customer_ids)
    (Datasets.invoices ds) /\
  built Payment.payment_id (run_of_keys 1 (pd.len (Datasets.payments ds)))
    (fun r => In (Payment.invoice_id r) invoice_ids)
    (Datasets.payments ds) /\
  built Inventory.inventory_id part_ids
    (fun r => In (Inventory.part_id r) part_ids)
    (Datasets.inventory ds) /\
  built Appointment.appointment_id (run_of_keys 1 2000)
    (fun r => In (Appointment.customer_id r) customer_ids /\
              In (Appointment.technician_id r) technician_ids /\
              forall c, Appointment.service_call_id r = Some c ->
                        In c service_call_ids)
    (Datasets.appointments ds) /\
  built Quote.quote_id (run_of_keys 1 400)
    (fun r => In (Quote.customer_id r) customer_ids /\
              forall e, Quote.equipment_id r = Some e -> In e equipment_ids)
    (Datasets.quotes ds) /\
  built WorkOrder.work_order_id service_call_ids
    (fun r => In (WorkOrder.service_call_id r) service_call_ids /\
              In (WorkOrder.technician_id r) technician_ids)
    (Datasets.work_orders ds) /\
  built Feedback.feedback_id (run_of_keys 1 800)
    (fun r => In (Feedback.service_call_id r) service_call_ids /\
              In (Feedback.customer_id r) customer_ids)
    (Datasets.customer_feedback ds) /\
  built Lead.lead_id (run_of_keys 1 600) (fun _ => True) (Datasets.leads ds).

(** What an incremental run built over the existing rows, given the next
    key of each base table: the parent pools are the existing keys followed
    by the new ones. *)
Definition increment_built
  (existing_customers : list Customer.t)
  (existing_technicians : list Technician.t)
  (existing_equipment : list EquipmentType.t)
  (existing_parts : list Part.t)
  (next_customer_id next_technician_id next_equipment_id next_part_id
   next_service_call_id : Z) (ds : Increment.t) : Prop :=
  let customer_ids :=
    map Customer.customer_id existing_customers ++
    run_of_keys next_customer_id 5 in
  let technician_ids :=
    map Technician.technician_id existing_technicians ++
    run_of_keys next_technician_id 2 in
  let equipment_ids :=
    map EquipmentType.equipment_id existing_equipment ++
    run_of_keys next_equipment_id 3 in
  let part_ids :=
    map Part.part_id existing_parts ++ run_of_keys next_part_id 10 in
  let service_call_ids := run_of_keys next_service_call_id 200 in
  let invoice_ids := run_of_keys 1 170 in
  built Customer.customer_id (run_of_keys next_customer_id 5)
    (fun _ => True) (Increment.customers ds) /\
  built Technician.technician_id (run_of_keys next_technician_id 2)
    skills_ok (Increment.technicians ds) /\
  built EquipmentType.equipment_id (run_of_keys next_equipment_id 3)
    (fun _ => True) (Increment.equipment_types ds) /\
  built Part.part_id (run_of_keys next_part_id 10) (fun _ => True)
    (Increment.parts ds) /\
  built ServiceCall.service_call_id service_call_ids
    (fun r => call_refers customer_ids technician_ids equipment_ids r /\
              costs_ok r)
    (Increment.service_calls ds) /\
  built PartsUsage.usage_id
    (run_of_keys 1 (pd.len (Increment.parts_usage ds)))
    (fun r => In (PartsUsage.service_call_id r) service_call_ids /\
              In (PartsUsage.part_id r) part_ids)
    (Increment.parts_usage ds) /\
  built Invoice.invoice_id invoice_ids
    (fun r => amounts_ok r /\
              In (Invoice.service_call_id r) service_call_ids /\
              In (Invoice.customer_id r) customer_ids)
    (Increment.invoices ds) /\
  built Payment.payment_id (run_of_keys 1 (pd.len (Increment.payments ds)))
    (fun r => In (Payment.invoice_id r) invoice_ids)
    (Increment.payments ds) /\
  built Appointment.appointment_id (run_of_keys 1 200)
    (fun r => In (Appointment.customer_id r) customer_ids /\
              In (Appointment.technician_id r) technician_ids /\
              forall c, Appointment.service_call_id r = Some c ->
                        In c service_call_ids)
    (Increment.appointments ds) /\
  built Quote.quote_id (run_of_keys 1 30)
    (fun r => In (Quote.customer_id r) customer_ids /\
              forall e, Quote.equipment_id r = Some e -> In e equipment_ids)
    (Increment.quotes ds) /\
  built WorkOrder.work_order_id service_call_ids
    (fun r => In (WorkOrder.service_call_id r) service_call_ids /\
              In (WorkOrder.technician_id r) technician_ids)
    (Increment.work_orders ds) /\
  built Feedback.feedback_id (run_of_keys 1 100)
    (fun r => In (Feedback.service_call_id r) service_call_ids /\
              In (Feedback.customer_id r) customer_ids)
    (Increment.customer_feedback ds) /\
  built Lead.lead_id (run_of_keys 1 50) (fun _ => True) (Increment.leads ds).

(** The seed directory holds the five base tables, each with a row. *)
Definition seeded (seeds : Seeds.t) : Prop :=
  (exists rows, Seeds.customers seeds = Some rows /\ rows <> []) /\
  (exists rows, Seeds.technicians seeds = Some rows /\ rows <> []) /\
  (exists rows, Seeds.equipment_types seeds = Some rows /\ rows <> []) /\
  (exists rows, Seeds.parts seeds = Some rows /\ rows <> []) /\
  (exists rows, Seeds.service_calls seeds = Some rows /\ rows <> []).

(** An incremental run that generated [ds] read the five seed tables, took
    the maximum of each key column and built [ds] from the next keys. *)
Definition generated_from (seeds : Seeds.t) (ds : Increment.t) : Prop :=
  exists ec et ee ep esc mc mt me mp msc,
    Seeds.customers seeds = Some ec /\
    Seeds.technicians seeds = Some et /\
    Seeds.equipment_types seeds = Some ee /\
    Seeds.parts seeds = Some ep /\
    Seeds.service_calls seeds = Some esc /\
    pd.max (map Customer.customer_id ec) = Some mc /\
    pd.max (map Technician.technician_id et) = Some mt /\
    pd.max (map EquipmentType.equipment_id ee) = Some me /\
    pd.max (map Part.part_id ep) = Some mp /\
    pd.max (map ServiceCall.service_call_id esc) = Some msc /\
    increment_built ec et ee ep (mc + 1) (mt + 1) (me + 1) (mp + 1) (msc + 1)
      ds.

(** The key column [key] of a frame. *)
Definition keys {R} (key : R -> Z) (df : pd.frame R) : list Z :=
  map key (pd.iterrows df).

(** Every value of the foreign-key column [fk] is a key of the parent. *)
Definition refers {R} (fk : R -> Z) (df : pd.frame R) (parent_keys : list Z)
  : Prop :=
  Forall (fun r => In (fk r) parent_keys) (pd.iterrows df).

(** The same for a nullable column: [None] points at nothing. *)
Definition refers_if_set {R} (fk : R -> option Z) (df : pd.frame R)
  (parent_keys : list Z) : Prop :=
  Forall (fun r => forall v, fk r = Some v -> In v parent_keys)
         (pd.iterrows df).

(** The foreign keys of the nineteen tables of a full run, each against
    the key column of its parent table in the same run. *)
Definition full_integrity (ds : Datasets.t) : Prop :=
  let customer_ids := keys Customer.customer_id (Datasets.customers ds) in
  let technician_ids :=
    keys Technician.technician_id (Datasets.technicians ds) in
  let equipment_ids :=
    keys EquipmentType.equipment_id (Datasets.equipment_types ds) in
  let part_ids := keys Part.part_id (Datasets.parts ds) in
  let service_call_ids :=
    keys ServiceCall.service_call_id (Datasets.service_calls ds) in
  let invoice_ids := keys Invoice.invoice_id (Datasets.invoices ds) in
  refers InstalledDevice.customer_id (Datasets.installed_devices ds)
    customer_ids /\
  refers InstalledDevice.equipment_id (Datasets.installed_devices ds)
    equipment_ids /\
  refers ServiceCall.customer_id (Datasets.service_calls ds) customer_ids /\
  refers ServiceCall.technician_id (Datasets.service_calls ds)
    technician_ids /\
  refers ServiceCall.equipment_id (Datasets.service_calls ds) equipment_ids /\
  refers PartsUsage.service_call_id (Datasets.parts_usage ds)
    service_call_ids /\
  refers PartsUsage.part_id (Datasets.parts_usage ds) part_ids /\
  refers IncidentResponse.service_call_id (Datasets.incident_response ds)
    service_call_ids /\
  refers IncidentResponse.responding_technician_id
    (Datasets.incident_response ds) technician_ids /\
  refers_if_set IncidentResponse.backup_technician_id
    (Datasets.incident_response ds) technician_ids /\
  refers_if_set Vehicle.assigned_technician_id (Datasets.vehicle_fleet ds)
    technician_ids /\
  refers_if_set Contact.customer_id (Datasets.mailing_list ds) customer_ids /\
  refers Subscription.customer_id (Datasets.subscriptions ds) customer_ids /\
  refers Invoice.service_call_id (Datasets.invoices ds) service_call_ids /\
  refers Invoice.customer_id (Datasets.invoices ds) customer_ids /\
  refers Payment.invoice_id (Datasets.payments ds) invoice_ids /\
  refers Inventory.part_id (Datasets.inventory ds) part_ids /\
  refers Appointment.customer_id (Datasets.appointments ds) customer_ids /\
  refers Appointment.technician_id (Datasets.appointments ds)
    technician_ids /\
  refers_if_set Appointment.service_call_id (Datasets.appointments ds)
    service_call_ids /\
  refers Quote.customer_id (Datasets.quotes ds) customer_ids /\
  refers_if_set Quote.equipment_id (Datasets.quotes ds) equipment_ids /\
  refers WorkOrder.service_call_id (Datasets.work_orders ds)
    service_call_ids /\
  refers WorkOrder.technician_id (Datasets.work_orders ds) technician_ids /\
  refers Feedback.service_call_id (Datasets.customer_feedback ds)
    service_call_ids /\
  refers Feedback.customer_id (Datasets.customer_feedback ds) customer_ids.

(** The key column of a seed file. *)
Definition existing_keys {R} (key : R -> Z) (table : option (list R))
  : list Z :=
  match table with
  | Some rows => map key rows
  | None => []
  end.

(** The foreign keys of the thirteen tables of an incremental run.  The
    pool of a base table is the union of the rows read from its seed file
    and the rows of the increment; invoices are not read back, and the
    pool of [invoice_id] is the invoices of the increment. *)
Definition increment_integrity (seeds : Seeds.t) (ds : Increment.t) : Prop :=
  let customer_ids :=
    existing_keys Customer.customer_id (Seeds.customers seeds) ++
    keys Customer.customer_id (Increment.customers ds) in
  let technician_ids :=
    existing_keys Technician.technician_id (Seeds.technicians seeds) ++
    keys Technician.technician_id (Increment.technicians ds) in
  let equipment_ids :=
    existing_keys EquipmentType.equipment_id (Seeds.equipment_types seeds) ++
    keys EquipmentType.equipment_id (Increment.equipment_types ds) in
  let part_ids :=
    existing_keys Part.part_id (Seeds.parts seeds) ++
    keys Part.part_id (Increment.parts ds) in
  let service_call_ids :=
    existing_keys ServiceCall.service_call_id (Seeds.service_calls seeds) ++
    keys ServiceCall.service_call_id (Increment.service_calls ds) in
  let invoice_ids := keys Invoice.invoice_id (Increment.invoices ds) in
  refers ServiceCall.customer_id (Increment.service_calls ds) customer_ids /\
  refers ServiceCall.technician_id (Increment.service_calls ds)
    technician_ids /\
  refers ServiceCall.equipment_id (Increment.service_calls ds)
    equipment_ids /\
  refers PartsUsage.service_call_id (Increment.parts_usage ds)
    service_call_ids /\
  refers PartsUsage.part_id (Increment.parts_usage ds) part_ids /\
  refers Invoice.service_call_id (Increment.invoices ds) service_call_ids /\
  refers Invoice.customer_id (Increment.invoices ds) customer_ids /\
  refers Payment.invoice_id (Increment.payments ds) invoice_ids /\
  refers Appointment.customer_id (Increment.appointments ds) customer_ids /\
  refers Appointment.technician_id (Increment.appointments ds)
    technician_ids /\
  refers_if_set Appointment.service_call_id (Increment.appointments ds)
    service_call_ids /\
  refers Quote.customer_id (Increment.quotes ds) customer_ids /\
  refers_if_set Quote.equipment_id (Increment.quotes ds) equipment_ids /\
  refers WorkOrder.service_call_id (Increment.work_orders ds)
    service_call_ids /\
  refers WorkOrder.technician_id (Increment.work_orders ds)
    technician_ids /\
  refers Feedback.service_call_id (Increment.customer_feedback ds)
    service_call_ids /\
  refers Feedback.customer_id (Increment.customer_feedback ds) customer_ids.

(** The row counts of a full run that do not depend on the draws, and the
    count of incident rows against the emergency calls of the run. *)
Definition full_row_counts (ds : Datasets.t) : Prop :=
  pd.len (Datasets.customers ds) = 500 /\
  pd.len (Datasets.technicians ds) = 15 /\
  pd.len (Datasets.equipment_types ds) = 50 /\
  pd.len (Datasets.parts ds) = 200 /\
  pd.len (Datasets.installed_devices ds) = 800 /\
  pd.len (Datasets.service_calls ds) = 2000 /\
  pd.len (Datasets.incident_response ds) =
    Z.min 150 (len (filter is_emergency
                      (pd.iterrows (Datasets.service_calls ds)))) /\
  pd.len (Datasets.vehicle_fleet ds) = 20 /\
  pd.len (Datasets.mailing_list ds) = 800 /\
  pd.len (Datasets.subscriptions ds) = 250 /\
  pd.len (Datasets.invoices ds) = 1700 /\
  pd.len (Datasets.inventory ds) = 200 /\
  pd.len (Datasets.appointments ds) = 2000 /\
  pd.len (Datasets.quotes ds) = 400 /\
  pd.len (Datasets.work_orders ds) = 2000 /\
  pd.len (Datasets.customer_feedback ds) = 800 /\
  pd.len (Datasets.leads ds) = 600.

(** Keys [start, start + 1, ...]: the k-th key is [start + k], hence the
    keys are dense and strictly increasing. *)
Definition fresh_keys (start : Z) (ids : list Z) : Prop :=
  (forall k, (k < List.length ids)%nat -> nth k ids 0 = start + Z.of_nat k) /\
  StronglySorted Z.lt ids.

(** The [n] keys [start, ..., start + n - 1]. *)
Definition fresh_run (start n : Z) (ids : list Z) : Prop :=
  len ids = n /\ fresh_keys start ids.

(** numpy.int64, the dtype of a key column read from a seed file. *)
Definition int64_min : Z := - 2 ^ 63.

Definition int64_max : Z := 2 ^ 63 - 1.

Definition is_int64 (id : Z) : Prop := int64_min <= id <= int64_max.

(** The keys of a seed table leave room for [n] new ones: each is an int64
    value and so is each plus [n].  Then neither [max() + 1] nor a
    [start_id + i] of the incremental generator wraps around in numpy. *)
Definition room_for (n : Z) (ids : list Z) : Prop :=
  Forall (fun id => is_int64 id /\ is_int64 (id + n)) ids.

(** The seed tables leave room for the rows of an increment. *)
Definition seeds_leave_room (seeds : Seeds.t) : Prop :=
  room_for 5 (existing_keys Customer.customer_id (Seeds.customers seeds)) /\
  room_for 2
    (existing_keys Technician.technician_id (Seeds.technicians seeds)) /\
  room_for 3
    (existing_keys EquipmentType.equipment_id
       (Seeds.equipment_types seeds)) /\
  room_for 10 (existing_keys Part.part_id (Seeds.parts seeds)) /\
  room_for 200
    (existing_keys ServiceCall.service_call_id (Seeds.service_calls seeds)).

(** The [n] new keys of a base table continue the existing ones: they are
    the existing maximum plus 1, plus 2, ..., plus [n], none is an existing
    key, and all are int64 values. *)
Definition continues (existing : list Z) (n : Z) (new : list Z) : Prop :=
  exists m, pd.max existing = Some m /\
            fresh_run (m + 1) n new /\
            (forall id, In id existing -> ~ In id new) /\
            Forall is_int64 new.

(** The keys of the nineteen tables of a full run are 1, 2, ..., as many
    as the table has rows: the requested count, but for appointments,
    which has a row per service call, and for parts usage, incident
    response and payments, whose row counts depend on the draws. *)
Definition full_keys (ds : Datasets.t) : Prop :=
  fresh_run 1 500 (keys Customer.customer_id (Datasets.customers ds)) /\
  fresh_run 1 15 (keys Technician.technician_id (Datasets.technicians ds)) /\
  fresh_run 1 50
    (keys EquipmentType.equipment_id (Datasets.equipment_types ds)) /\
  fresh_run 1 200 (keys Part.part_id (Datasets.parts ds)) /\
  fresh_run 1 800
    (keys InstalledDevice.installation_id (Datasets.installed_devices ds)) /\
  fresh_run 1 2000
    (keys ServiceCall.service_call_id (Datasets.service_calls ds)) /\
  fresh_run 1 (pd.len (Datasets.parts_usage ds))
    (keys PartsUsage.usage_id (Datasets.parts_usage ds)) /\
  fresh_run 1 (pd.len (Datasets.incident_response ds))
    (keys IncidentResponse.incident_id (Datasets.incident_response ds)) /\
  fresh_run 1 20 (keys Vehicle.vehicle_id (Datasets.vehicle_fleet ds)) /\
  fresh_run 1 800 (keys Contact.contact_id (Datasets.mailing_list ds)) /\
  fresh_run 1 250
    (keys Subscription.subscription_id (Datasets.subscriptions ds)) /\
  fresh_run 1 1700 (keys Invoice.invoice_id (Datasets.invoices ds)) /\
  fresh_run 1 (pd.len (Datasets.payments ds))
    (keys Payment.payment_id (Datasets.payments ds)) /\
  fresh_run 1 200 (keys Inventory.inventory_id (Datasets.inventory ds)) /\
  fresh_run 1 2000
    (keys Appointment.appointment_id (Datasets.appointments ds)) /\
  fresh_run 1 400 (keys Quote.quote_id (Datasets.quotes ds)) /\
  fresh_run 1 2000 (keys WorkOrder.work_order_id (Datasets.work_orders ds)) /\
  fresh_run 1 800
    (keys Feedback.feedback_id (Datasets.customer_feedback ds)) /\
  fresh_run 1 600 (keys Lead.lead_id (Datasets.leads ds)).

(** The keys of the five base tables of an increment continue those of the
    seed files: 5 customers, 2 technicians, 3 equipment types, 10 parts and
    200 service calls. *)
Definition increment_keys (seeds : Seeds.t) (ds : Increment.t) : Prop :=
  continues (existing_keys Customer.customer_id (Seeds.customers seeds)) 5
            (keys Customer.customer_id (Increment.customers ds)) /\
  continues
    (existing_keys Technician.technician_id (Seeds.technicians seeds)) 2
    (keys Technician.technician_id (Increment.technicians ds)) /\
  continues
    (existing_keys EquipmentType.equipment_id (Seeds.equipment_types seeds)) 3
    (keys EquipmentType.equipment_id (Increment.equipment_types ds)) /\
  continues (existing_keys Part.part_id (Seeds.parts seeds)) 10
            (keys Part.part_id (Increment.parts ds)) /\
  continues
    (existing_keys ServiceCall.service_call_id (Seeds.service_calls seeds))
    200
    (keys ServiceCall.service_call_id (Increment.service_calls ds)).

(** The costs of a service call, as the claim reads them: the total is
    exactly the float sum of labor and parts, both of which are values
    rounded to 2 decimals, and the equality also holds once both sides are
    rounded to 2 decimals. *)
Definition total_is_labor_plus_parts (r : ServiceCall.t) : Prop :=
  costs_ok r /\
  round (ServiceCall.total_cost r) 2 =
    round (PrimFloat.add (ServiceCall.labor_cost r)
                         (ServiceCall.parts_cost r)) 2.



(** A pending invoice of total 0.01, and a tape whose second draw (the
    fraction of the partial payment) is the largest one. *)
Definition penny_invoice : Invoice.t :=
  Invoice.mk 1 1 1 "Net 30" 0.01 0 0 0.01 "Pending".

(** Every draw is 0, except the second one of the [random] tape. *)
Definition high_fraction_sources : sources :=
  mkSources (fun pos => if Nat.eqb pos 1 then 2 ^ 53 - 1 else 0) 0
            (fun _ => 0) 0.

(** One service call, for the examples. *)
Definition sample_call : ServiceCall.t :=
  ServiceCall.mk 1 1 1 1 "Repair" 2 120 30 150.




(** [Raises m e]: from every state, [m] raises [e]. *)
Definition Raises {A} (m : M A) (e : exn) : Prop :=
  forall s, m s = Raise e.

(** An Emergency call, served by technician 7. *)
Definition emergency_call : ServiceCall.t :=
  ServiceCall.mk 2 1 7 1 "Emergency" 3 240 60 300.

(** Technician 7. *)
Definition on_call_technician : Technician.t :=
  Technician.mk 7 "senior" 45 8 "Advanced" [].

(** Tapes that draw 0, 1, 2, ... *)
Definition counting_sources : sources :=
  mkSources (fun pos => Z.of_nat pos) 0 (fun pos => Z.of_nat pos) 0.

(** ** The rows of the dependent tables

    What a row of a generator holds, for the further properties at the
    end. *)

(** The invoice raised for a service call: its two parents are those of
    the call, the subtotal is the call's total cost marked up by a
    [random.uniform(1.1, 1.3)] draw and rounded, the tax rate is one of the
    four rates, the status one of the four statuses. *)
Definition invoice_row_of (call : ServiceCall.t) (r : Invoice.t) : Prop :=
  invoice_of call r /\
  (exists u, Invoice.subtotal r =
             round (PrimFloat.mul (ServiceCall.total_cost call)
                                  (random.uniform_of 1.1 1.3 u)) 2) /\
  In (Invoice.tax_rate r) tax_rates /\
  amounts_ok r /\
  In (Invoice.status r) invoice_status.

(** The feedback collected for a service call: its parents are those of
    the call and its five ratings lie in [1, 10]. *)
Definition feedback_row_of (call : ServiceCall.t) (r : Feedback.t) : Prop :=
  feedback_of call r /\
  1 <= Feedback.overall_satisfaction r <= 10 /\
  1 <= Feedback.technician_rating r <= 10 /\
  1 <= Feedback.timeliness_rating r <= 10 /\
  1 <= Feedback.quality_rating r <= 10 /\
  1 <= Feedback.value_rating r <= 10.

(** The historical appointment of a service call: parents, type and
    duration are those of the call and the status is "Completed". *)
Definition historical_row_of (call : ServiceCall.t) (r : Appointment.t)
  : Prop :=
  appointment_of call r /\
  Appointment.appointment_type r = ServiceCall.service_type call /\
  Appointment.estimated_duration_hours r = ServiceCall.duration_hours call /\
  Appointment.status r = "Completed" /\
  In (Appointment.priority r) ["Low"; "Medium"; "High"; "Emergency"].

(** A future appointment: no service call, parents drawn from the two
    tables, a status still open and no "Emergency" priority. *)
Definition future_row (customer_ids technician_ids : list Z)
  (r : Appointment.t) : Prop :=
  future_ok customer_ids technician_ids r /\
  In (Appointment.appointment_type r) appointment_types /\
  In (Appointment.status r) ["Scheduled"; "Confirmed"] /\
  In (Appointment.priority r) ["Low"; "Medium"; "High"].

(** The contact of an existing customer. *)
Definition customer_contact (customer : Customer.t) (r : Contact.t) : Prop :=
  Contact.customer_id r = Some (Customer.customer_id customer) /\
  Contact.contact_source r = "Existing Customer".

(** A prospect: no customer, and a source that is not an existing
    customer. *)
Definition prospect (r : Contact.t) : Prop :=
  Contact.customer_id r = None /\
  In (Contact.contact_source r)
     ["Website"; "Referral"; "Trade Show"; "Social Media"; "Direct Mail"].

(** The stock row of a part: both keys and the unit cost are the part's,
    the three levels lie in their ranges, the status is "Low Stock" exactly
    when the stock is at or below the reorder point, and the value is the
    stock times the unit cost, rounded to 2 decimals. *)
Definition stock_row_of (part : Part.t) (r : Inventory.t) : Prop :=
  Inventory.inventory_id r = Part.part_id part /\
  Inventory.part_id r = Part.part_id part /\
  Inventory.unit_cost r = Part.unit_cost part /\
  0 <= Inventory.current_stock r <= 100 /\
  5 <= Inventory.reorder_point r <= 25 /\
  50 <= Inventory.max_stock_level r <= 200 /\
  Inventory.stock_status r =
    (if Inventory.current_stock r <=? Inventory.reorder_point r
     then "Low Stock" else "In Stock") /\
  Inventory.total_value r =
    round (PrimFloat.mul (float_of_Z (Inventory.current_stock r))
                         (Part.unit_cost part)) 2.

(** The work order of a service call: its key and its service call are
    the call's key, the technician is the call's, the estimate is the
    call's duration, the actual hours are the duration plus a
    [random.uniform(-0.5, 1.0)] draw, and the order is "Completed". *)
Definition work_order_row_of (call : ServiceCall.t) (r : WorkOrder.t)
  : Prop :=
  WorkOrder.work_order_id r = ServiceCall.service_call_id call /\
  WorkOrder.service_call_id r = ServiceCall.service_call_id call /\
  WorkOrder.technician_id r = ServiceCall.technician_id call /\
  WorkOrder.estimated_hours r = ServiceCall.duration_hours call /\
  (exists u, WorkOrder.actual_hours r =
             PrimFloat.add (ServiceCall.duration_hours call)
                           (random.uniform_of (-0.5) 1.0 u)) /\
  WorkOrder.status r = "Completed".

(** The usage rows of one service call: at most [2 * avg] of them, each
    for the call, with a part of the table and a quantity in [1, 5]. *)
Definition usage_of (part_ids : list Z) (avg : Z) (call : ServiceCall.t)
  (group : list PartsUsage.t) : Prop :=
  len group <= 2 * avg /\
  Forall (fun r =>
            PartsUsage.service_call_id r = ServiceCall.service_call_id call /\
            In (PartsUsage.part_id r) part_ids /\
            1 <= PartsUsage.quantity_used r <= 5) group.

Definition usage_keys (rows : list PartsUsage.t) : Prop :=
  map PartsUsage.usage_id rows = run_of_keys 1 (len rows).

(** The number of invoices of a status. *)
Definition count_status (status : string) (invoices : list Invoice.t) : Z :=
  len (filter (fun invoice => String.eqb (Invoice.status invoice) status)
              invoices).

(** A payment row is a full payment, "Completed" and without notes, or a
    partial one, "Completed" or "Pending" and noted "Partial payment". *)
Definition payment_kind (p : Payment.t) : Prop :=
  In (Payment.payment_method p) payment_methods /\
  ((Payment.status p = "Completed" /\ Payment.notes p = None) \/
   (In (Payment.status p) ["Completed"; "Pending"] /\
    Payment.notes p = Some "Partial payment")).

(** A vehicle row: the number is "HVAC-" and the key on three digits, the
    mileage and the year lie in their ranges, and the next maintenance is
    3000 to 8000 past the current mileage. *)
Definition vehicle_ok (r : Vehicle.t) : Prop :=
  Vehicle.vehicle_number r =
    ("HVAC-" ++ zfill 3 (Vehicle.vehicle_id r))%string /\
  20000 <= Vehicle.current_mileage r <= 150000 /\
  3000 <= Vehicle.next_maintenance_mileage r - Vehicle.current_mileage r
    <= 8000 /\
  2015 <= Vehicle.year r <= 2023.

(** A subscription row: the annual cost is the cost of its plan in
    [plan_costs], and the discount is one of the five steps. *)
Definition subscription_ok (r : Subscription.t) : Prop :=
  In (Subscription.service_plan r) service_plans /\
  getitem plan_costs (Subscription.service_plan r)
    = Ok (Subscription.annual_cost r) /\
  In (Subscription.discount_percentage r) [0; 5; 10; 15; 20].

(** How a service call is priced: the duration is a draw of
    [random.uniform(1, 8)] rounded to one decimal, the labor cost is the
    duration times an hourly rate within [50, 100], rounded to 2 decimals,
    and the parts cost is a draw of [random.uniform(0, 300)] rounded to 2
    decimals. *)
Definition call_priced (r : ServiceCall.t) : Prop :=
  In (ServiceCall.service_type r) service_types /\
  (exists u, ServiceCall.duration_hours r =
               round (random.uniform_of 1 8 u) 1) /\
  (exists rate, 50 <= rate <= 100 /\
     ServiceCall.labor_cost r =
       round (PrimFloat.mul (ServiceCall.duration_hours r)
                            (float_of_Z rate)) 2) /\
  (exists v, ServiceCall.parts_cost r = round (random.uniform_of 0 300 v) 2).

(** The amounts of a quote: the labor cost is the hours times the rate,
    not rounded; the total is the marked-up sum of the labor cost and of
    the equipment and parts costs before they are rounded for their own
    columns; a quote without equipment cost names no equipment. *)
Definition quote_amounts (r : Quote.t) : Prop :=
  75 <= Quote.labor_rate r <= 125 /\
  (exists u, Quote.labor_hours r = round (random.uniform_of 2 16 u) 1) /\
  Quote.labor_cost r =
    PrimFloat.mul (Quote.labor_hours r) (float_of_Z (Quote.labor_rate r)) /\
  exists equipment_cost p m,
    Quote.equipment_cost r = round equipment_cost 2 /\
    Quote.parts_cost r = round (random.uniform_of 50 1200 p) 2 /\
    Quote.total_amount r =
      round (PrimFloat.mul
               (PrimFloat.add (PrimFloat.add (Quote.labor_cost r)
                                             equipment_cost)
                              (random.uniform_of 50 1200 p))
               (random.uniform_of 1.1 1.4 m)) 2 /\
    ((equipment_cost = 0%float /\ Quote.equipment_id r = None) \/
     (exists e, equipment_cost = random.uniform_of 500 8000 e)).

(** The row counts of an increment. *)
Definition increment_row_counts (ds : Increment.t) : Prop :=
  pd.len (Increment.customers ds) = 5 /\
  pd.len (Increment.technicians ds) = 2 /\
  pd.len (Increment.equipment_types ds) = 3 /\
  pd.len (Increment.parts ds) = 10 /\
  pd.len (Increment.service_calls ds) = 200 /\
  pd.len (Increment.invoices ds) = 170 /\
  pd.len (Increment.appointments ds) = 200 /\
  pd.len (Increment.quotes ds) = 30 /\
  pd.len (Increment.work_orders ds) = 200 /\
  pd.len (Increment.customer_feedback ds) = 100 /\
  pd.len (Increment.leads ds) = 50.

(** The keys of the dependent tables of an increment: they start at 1
    again, whatever the seed files hold, but for the work orders, which
    take the keys of the new service calls. *)
Definition dependent_keys_restart (ds : Increment.t) : Prop :=
  keys PartsUsage.usage_id (Increment.parts_usage ds) =
    run_of_keys 1 (pd.len (Increment.parts_usage ds)) /\
  keys Invoice.invoice_id (Increment.invoices ds) = run_of_keys 1 170 /\
  keys Payment.payment_id (Increment.payments ds) =
    run_of_keys 1 (pd.len (Increment.payments ds)) /\
  keys Appointment.appointment_id (Increment.appointments ds) =
    run_of_keys 1 200 /\
  keys Quote.quote_id (Increment.quotes ds) = run_of_keys 1 30 /\
  keys Feedback.feedback_id (Increment.customer_feedback ds) =
    run_of_keys 1 100 /\
  keys Lead.lead_id (Increment.leads ds) = run_of_keys 1 50 /\
  keys WorkOrder.work_order_id (Increment.work_orders ds) =
    keys ServiceCall.service_call_id (Increment.service_calls ds).

(** One of the five seed files is missing. *)
Definition seed_missing (seeds : Seeds.t) : Prop :=
  Seeds.customers seeds = None \/
  Seeds.technicians seeds = None \/
  Seeds.equipment_types seeds = None \/
  Seeds.parts seeds = None \/
  Seeds.service_calls seeds = None.

(** A customer, an equipment type and a part, for the examples. *)
Definition home_customer : Customer.t := Customer.mk 1 "residential".

Definition furnace : EquipmentType.t :=
  EquipmentType.mk 1 "Carrier" "X100" "Furnace" 24000 15.

Definition filter_part : Part.t := Part.mk 1 "Filter" 12.5.

(** A seed directory of one row per base table. *)
Definition one_row_seeds : Seeds.t :=
  Seeds.mk (Some [home_customer]) (Some [on_call_technician])
           (Some [furnace]) (Some [filter_part]) (Some [sample_call]).

(** A seed directory before the first full run. *)
Definition no_seeds : Seeds.t := Seeds.mk None None None None None.

(** * Properties *)

#[local] Arguments Z.add : simpl never.
#[local] Arguments Z.sub : simpl never.
#[local] Arguments Z.mul : simpl never.
#[local] Arguments Z.max : simpl never.
#[local] Arguments Z.min : simpl never.
#[local] Arguments Z.of_nat : simpl never.
#[local] Arguments Z.to_nat : simpl never.

(** ** Total correctness of a computation *)

Lemma Total_ret {A} (a : A) (Q : A -> Prop) : Q a -> Total (ret a) Q.
Proof. intros H s. exists a, s. split; [reflexivity | exact H]. Qed.

Lemma Total_bind {A B} (m : M A) (k : A -> M B) (P : A -> Prop)
  (Q : B -> Prop) :
  Total m P -> (forall a, P a -> Total (k a) Q) -> Total (bind m k) Q.
Proof.
  intros Hm Hk s. destruct (Hm s) as (a & s1 & E & Pa).
  destruct (Hk a Pa s1) as (b & s2 & E' & Qb).
  exists b, s2. unfold bind. rewrite E. split; assumption.
Qed.

Lemma Total_weaken {A} (m : M A) (P Q : A -> Prop) :
  Total m P -> (forall a, P a -> Q a) -> Total m Q.
Proof.
  intros Hm HPQ s. destruct (Hm s) as (a & s' & E & Pa).
  exists a, s'. split; [exact E | apply HPQ, Pa].
Qed.

(** A run has one result, so two facts about it hold together. *)
Lemma Total_and {A} (m : M A) (P Q : A -> Prop) :
  Total m P -> Total m Q -> Total m (fun a => P a /\ Q a).
Proof.
  intros HP HQ s. destruct (HP s) as (a & s1 & E1 & Pa).
  destruct (HQ s) as (a' & s2 & E2 & Qa).
  rewrite E1 in E2. injection E2 as <- <-.
  exists a, s1. auto.
Qed.

Lemma Total_raw : Total random.raw (fun _ => True).
Proof. intros s. eexists _, _. split; [reflexivity | exact I]. Qed.

Lemma nth_mod_In {A} (l : list A) (d : A) (r : Z) :
  l <> [] -> In (nth (Z.to_nat (r mod len l)) l d) l.
Proof.
  intros Hl. apply nth_In. unfold len.
  assert (0 < Z.of_nat (List.length l)).
  { destruct l; [congruence | cbn [List.length]; lia]. }
  pose proof (Z.mod_pos_bound r (Z.of_nat (List.length l)) H). lia.
Qed.

Lemma Total_choice {A} (seq : list A) :
  seq <> [] -> Total (random.choice seq) (fun a => In a seq).
Proof.
  intros Hne. destruct seq as [|x t]; [congruence|].
  unfold random.choice. eapply Total_bind; [apply Total_raw|].
  intros r _. apply Total_ret. apply nth_mod_In. discriminate.
Qed.

Lemma Total_coin : Total random.coin (fun _ => True).
Proof.
  eapply Total_weaken; [apply Total_choice; discriminate | auto].
Qed.

Lemma Total_randint (a b : Z) :
  a <= b -> Total (random.randint a b) (fun z => a <= z <= b).
Proof.
  intros Hab. unfold random.randint.
  destruct (b <? a) eqn:E; [apply Z.ltb_lt in E; lia|].
  eapply Total_bind; [apply Total_raw|]. intros r _. apply Total_ret.
  pose proof (Z.mod_pos_bound r (b - a + 1)). lia.
Qed.

Lemma Total_uniform (a b : float) :
  Total (random.uniform a b) (fun x => exists r, x = random.uniform_of a b r).
Proof.
  unfold random.uniform. eapply Total_bind; [apply Total_raw|].
  intros r _. apply Total_ret. exists r. reflexivity.
Qed.

Lemma Total_maybe {A} (expr : M A) (P : A -> Prop) :
  Total expr P ->
  Total (random.maybe expr) (fun o => forall x, o = Some x -> P x).
Proof.
  intros H. unfold random.maybe.
  eapply Total_bind; [apply Total_coin|]. intros [|] _.
  - eapply Total_bind; [exact H|]. intros x Px. apply Total_ret.
    intros y [= <-]. exact Px.
  - apply Total_ret. discriminate.
Qed.

Lemma Total_lift {A} (r : result A) (a : A) :
  r = Ok a -> Total (lift r) (fun x => x = a).
Proof. intros ->. apply Total_ret. reflexivity. Qed.

Lemma Total_col {R V} (rows : list R) (name : string) (field : R -> V) :
  Total (pd.col (pd.Frame rows) name field) (fun l => l = map field rows).
Proof. apply Total_ret. reflexivity. Qed.

Lemma Total_where {R} (rows : list R) (name : string) (test : R -> bool) :
  Total (pd.where_ (pd.Frame rows) name test)
        (fun df => df = pd.Frame (filter test rows)).
Proof. apply Total_ret. reflexivity. Qed.

(** A key drawn from a column of a frame that has a row. *)
Lemma Total_pick {R} (rows : list R) (name : string) (field : R -> Z) :
  rows <> [] ->
  Total (ids <- pd.col (pd.Frame rows) name field ;; random.choice ids)
        (fun v => In v (map field rows)).
Proof.
  intros Hne. eapply Total_bind; [apply Total_col|]. intros ids ->.
  apply Total_choice. destruct rows; [congruence | discriminate].
Qed.

Lemma Total_forM {A B} (l : list A) (f : A -> M B) (P : A -> B -> Prop) :
  (forall x, In x l -> Total (f x) (P x)) ->
  Total (forM l f) (fun ys => Forall2 P l ys).
Proof.
  induction l as [|x t IH]; intros H.
  - apply Total_ret. constructor.
  - cbn [forM]. eapply Total_bind; [apply H; left; reflexivity|].
    intros y Py. eapply Total_bind.
    + apply IH. intros z Hz. apply H. right. exact Hz.
    + intros ys Hys. apply Total_ret. constructor; assumption.
Qed.

(** A loop over [l] that keeps an invariant of the part of [l] consumed. *)
Lemma Total_foldM_from {A S} (f : S -> A -> M S)
  (Inv : list A -> S -> Prop) (whole : list A) :
  (forall pre x st, In x whole -> Inv pre st ->
     Total (f st x) (Inv (pre ++ [x]))) ->
  forall l pre st, whole = pre ++ l -> Inv pre st ->
    Total (foldM f l st) (Inv whole).
Proof.
  intros Hstep. induction l as [|x t IH]; intros pre st E HI.
  - rewrite app_nil_r in E. subst whole. apply Total_ret. exact HI.
  - cbn [foldM]. eapply Total_bind.
    + apply (Hstep pre x st); [|exact HI].
      rewrite E. apply in_or_app. right. left. reflexivity.
    + intros st' HI'. apply (IH (pre ++ [x])); [|exact HI'].
      rewrite <- app_assoc. exact E.
Qed.

Lemma Total_foldM {A S} (f : S -> A -> M S) (Inv : list A -> S -> Prop)
  (l : list A) (st : S) :
  Inv [] st ->
  (forall pre x st, In x l -> Inv pre st ->
     Total (f st x) (Inv (pre ++ [x]))) ->
  Total (foldM f l st) (Inv l).
Proof.
  intros H0 Hstep.
  apply (Total_foldM_from f Inv l Hstep l [] st); [reflexivity | exact H0].
Qed.

(** *** Facts on [range] and key columns *)

Lemma range_length (n : Z) : List.length (range n) = Z.to_nat n.
Proof. unfold range. rewrite length_map, length_seq. reflexivity. Qed.

Lemma range_In (n i : Z) : In i (range n) <-> 0 <= i < n.
Proof.
  unfold range. rewrite in_map_iff. split.
  - intros (k & <- & Hk). apply in_seq in Hk. lia.
  - intros H. exists (Z.to_nat i). split; [lia|]. apply in_seq. lia.
Qed.

Lemma range_nth (n : Z) (k : nat) :
  (k < Z.to_nat n)%nat -> nth k (range n) 0 = Z.of_nat k.
Proof.
  intros H. unfold range.
  change 0 with (Z.of_nat 0). rewrite map_nth, seq_nth by exact H.
  reflexivity.
Qed.

Lemma run_of_keys_length (start n : Z) :
  List.length (run_of_keys start n) = Z.to_nat n.
Proof. unfold run_of_keys. rewrite length_map. apply range_length. Qed.

Lemma run_of_keys_In (start n v : Z) :
  In v (run_of_keys start n) <-> start <= v < start + n.
Proof.
  unfold run_of_keys. rewrite in_map_iff. split.
  - intros (i & <- & Hi). apply range_In in Hi. lia.
  - intros H. exists (v - start). split; [lia|]. apply range_In. lia.
Qed.

Lemma run_of_keys_nth (start n : Z) (k : nat) :
  (k < Z.to_nat n)%nat -> nth k (run_of_keys start n) 0 = start + Z.of_nat k.
Proof.
  intros H. unfold run_of_keys.
  rewrite <- (range_nth n k H).
  rewrite (nth_indep _ 0 (start + 0)).
  - apply map_nth.
  - rewrite length_map, range_length. exact H.
Qed.

Lemma Forall2_length_eq {A B} (P : A -> B -> Prop) (l : list A)
  (l' : list B) : Forall2 P l l' -> List.length l' = List.length l.
Proof. induction 1; cbn; congruence. Qed.

Lemma Forall2_map_eq {A B C} (P : A -> B -> Prop) (f : A -> C) (g : B -> C)
  (l : list A) (l' : list B) :
  Forall2 P l l' -> (forall a b, In a l -> P a b -> g b = f a) ->
  map g l' = map f l.
Proof.
  induction 1 as [|a b l l' Hab _ IH]; intros H; [reflexivity|].
  cbn. f_equal.
  - apply H; [left; reflexivity | exact Hab].
  - apply IH. intros a' b' Ha'. apply H. right. exact Ha'.
Qed.

Lemma Forall2_Forall_r {A B} (P : A -> B -> Prop) (Q : B -> Prop)
  (l : list A) (l' : list B) :
  Forall2 P l l' -> (forall a b, In a l -> P a b -> Q b) -> Forall Q l'.
Proof.
  induction 1 as [|a b l l' Hab _ IH]; intros H; constructor.
  - apply (H a); [left; reflexivity | exact Hab].
  - apply IH. intros a' b' Ha'. apply H. right. exact Ha'.
Qed.

Lemma run_of_keys_snoc (start n : Z) :
  0 <= n -> run_of_keys start (n + 1) = run_of_keys start n ++ [start + n].
Proof.
  intros Hn. unfold run_of_keys, range.
  replace (Z.to_nat (n + 1)) with (Z.to_nat n + 1)%nat by lia.
  rewrite seq_app, !map_app. cbn. do 3 f_equal. lia.
Qed.

Lemma len_app {A} (l l' : list A) : len (l ++ l') = len l + len l'.
Proof. unfold len. rewrite length_app. lia. Qed.

Lemma len_one {A} (x : A) : len [x] = 1.
Proof. reflexivity. Qed.

Lemma len_nonneg {A} (l : list A) : 0 <= len l.
Proof. unfold len. lia. Qed.

(** Appending the row keyed [len(rows) + 1] keeps the keys 1, 2, ... *)
Lemma keys_snoc {R} (key : R -> Z) (rows : list R) (r : R) :
  map key rows = run_of_keys 1 (len rows) ->
  key r = len rows + 1 ->
  map key (rows ++ [r]) = run_of_keys 1 (len (rows ++ [r])).
Proof.
  intros Hk Hr. rewrite map_app, len_app. cbn [map].
  change (len [r]) with 1.
  rewrite run_of_keys_snoc by apply len_nonneg.
  rewrite Hk, Hr. do 2 f_equal. lia.
Qed.

(** *** What a generator built *)

Lemma iterrows_DataFrame {R} (rows : list R) :
  pd.iterrows (pd.DataFrame rows) = rows.
Proof. destruct rows; reflexivity. Qed.

Lemma DataFrame_Frame {R} (rows : list R) :
  rows <> [] -> pd.DataFrame rows = pd.Frame rows.
Proof. destruct rows; [congruence | reflexivity]. Qed.

Lemma built_keys {R} (key : R -> Z) ids P (df : pd.frame R) :
  built key ids P df -> map key (pd.iterrows df) = ids.
Proof. intros (rows & -> & Hk & _). rewrite iterrows_DataFrame. exact Hk. Qed.

Lemma built_Forall {R} (key : R -> Z) ids P (df : pd.frame R) :
  built key ids P df -> Forall P (pd.iterrows df).
Proof. intros (rows & -> & _ & HP). rewrite iterrows_DataFrame. exact HP. Qed.

Lemma built_len {R} (key : R -> Z) ids P (df : pd.frame R) :
  built key ids P df -> pd.len df = len ids.
Proof.
  intros H. apply built_keys in H. unfold pd.len, len.
  rewrite <- H, length_map. reflexivity.
Qed.

Lemma built_Frame {R} (key : R -> Z) ids P (df : pd.frame R) :
  built key ids P df -> ids <> [] ->
  exists rows, df = pd.Frame rows /\ rows <> [] /\
               map key rows = ids /\ Forall P rows.
Proof.
  intros (rows & -> & Hk & HP) Hne. exists rows.
  assert (rows <> []) by (intros ->; cbn in Hk; congruence).
  rewrite DataFrame_Frame by assumption. auto.
Qed.

Lemma built_weaken {R} (key : R -> Z) ids (P Q : R -> Prop)
  (df : pd.frame R) :
  built key ids P df -> (forall r, P r -> Q r) -> built key ids Q df.
Proof.
  intros (rows & E & Hk & HP) HPQ. exists rows. repeat split; auto.
  eapply Forall_impl; eauto.
Qed.

Lemma run_of_keys_nonempty (start n : Z) : 0 < n -> run_of_keys start n <> [].
Proof.
  intros Hn E. apply (f_equal (@List.length Z)) in E.
  rewrite run_of_keys_length in E. cbn in E. lia.
Qed.

Lemma len_run_of_keys (start n : Z) : len (run_of_keys start n) = Z.max 0 n.
Proof. unfold len. rewrite run_of_keys_length. lia. Qed.

(** [for x in l: rows.append(row(x))] *)
Lemma Total_appended {A R} (l : list A) (body : A -> M R) (key : R -> Z)
  (pk : A -> Z) (P : R -> Prop) :
  (forall x, In x l -> Total (body x) (fun r => key r = pk x /\ P r)) ->
  Total (forM l body)
        (fun rows => map key rows = map pk l /\ Forall P rows).
Proof.
  intros H. eapply Total_weaken; [apply Total_forM, H|].
  intros rows HF. split.
  - eapply Forall2_map_eq; [exact HF|]. intros a b _ [E _]. exact E.
  - eapply Forall2_Forall_r; [exact HF|]. intros a b _ [_ Pb]. exact Pb.
Qed.

(** ... then [pd.DataFrame(rows)]. *)
Lemma Total_per_row {A R} (l : list A) (body : A -> M R) (key : R -> Z)
  (pk : A -> Z) (P : R -> Prop) :
  (forall x, In x l -> Total (body x) (fun r => key r = pk x /\ P r)) ->
  Total (rows <- forM l body ;; ret (pd.DataFrame rows))
        (built key (map pk l) P).
Proof.
  intros H. eapply Total_bind; [apply (Total_appended l body key pk P H)|].
  intros rows [Hk HP]. apply Total_ret. exists rows. auto.
Qed.

(** [for i in range(n)] with the key [start + i]. *)
Lemma Total_rows {R} (n start : Z) (body : Z -> M R) (key : R -> Z)
  (P : R -> Prop) :
  (forall i, 0 <= i < n -> Total (body i) (fun r => key r = start + i /\ P r)) ->
  Total (rows <- forM (range n) body ;; ret (pd.DataFrame rows))
        (built key (run_of_keys start n) P).
Proof.
  intros H. apply (Total_per_row (range n) body key (Z.add start) P).
  intros i Hi. apply H, range_In, Hi.
Qed.

Lemma combine_fst {A B} (l : list A) (l' : list B) :
  List.length l = List.length l' -> map fst (combine l l') = l.
Proof.
  revert l'. induction l as [|a t IH]; intros [|b t'] E; cbn in *;
    try congruence.
  f_equal. apply IH. congruence.
Qed.

Lemma enumerate_fst {A} (l : list A) : map fst (enumerate l) = range (len l).
Proof.
  unfold enumerate. apply combine_fst.
  rewrite range_length. unfold len. lia.
Qed.

Lemma enumerate_In {A} (l : list A) (i : Z) (x : A) :
  In (i, x) (enumerate l) -> In x l.
Proof. unfold enumerate. apply in_combine_r. Qed.

(** [for i, (_, x) in enumerate(df.iterrows())] with the key [i + 1]. *)
Lemma Total_enumerated {A R} (l : list A) (body : Z * A -> M R)
  (key : R -> Z) (P : R -> Prop) :
  (forall i x, In x l ->
     Total (body (i, x)) (fun r => key r = 1 + i /\ P r)) ->
  Total (rows <- forM (enumerate l) body ;; ret (pd.DataFrame rows))
        (built key (run_of_keys 1 (len l)) P).
Proof.
  intros H. unfold run_of_keys. rewrite <- enumerate_fst, map_map.
  apply (Total_per_row (enumerate l) body key (fun ix => 1 + fst ix) P).
  intros [i x] Hix. apply H. eapply enumerate_In, Hix.
Qed.

(** *** [DataFrame.sample] *)

Lemma remove_nth_length {R} (i : nat) (l : list R) :
  (i < List.length l)%nat ->
  List.length (pd.remove_nth i l) = (List.length l - 1)%nat.
Proof.
  revert i. induction l as [|x t IH]; intros i Hi; cbn in Hi; [lia|].
  destruct i as [|j]; cbn; [lia|].
  rewrite IH by lia. destruct t; cbn in *; lia.
Qed.

Lemma remove_nth_incl {R} (i : nat) (l : list R) : incl (pd.remove_nth i l) l.
Proof.
  revert i. induction l as [|x t IH]; intros i; [destruct i; apply incl_refl|].
  destruct i as [|j]; cbn.
  - apply incl_tl, incl_refl.
  - apply incl_cons; [left; reflexivity | apply incl_tl, IH].
Qed.

Lemma Total_numpy_raw : Total pd.numpy_raw (fun _ => True).
Proof. intros s. eexists _, _. split; [reflexivity | exact I]. Qed.

Lemma Total_draw {R} (k : nat) (rows : list R) :
  (k <= List.length rows)%nat ->
  Total (pd.draw k rows) (fun l => List.length l = k /\ incl l rows).
Proof.
  revert rows. induction k as [|k IH]; intros rows Hk.
  - apply Total_ret. split; [reflexivity | apply incl_nil_l].
  - destruct rows as [|x t]; [cbn in Hk; lia|].
    cbn [pd.draw]. eapply Total_bind; [apply Total_numpy_raw|].
    intros r _.
    assert (Hi : (Z.to_nat (r mod len (x :: t)) < List.length (x :: t))%nat).
    { unfold len. pose proof (Z.mod_pos_bound r (Z.of_nat (List.length (x :: t)))).
      cbn [List.length] in *. lia. }
    eapply Total_bind.
    + apply IH. rewrite remove_nth_length by exact Hi. lia.
    + intros rest [Hl Hincl]. apply Total_ret. split; [cbn; lia|].
      apply incl_cons; [apply nth_In, Hi|].
      eapply incl_tran; [exact Hincl | apply remove_nth_incl].
Qed.

Lemma Total_sample {R} (rows : list R) (n : Z) :
  0 <= n <= len rows ->
  Total (pd.sample (pd.Frame rows) n)
        (fun df => exists l, df = pd.Frame l /\ len l = n /\ incl l rows).
Proof.
  intros Hn. unfold pd.sample. change (pd.len (pd.Frame rows)) with (len rows).
  replace ((n <? 0) || (len rows <? n)) with false by
    (symmetry; apply orb_false_iff; split; apply Z.ltb_ge; lia).
  eapply Total_bind.
  - apply Total_draw. unfold len in Hn. lia.
  - intros l [Hl Hincl]. apply Total_ret. exists l.
    repeat split; [unfold len; lia | exact Hincl].
Qed.

(** ** The generators, one by one *)

Lemma map_nonempty {A B} (f : A -> B) (l : list A) : l <> [] -> map f l <> [].
Proof. destruct l; [congruence | discriminate]. Qed.

Ltac nonempty :=
  solve [ discriminate | assumption | apply map_nonempty; assumption
        | let E := fresh in intro E; vm_compute in E; discriminate ].

Ltac total_prim :=
  first
    [ apply Total_choice; nonempty
    | apply Total_randint; lia
    | apply Total_uniform
    | apply Total_col
    | apply Total_pick; nonempty
    | apply Total_maybe; total_prim ].

(** One statement of a loop body: run it, name its value and keep what is
    known of it. *)
Ltac total_step :=
  eapply Total_bind; [ total_prim | intros; cbv beta in *; subst ].

Ltac total_steps := repeat total_step; apply Total_ret.

(** *** Customers *)

Lemma generate_customers_built (n : Z) :
  Total (generate_customers n)
        (built Customer.customer_id (run_of_keys 1 n) (fun _ => True)).
Proof.
  apply Total_rows. intros i _. total_steps. split; [cbn; lia | exact I].
Qed.

Lemma generate_customers_incremental_built (n start : Z) :
  Total (generate_customers_incremental n start)
        (built Customer.customer_id (run_of_keys start n) (fun _ => True)).
Proof.
  apply Total_rows. intros i _. total_steps. split; [reflexivity | exact I].
Qed.

(** *** Technicians *)

Lemma base_skill_of_level (level : string) :
  In level levels -> exists base, base_skill_of level = Ok base.
Proof.
  intros H. repeat (destruct H as [<- | H]; [eexists; reflexivity|]).
  destruct H.
Qed.

Lemma technician_row_spec (id : Z) :
  Total (technician_row id)
        (fun t => Technician.technician_id t = id /\ skills_ok t).
Proof.
  unfold technician_row. total_step.
  destruct (base_skill_of_level a H) as (base & Hbase).
  eapply Total_bind; [apply (Total_lift _ base Hbase)|]. intros ? ->.
  eapply Total_bind.
  { apply (Total_forM skill_names _
             (fun skill entry =>
                fst entry = (lower skill ++ "_skill")%string /\
                skill_entry_ok a entry)).
    intros skill _. total_steps. split; [reflexivity|].
    exists base, a0. auto. }
  intros entries HF. total_steps. split; [reflexivity|]. cbn.
  assert (Hok : Forall (skill_entry_ok a) entries).
  { eapply Forall2_Forall_r; [exact HF|]. intros ? ? _ [_ ?]. assumption. }
  repeat split.
  - eapply Forall2_map_eq; [exact HF|]. intros ? ? _ [E _]. exact E.
  - exact Hok.
  - eapply Forall_impl; [|exact Hok].
    intros entry (b & v & _ & _ & ->). lia.
Qed.

Lemma generate_technicians_built (n : Z) :
  Total (generate_technicians n)
        (built Technician.technician_id (run_of_keys 1 n) skills_ok).
Proof.
  apply Total_rows. intros i _.
  eapply Total_weaken; [apply technician_row_spec|].
  intros t [E H]. split; [lia | exact H].
Qed.

Lemma generate_technicians_incremental_built (n start : Z) :
  Total (generate_technicians_incremental n start)
        (built Technician.technician_id (run_of_keys start n) skills_ok).
Proof.
  apply Total_rows. intros i _. apply technician_row_spec.
Qed.

(** *** Equipment types and parts *)

Lemma generate_equipment_types_built (n : Z) :
  Total (generate_equipment_types n)
        (built EquipmentType.equipment_id (run_of_keys 1 n) (fun _ => True)).
Proof.
  apply Total_rows. intros i _. unfold equipment_row. total_steps.
  split; [cbn; lia | exact I].
Qed.

Lemma generate_equipment_types_incremental_built (n start : Z) :
  Total (generate_equipment_types_incremental n start)
        (built EquipmentType.equipment_id (run_of_keys start n)
               (fun _ => True)).
Proof.
  apply Total_rows. intros i _. unfold equipment_row. total_steps.
  split; [reflexivity | exact I].
Qed.

Lemma generate_parts_built (n : Z) :
  Total (generate_parts n)
        (built Part.part_id (run_of_keys 1 n) (fun _ => True)).
Proof.
  apply Total_rows. intros i _. unfold part_row. total_steps.
  split; [cbn; lia | exact I].
Qed.

Lemma generate_parts_incremental_built (n start : Z) :
  Total (generate_parts_incremental n start)
        (built Part.part_id (run_of_keys start n) (fun _ => True)).
Proof.
  apply Total_rows. intros i _. unfold part_row. total_steps.
  split; [reflexivity | exact I].
Qed.

(** *** Installed devices *)

Lemma generate_installed_devices_built
  (customers : list Customer.t) (equipment : list EquipmentType.t) (n : Z) :
  customers <> [] -> equipment <> [] ->
  Total (generate_installed_devices (pd.Frame customers) (pd.Frame equipment) n)
        (built InstalledDevice.installation_id (run_of_keys 1 n)
           (fun r =>
              In (InstalledDevice.customer_id r)
                 (map Customer.customer_id customers) /\
              In (InstalledDevice.equipment_id r)
                 (map EquipmentType.equipment_id equipment))).
Proof.
  intros Hc He. apply Total_rows. intros i _. total_steps.
  cbn. repeat split; solve [lia | assumption].
Qed.

(** *** Service calls *)

Lemma assign_total_cost_rows (rows : list ServiceCall.t) :
  map (fun '(r, v) => ServiceCall.set_total_cost r v)
      (combine rows
         (map (fun '(l, p) => PrimFloat.add l p)
            (combine (map ServiceCall.labor_cost rows)
                     (map ServiceCall.parts_cost rows))))
  = map with_total_cost rows.
Proof. induction rows as [|r t IH]; cbn; [reflexivity | f_equal; exact IH]. Qed.

Lemma assign_total_cost_Frame (rows : list ServiceCall.t) :
  assign_total_cost (pd.Frame rows) = ret (pd.Frame (map with_total_cost rows)).
Proof.
  rewrite <- assign_total_cost_rows. reflexivity.
Qed.

Lemma service_call_row_spec (id : Z) (customers : list Customer.t)
  (technicians : list Technician.t) (equipment : list EquipmentType.t) :
  customers <> [] -> technicians <> [] -> equipment <> [] ->
  Total (service_call_row id (pd.Frame customers) (pd.Frame technicians)
           (pd.Frame equipment))
        (fun r =>
           ServiceCall.service_call_id r = id /\
           call_refers (map Customer.customer_id customers)
                       (map Technician.technician_id technicians)
                       (map EquipmentType.equipment_id equipment) r /\
           (exists x, ServiceCall.labor_cost r = round x 2) /\
           (exists y, ServiceCall.parts_cost r = round y 2)).
Proof.
  intros Hc Ht He. unfold service_call_row. total_steps.
  cbn. unfold call_refers. cbn. repeat split; eauto.
Qed.

Lemma service_calls_assigned (start n : Z) (body : Z -> M ServiceCall.t)
  (customer_ids technician_ids equipment_ids : list Z) :
  0 < n ->
  (forall i, 0 <= i < n ->
     Total (body i)
       (fun r =>
          ServiceCall.service_call_id r = start + i /\
          call_refers customer_ids technician_ids equipment_ids r /\
          (exists x, ServiceCall.labor_cost r = round x 2) /\
          (exists y, ServiceCall.parts_cost r = round y 2))) ->
  Total (service_calls <- forM (range n) body ;;
         assign_total_cost (pd.DataFrame service_calls))
        (built ServiceCall.service_call_id (run_of_keys start n)
           (fun r =>
              call_refers customer_ids technician_ids equipment_ids r /\
              costs_ok r)).
Proof.
  intros Hn Hbody. eapply Total_bind.
  { apply (Total_appended (range n) body ServiceCall.service_call_id
             (Z.add start)).
    intros i Hi. apply Hbody, range_In, Hi. }
  intros rows [Hk HP].
  assert (Hne : rows <> []).
  { intros ->. apply (run_of_keys_nonempty start n Hn). symmetry. exact Hk. }
  rewrite DataFrame_Frame, assign_total_cost_Frame by exact Hne.
  apply Total_ret. exists (map with_total_cost rows). split; [|split].
  - symmetry. apply DataFrame_Frame. destruct rows; [congruence | discriminate].
  - rewrite map_map. exact Hk.
  - apply Forall_map. eapply Forall_impl; [|exact HP].
    intros r (Hr & Hl & Hp). split; [exact Hr|]. split; [reflexivity|].
    split; assumption.
Qed.

Lemma generate_service_calls_built (customers : list Customer.t)
  (technicians : list Technician.t) (equipment : list EquipmentType.t)
  (n : Z) :
  customers <> [] -> technicians <> [] -> equipment <> [] -> 0 < n ->
  Total (generate_service_calls (pd.Frame customers) (pd.Frame technicians)
           (pd.Frame equipment) n)
        (built ServiceCall.service_call_id (run_of_keys 1 n)
           (fun r =>
              call_refers (map Customer.customer_id customers)
                          (map Technician.technician_id technicians)
                          (map EquipmentType.equipment_id equipment) r /\
              costs_ok r)).
Proof.
  intros Hc Ht He Hn. apply service_calls_assigned; [exact Hn|].
  intros i _. eapply Total_weaken; [apply service_call_row_spec; assumption|].
  intros r (E & H). split; [lia | exact H].
Qed.

Lemma generate_service_calls_incremental_built (customers : list Customer.t)
  (technicians : list Technician.t) (equipment : list EquipmentType.t)
  (n start : Z) :
  customers <> [] -> technicians <> [] -> equipment <> [] -> 0 < n ->
  Total (generate_service_calls_incremental n start (pd.Frame customers)
           (pd.Frame technicians) (pd.Frame equipment))
        (built ServiceCall.service_call_id (run_of_keys start n)
           (fun r =>
              call_refers (map Customer.customer_id customers)
                          (map Technician.technician_id technicians)
                          (map EquipmentType.equipment_id equipment) r /\
              costs_ok r)).
Proof.
  intros Hc Ht He Hn. apply service_calls_assigned; [exact Hn|].
  intros i _. apply service_call_row_spec; assumption.
Qed.

(** *** Loops that number their rows [len(rows) + 1] *)

Lemma numbered_nil {R} (key : R -> Z) (P : R -> Prop) : numbered key P [].
Proof. split; [reflexivity | constructor]. Qed.

Lemma numbered_snoc {R} (key : R -> Z) (P : R -> Prop) (rows : list R)
  (r : R) :
  numbered key P rows -> key r = len rows + 1 -> P r ->
  numbered key P (rows ++ [r]).
Proof.
  intros [Hk HP] Hr Pr. split.
  - apply keys_snoc; assumption.
  - apply Forall_app. split; [exact HP | constructor; [exact Pr | constructor]].
Qed.

Lemma numbered_built {R} (key : R -> Z) (P : R -> Prop) (rows : list R) :
  numbered key P rows ->
  built key (run_of_keys 1 (pd.len (pd.DataFrame rows))) P (pd.DataFrame rows).
Proof.
  intros [Hk HP]. exists rows. unfold pd.len.
  rewrite iterrows_DataFrame. auto.
Qed.

(** *** Parts usage *)

Lemma generate_parts_usage_built (service_calls_df : pd.frame ServiceCall.t)
  (parts : list Part.t) (avg : Z) :
  parts <> [] -> 0 <= avg ->
  Total (generate_parts_usage service_calls_df (pd.Frame parts) avg)
        (fun df =>
           built PartsUsage.usage_id (run_of_keys 1 (pd.len df))
             (fun r =>
                In (PartsUsage.service_call_id r)
                   (map ServiceCall.service_call_id
                      (pd.iterrows service_calls_df)) /\
                In (PartsUsage.part_id r) (map Part.part_id parts)) df).
Proof.
  intros Hp Havg. unfold generate_parts_usage.
  set (P := fun r : PartsUsage.t => _ /\ _).
  eapply Total_bind.
  { apply (Total_foldM _ (fun _ => numbered PartsUsage.usage_id P));
      [apply numbered_nil|].
    intros _ call usage Hcall Hu. total_step.
    apply (Total_foldM _ (fun _ => numbered PartsUsage.usage_id P));
      [exact Hu|].
    intros _ _ usage' _ Hu'. total_steps.
    apply numbered_snoc; [exact Hu' | reflexivity|].
    unfold P. cbn. split; [apply in_map; exact Hcall | assumption]. }
  intros rows Hrows. apply Total_ret. apply numbered_built, Hrows.
Qed.

(** *** Incident response *)

Lemma Total_iloc {R} (rows : list R) (i : Z) (r : R) :
  0 <= i -> nth_error rows (Z.to_nat i) = Some r ->
  Total (pd.iloc (pd.Frame rows) i) (fun x => x = r).
Proof.
  intros Hi E. unfold pd.iloc. cbn [pd.iterrows]. rewrite E.
  destruct (i <? 0) eqn:Hlt; [apply Z.ltb_lt in Hlt; lia|].
  apply Total_ret. reflexivity.
Qed.

Lemma nth_error_skipn {A} (l : list A) (a : nat) (x : A) :
  nth_error l a = Some x -> skipn a l = x :: skipn (S a) l.
Proof.
  revert a. induction l as [|y t IH]; intros [|a] E; cbn in *;
    try discriminate.
  - congruence.
  - apply IH, E.
Qed.

Lemma Forall2_seq_firstn {A B} (Q : A -> B -> Prop) (l : list A) (m : nat) :
  forall (a : nat) (rows : list B),
  Forall2 (fun j r => exists x, nth_error l j = Some x /\ Q x r)
          (seq a m) rows ->
  Forall2 Q (firstn m (skipn a l)) rows.
Proof.
  induction m as [|m IH]; intros a rows H; cbn in H; inversion H; subst.
  - constructor.
  - destruct H2 as (x & Hx & HQ).
    rewrite (nth_error_skipn l a x Hx). cbn [firstn].
    constructor; [exact HQ|]. apply IH. assumption.
Qed.

Lemma Forall2_range_firstn {A B} (Q : A -> B -> Prop) (l : list A) (k : Z)
  (rows : list B) :
  Forall2 (fun i r => exists x, nth_error l (Z.to_nat i) = Some x /\ Q x r)
          (range k) rows ->
  Forall2 Q (firstn (Z.to_nat k) l) rows.
Proof.
  intros H. apply (Forall2_seq_firstn Q l (Z.to_nat k) 0%nat rows).
  unfold range in H. remember (seq 0 (Z.to_nat k)) as js eqn:Ejs. clear Ejs.
  revert rows H. induction js as [|j t IH]; intros rows H; inversion H; subst.
  - constructor.
  - constructor; [|apply IH; assumption].
    rewrite Nat2Z.id in H2. exact H2.
Qed.

Lemma generate_incident_response_rows (calls : list ServiceCall.t)
  (technicians : list Technician.t) (n : Z) :
  technicians <> [] ->
  Total (generate_incident_response (pd.Frame calls) (pd.Frame technicians) n)
        (fun df => exists rows,
           df = pd.DataFrame rows /\
           Forall2 incident_of
             (firstn (Z.to_nat n) (filter is_emergency calls)) rows /\
           map IncidentResponse.incident_id rows =
             run_of_keys 1 (Z.min n (len (filter is_emergency calls))) /\
           Forall (backup_refers (map Technician.technician_id technicians))
                  rows).
Proof.
  intros Ht. unfold generate_incident_response.
  eapply Total_bind; [apply Total_where|]. intros ? ->.
  set (emergency := filter is_emergency calls).
  change (pd.len (pd.Frame emergency)) with (len emergency).
  set (k := Z.min n (len emergency)).
  eapply Total_bind.
  { apply (Total_forM (range k) _
             (fun i r =>
                IncidentResponse.incident_id r = 1 + i /\
                backup_refers (map Technician.technician_id technicians) r /\
                exists call, nth_error emergency (Z.to_nat i) = Some call /\
                             incident_of call r)).
    intros i Hi. apply range_In in Hi.
    assert (Hlen : i < len emergency) by lia.
    rewrite Z.mod_small by lia.
    destruct (nth_error emergency (Z.to_nat i)) as [call|] eqn:Ecall.
    2:{ apply nth_error_None in Ecall. unfold len in Hlen. lia. }
    eapply Total_bind; [apply (Total_iloc _ _ call); [lia | exact Ecall]|].
    intros ? ->. total_steps. cbn. split; [lia|]. split.
    - intros t E. cbn in E. subst. auto.
    - exists call. split; [reflexivity|]. split; reflexivity. }
  intros rows HF. apply Total_ret. exists rows. split; [reflexivity|].
  split; [|split].
  - assert (Hfirst : firstn (Z.to_nat n) emergency
                     = firstn (Z.to_nat k) emergency).
    { unfold k. destruct (Z.le_gt_cases n (len emergency)).
      - rewrite Z.min_l by lia. reflexivity.
      - rewrite Z.min_r by lia. unfold len in *.
        rewrite !firstn_all2 by lia. reflexivity. }
    rewrite Hfirst. apply Forall2_range_firstn.
    eapply Forall2_impl; [|exact HF]. intros i r (_ & _ & H). exact H.
  - unfold run_of_keys. eapply Forall2_map_eq; [exact HF|].
    intros i r _ (E & _). exact E.
  - eapply Forall2_Forall_r; [exact HF|]. intros i r _ (_ & H & _). exact H.
Qed.

(** *** Vehicle fleet *)

Lemma generate_vehicle_fleet_built (technicians : list Technician.t)
  (n : Z) :
  technicians <> [] ->
  Total (generate_vehicle_fleet (pd.Frame technicians) n)
        (built Vehicle.vehicle_id (run_of_keys 1 n)
           (fun r => forall t,
              Vehicle.assigned_technician_id r = Some t ->
              In t (map Technician.technician_id technicians))).
Proof.
  intros Ht. apply Total_rows. intros i _. total_steps.
  cbn. split; [lia | assumption].
Qed.

(** *** Mailing list *)

Lemma generate_mailing_list_built (customers_df : pd.frame Customer.t)
  (n_additional : Z) :
  Total (generate_mailing_list customers_df n_additional)
        (fun df =>
           built Contact.contact_id (run_of_keys 1 (pd.len df))
             (contact_refers
                (map Customer.customer_id (pd.iterrows customers_df))) df /\
           pd.len df = pd.len customers_df + Z.max 0 n_additional).
Proof.
  unfold generate_mailing_list.
  set (P := contact_refers _).
  set (Inv := fun (pre : list Customer.t) (rows : list Contact.t) =>
                numbered Contact.contact_id P rows /\ len rows = len pre).
  eapply Total_bind.
  { apply (Total_foldM _ Inv); [split; [apply numbered_nil | reflexivity]|].
    intros pre customer rows Hin [Hn Hlen]. total_steps. split.
    - apply numbered_snoc; [exact Hn | reflexivity|].
      intros c [= <-]. apply in_map. exact Hin.
    - rewrite !len_app, Hlen. reflexivity. }
  intros first [Hfirst Hlen].
  set (Inv' := fun (pre : list Z) (rows : list Contact.t) =>
                 numbered Contact.contact_id P rows /\
                 len rows = len first + len pre).
  eapply Total_bind.
  { apply (Total_foldM _ Inv'); [split; [exact Hfirst | change (len (@nil Z)) with 0; lia]|].
    intros pre i rows _ [Hn Hl]. total_steps. split.
    - apply numbered_snoc; [exact Hn | reflexivity|]. intros c [=].
    - rewrite !len_app, Hl, !len_one. lia. }
  intros rows [Hn Hl]. apply Total_ret. split; [apply numbered_built, Hn|].
  unfold pd.len at 1. rewrite iterrows_DataFrame, Hl, Hlen.
  unfold pd.len, len. rewrite range_length. lia.
Qed.

(** *** Subscriptions *)

Lemma plan_cost_of_plan (plan : string) :
  In plan service_plans -> exists cost, getitem plan_costs plan = Ok cost.
Proof.
  intros H. repeat (destruct H as [<- | H]; [eexists; reflexivity|]).
  destruct H.
Qed.

Lemma generate_subscriptions_built (customers : list Customer.t) (n : Z) :
  customers <> [] ->
  Total (generate_subscriptions (pd.Frame customers) n)
        (built Subscription.subscription_id (run_of_keys 1 n)
           (fun r => In (Subscription.customer_id r)
                        (map Customer.customer_id customers))).
Proof.
  intros Hc. apply Total_rows. intros i _. do 4 total_step.
  destruct (plan_cost_of_plan a H) as (cost & Hcost).
  eapply Total_bind; [apply (Total_lift _ cost Hcost)|]. intros ? ->.
  total_steps. cbn. split; [lia | assumption].
Qed.

(** *** Invoices *)

Lemma generate_invoices_built (calls : list ServiceCall.t)
  (customers_df : pd.frame Customer.t) (n_invoices : option Z) :
  0 <= invoices_requested (pd.Frame calls) n_invoices ->
  Total (generate_invoices (pd.Frame calls) customers_df n_invoices)
        (built Invoice.invoice_id
           (run_of_keys 1
              (Z.min (invoices_requested (pd.Frame calls) n_invoices)
                     (len calls)))
           (fun r => amounts_ok r /\
                     exists call, In call calls /\ invoice_of call r)).
Proof.
  intros Hn. unfold generate_invoices.
  fold (invoices_requested (pd.Frame calls) n_invoices).
  change (pd.len (pd.Frame calls)) with (len calls).
  eapply Total_bind.
  { apply Total_sample. pose proof (len_nonneg calls). lia. }
  intros ? (l & -> & Hlen & Hincl). rewrite <- Hlen. cbn [pd.iterrows].
  apply Total_enumerated. intros i call Hcall. cbv beta iota.
  total_steps. cbn. split; [lia|]. split.
  - split; reflexivity.
  - exists call. split; [apply Hincl, Hcall | split; reflexivity].
Qed.

(** *** Payments *)

Lemma Total_processing_fee_of (amount : float) :
  Total (processing_fee_of amount) (fun _ => True).
Proof.
  unfold processing_fee_of. total_step. destruct a.
  - total_steps. exact I.
  - apply Total_ret. exact I.
Qed.

Lemma payments_so_far_skip (pre : list Invoice.t)
  (state : list Payment.t * Z) (invoice : Invoice.t) :
  payments_so_far pre state -> paid_for invoice [] ->
  payments_so_far (pre ++ [invoice]) state.
Proof.
  intros (Hnext & Hk & chunks & Hc & HF) Hpaid.
  split; [exact Hnext|]. split; [exact Hk|].
  exists (chunks ++ [[]]). split.
  - rewrite concat_app, Hc. cbn. rewrite app_nil_r. reflexivity.
  - apply Forall2_app; [exact HF | constructor; [exact Hpaid | constructor]].
Qed.

Lemma payments_so_far_add (pre : list Invoice.t) (payments : list Payment.t)
  (next : Z) (invoice : Invoice.t) (p : Payment.t) :
  payments_so_far pre (payments, next) -> paid_for invoice [p] ->
  Payment.payment_id p = next ->
  payments_so_far (pre ++ [invoice]) (payments ++ [p], next + 1).
Proof.
  intros (Hnext & Hk & chunks & Hc & HF) Hpaid Hp. cbn [fst snd] in *.
  unfold payments_so_far. cbn [fst snd]. split; [|split].
  - rewrite len_app, len_one. lia.
  - apply keys_snoc; [exact Hk | congruence].
  - exists (chunks ++ [[p]]). split.
    + rewrite concat_app, Hc. reflexivity.
    + apply Forall2_app; [exact HF | constructor; [exact Hpaid | constructor]].
Qed.

Lemma payment_step_spec (pre : list Invoice.t) (invoice : Invoice.t)
  (state : list Payment.t * Z) :
  payments_so_far pre state ->
  Total (payment_step state invoice) (payments_so_far (pre ++ [invoice])).
Proof.
  intros H. destruct state as [payments next]. unfold payment_step.
  destruct (String.eqb (Invoice.status invoice) "Paid") eqn:Epaid.
  - total_step.
    eapply Total_bind; [apply Total_processing_fee_of|]. intros fee _.
    apply Total_ret. apply payments_so_far_add; [exact H | | reflexivity].
    unfold paid_for. rewrite Epaid. eexists. repeat split.
  - destruct (String.eqb (Invoice.status invoice) "Pending") eqn:Epending.
    + total_step. destruct a.
      * eapply Total_bind; [apply Total_uniform|]. intros u [r ->].
        do 2 total_step.
        eapply Total_bind; [apply Total_processing_fee_of|]. intros fee _.
        apply Total_ret. apply payments_so_far_add; [exact H | | reflexivity].
        unfold paid_for. rewrite Epaid, Epending. right.
        eexists _, r. repeat split.
      * apply Total_ret. apply payments_so_far_skip; [exact H|].
        unfold paid_for. rewrite Epaid, Epending. left. reflexivity.
    + apply Total_ret. apply payments_so_far_skip; [exact H|].
      unfold paid_for. rewrite Epaid, Epending. reflexivity.
Qed.

(** The invoices that the filter drops have no payment. *)
Lemma paid_for_all (rows : list Invoice.t) :
  forall chunks, Forall2 paid_for (filter is_payable rows) chunks ->
  exists chunks', List.concat chunks' = List.concat chunks /\
                  Forall2 paid_for rows chunks'.
Proof.
  induction rows as [|x t IH]; intros chunks H; cbn [filter] in H.
  - exists chunks. auto.
  - destruct (is_payable x) eqn:E.
    + inversion H as [|? c ? cs Hc Hcs]; subst.
      destruct (IH cs Hcs) as (cs' & Ecs & Hcs').
      exists (c :: cs'). split; [cbn; congruence | constructor; assumption].
    + destruct (IH chunks H) as (cs' & Ecs & Hcs').
      exists ([] :: cs'). split; [exact Ecs|]. constructor; [|exact Hcs'].
      unfold is_payable in E. cbn [existsb] in E.
      apply orb_false_iff in E. destruct E as [E1 E2].
      apply orb_false_iff in E2. destruct E2 as [E2 _].
      unfold paid_for. rewrite E1, E2. reflexivity.
Qed.

Lemma paid_for_refers (rows : list Invoice.t) (chunks : list (list Payment.t)) :
  Forall2 paid_for rows chunks ->
  Forall (fun p => In (Payment.invoice_id p) (map Invoice.invoice_id rows))
         (List.concat chunks).
Proof.
  induction 1 as [|x c rows chunks Hc _ IH]; [constructor|].
  cbn [List.concat map]. apply Forall_app. split.
  - unfold paid_for in Hc.
    destruct (String.eqb (Invoice.status x) "Paid").
    { destruct Hc as (p & -> & E & _). constructor; [|constructor].
      left. symmetry. exact E. }
    destruct (String.eqb (Invoice.status x) "Pending").
    { destruct Hc as [-> | (p & u & -> & E & _)]; [constructor|].
      constructor; [|constructor]. left. symmetry. exact E. }
    subst c. constructor.
  - eapply Forall_impl; [|exact IH]. intros p Hp. right. exact Hp.
Qed.

Lemma generate_payments_rows (invoices : list Invoice.t) :
  Total (generate_payments (pd.Frame invoices))
        (fun df => exists chunks,
           df = pd.DataFrame (List.concat chunks) /\
           Forall2 paid_for invoices chunks /\
           map Payment.payment_id (List.concat chunks) =
             run_of_keys 1 (len (List.concat chunks))).
Proof.
  unfold generate_payments.
  eapply Total_bind; [apply Total_where|]. intros ? ->. cbn [pd.iterrows].
  eapply Total_bind.
  { apply (Total_foldM payment_step payments_so_far).
    - split; [reflexivity|]. split; [reflexivity|].
      exists []. split; [reflexivity | constructor].
    - intros pre x st _ Hst. apply payment_step_spec, Hst. }
  intros [payments next] (_ & Hk & chunks & Hc & HF). cbn [fst] in *.
  apply Total_ret. destruct (paid_for_all invoices chunks HF) as (cs & E & H).
  exists cs. rewrite E, <- Hc. auto.
Qed.

Lemma generate_payments_built (invoices : list Invoice.t) :
  Total (generate_payments (pd.Frame invoices))
        (fun df =>
           built Payment.payment_id (run_of_keys 1 (pd.len df))
             (fun p => In (Payment.invoice_id p)
                          (map Invoice.invoice_id invoices)) df).
Proof.
  eapply Total_weaken; [apply generate_payments_rows|].
  intros df (chunks & -> & HF & Hk). apply numbered_built. split.
  - exact Hk.
  - apply paid_for_refers, HF.
Qed.

(** *** Inventory *)

Lemma generate_inventory_built (parts_df : pd.frame Part.t) :
  Total (generate_inventory parts_df)
        (built Inventory.inventory_id
           (map Part.part_id (pd.iterrows parts_df))
           (fun r => In (Inventory.part_id r)
                        (map Part.part_id (pd.iterrows parts_df)))).
Proof.
  apply Total_per_row. intros part Hpart. total_steps.
  cbn. split; [reflexivity | apply in_map, Hpart].
Qed.

(** *** Work orders *)

Lemma generate_work_orders_built (service_calls_df : pd.frame ServiceCall.t)
  (technicians_df : pd.frame Technician.t) :
  Total (generate_work_orders service_calls_df technicians_df)
        (built WorkOrder.work_order_id
           (map ServiceCall.service_call_id (pd.iterrows service_calls_df))
           (fun r => exists call,
              In call (pd.iterrows service_calls_df) /\
              work_order_of call r)).
Proof.
  apply Total_per_row. intros call Hcall. total_steps.
  cbn. split; [reflexivity|]. exists call. split; [exact Hcall|].
  split; reflexivity.
Qed.

(** *** Customer feedback *)

Lemma generate_customer_feedback_built (calls : list ServiceCall.t)
  (customers_df : pd.frame Customer.t) (n : Z) :
  0 <= n ->
  Total (generate_customer_feedback (pd.Frame calls) customers_df n)
        (built Feedback.feedback_id (run_of_keys 1 (Z.min n (len calls)))
           (fun r => exists call, In call calls /\ feedback_of call r)).
Proof.
  intros Hn. unfold generate_customer_feedback.
  change (pd.len (pd.Frame calls)) with (len calls).
  eapply Total_bind.
  { apply Total_sample. pose proof (len_nonneg calls). lia. }
  intros ? (l & -> & Hlen & Hincl). rewrite <- Hlen. cbn [pd.iterrows].
  apply Total_enumerated. intros i call Hcall. cbv beta iota.
  total_steps. cbn. split; [lia|].
  exists call. split; [apply Hincl, Hcall | split; reflexivity].
Qed.

(** *** Leads *)

Lemma generate_leads_built (n : Z) :
  Total (generate_leads n)
        (built Lead.lead_id (run_of_keys 1 n) (fun _ => True)).
Proof.
  apply Total_rows. intros i _. total_steps. split; [cbn; lia | exact I].
Qed.

(** *** Quotes *)

Lemma Total_equipment_cost_of : Total equipment_cost_of (fun _ => True).
Proof.
  unfold equipment_cost_of. total_step. destruct a.
  - eapply Total_weaken; [apply Total_uniform | auto].
  - apply Total_ret. exact I.
Qed.

Lemma Total_quoted_equipment (equipment : list EquipmentType.t)
  (cost : float) :
  equipment <> [] ->
  Total (quoted_equipment (pd.Frame equipment) cost)
        (fun o => forall e, o = Some e ->
                  In e (map EquipmentType.equipment_id equipment)).
Proof.
  intros He. unfold quoted_equipment. destruct (PrimFloat.ltb 0 cost).
  - total_steps. intros e [= <-]. assumption.
  - apply Total_ret. discriminate.
Qed.

Lemma generate_quotes_built (customers : list Customer.t)
  (equipment : list EquipmentType.t) (n : Z) :
  customers <> [] -> equipment <> [] ->
  Total (generate_quotes (pd.Frame customers) (pd.Frame equipment) n)
        (built Quote.quote_id (run_of_keys 1 n)
           (fun r =>
              In (Quote.customer_id r) (map Customer.customer_id customers) /\
              forall e, Quote.equipment_id r = Some e ->
                        In e (map EquipmentType.equipment_id equipment))).
Proof.
  intros Hc He. apply Total_rows. intros i _. do 3 total_step.
  eapply Total_bind; [apply Total_equipment_cost_of|]. intros cost _.
  do 4 total_step.
  eapply Total_bind; [apply Total_quoted_equipment, He|]. intros eq Heq.
  total_steps. cbn. repeat split; solve [lia | assumption].
Qed.

(** *** Appointments *)

Lemma counted_add (rows : list Appointment.t) (next : Z)
  (r : Appointment.t) :
  counted (rows, next) -> Appointment.appointment_id r = next ->
  counted (rows ++ [r], next + 1).
Proof.
  unfold counted. cbn [fst snd]. intros [Hn Hk] Hr. split.
  - rewrite len_app, len_one. lia.
  - apply keys_snoc; [exact Hk | congruence].
Qed.

Lemma historical_appointment_spec (pre : list ServiceCall.t)
  (call : ServiceCall.t) (state : list Appointment.t * Z) :
  counted state /\ Forall2 appointment_of pre (fst state) ->
  Total (historical_appointment state call)
        (fun st => counted st /\
                   Forall2 appointment_of (pre ++ [call]) (fst st)).
Proof.
  intros [Hc HF]. destruct state as [rows next].
  unfold historical_appointment. total_steps. split.
  - apply counted_add; [exact Hc | reflexivity].
  - cbn [fst] in *. apply Forall2_app; [exact HF|].
    constructor; [|constructor]. repeat split.
Qed.

Lemma future_appointment_spec (customers : list Customer.t)
  (technicians : list Technician.t) (history : list Appointment.t)
  (pre : list Z) (i : Z) (state : list Appointment.t * Z) :
  customers <> [] -> technicians <> [] ->
  (counted state /\
   exists future, fst state = history ++ future /\
     len future = len pre /\
     Forall (future_ok (map Customer.customer_id customers)
                       (map Technician.technician_id technicians)) future) ->
  Total (future_appointment (pd.Frame customers) (pd.Frame technicians)
           state i)
        (fun st => counted st /\
           exists future, fst st = history ++ future /\
             len future = len (pre ++ [i]) /\
             Forall (future_ok (map Customer.customer_id customers)
                       (map Technician.technician_id technicians)) future).
Proof.
  intros Hcu Hte (Hc & future & E & Hl & HF). destruct state as [rows next].
  unfold future_appointment. total_steps. split.
  - apply counted_add; [exact Hc | reflexivity].
  - cbn [fst] in *. eexists (future ++ [_]). split; [|split].
    + rewrite E, app_assoc. reflexivity.
    + rewrite !len_app, !len_one, Hl. reflexivity.
    + apply Forall_app. split; [exact HF|]. constructor; [|constructor].
      repeat split; assumption.
Qed.

Lemma generate_appointments_rows (customers : list Customer.t)
  (technicians : list Technician.t)
  (service_calls_df : pd.frame ServiceCall.t) (n : Z) :
  customers <> [] -> technicians <> [] ->
  Total (generate_appointments (pd.Frame customers) (pd.Frame technicians)
           service_calls_df n)
        (fun df => exists history future,
           df = pd.DataFrame (history ++ future) /\
           map Appointment.appointment_id (history ++ future) =
             run_of_keys 1 (len (history ++ future)) /\
           Forall2 appointment_of (pd.iterrows service_calls_df) history /\
           len future = Z.max 0 (n - pd.len service_calls_df) /\
           Forall (future_ok (map Customer.customer_id customers)
                     (map Technician.technician_id technicians)) future).
Proof.
  intros Hcu Hte. unfold generate_appointments.
  eapply Total_bind.
  { apply (Total_foldM historical_appointment
             (fun pre st => counted st /\ Forall2 appointment_of pre (fst st))).
    - split; [split; reflexivity | constructor].
    - intros pre call st _ H. apply historical_appointment_spec, H. }
  intros [history next] [Hc HF]. cbn [fst] in *.
  eapply Total_bind.
  { apply (Total_foldM _
             (fun pre st => counted st /\
                exists future, fst st = history ++ future /\
                  len future = len pre /\
                  Forall (future_ok (map Customer.customer_id customers)
                            (map Technician.technician_id technicians))
                         future)).
    - split; [exact Hc|]. exists []. cbn [fst].
      rewrite app_nil_r. repeat split. constructor.
    - intros pre i st _ H. apply future_appointment_spec; assumption. }
  intros [rows next'] ([_ Hk] & future & E & Hl & HFut).
  cbn [fst] in *. subst rows. apply Total_ret.
  exists history, future. repeat split; try assumption.
  rewrite Hl. unfold len at 1. rewrite range_length.
  assert (len history = pd.len service_calls_df).
  { unfold pd.len, len. f_equal. eapply Forall2_length_eq, HF. }
  lia.
Qed.

Lemma Forall2_exists_l {A B} (Q : A -> B -> Prop) (l : list A)
  (rows : list B) :
  Forall2 Q l rows -> Forall (fun r => exists x, In x l /\ Q x r) rows.
Proof.
  induction 1 as [|x r l rows Hxr _ IH]; constructor.
  - exists x. split; [left; reflexivity | exact Hxr].
  - eapply Forall_impl; [|exact IH].
    intros r' (x' & Hin & HQ). exists x'. split; [right; exact Hin | exact HQ].
Qed.

Lemma firstn_In {A} (n : nat) (l : list A) (x : A) :
  In x (firstn n l) -> In x l.
Proof.
  intros H. rewrite <- (firstn_skipn n l). apply in_or_app. left. exact H.
Qed.

Lemma generate_incident_response_built (calls : list ServiceCall.t)
  (technicians : list Technician.t) (n : Z) :
  technicians <> [] ->
  Total (generate_incident_response (pd.Frame calls) (pd.Frame technicians) n)
        (built IncidentResponse.incident_id
           (run_of_keys 1 (Z.min n (len (filter is_emergency calls))))
           (fun r =>
              (exists call, In call calls /\ is_emergency call = true /\
                            incident_of call r) /\
              backup_refers (map Technician.technician_id technicians) r)).
Proof.
  intros Ht.
  eapply Total_weaken; [apply generate_incident_response_rows, Ht|].
  intros df (rows & -> & HF & Hk & Hb). exists rows.
  split; [reflexivity|]. split; [exact Hk|].
  apply Forall_forall. intros r Hr. split.
  - apply Forall2_exists_l in HF.
    destruct (proj1 (Forall_forall _ _) HF r Hr) as (call & Hin & Hof).
    apply firstn_In, filter_In in Hin. exists call. tauto.
  - exact (proj1 (Forall_forall _ _) Hb r Hr).
Qed.

Lemma keyed_len {R} (key : R -> Z) (rows : list R) (start n : Z) :
  map key rows = run_of_keys start n -> 0 <= n -> len rows = n.
Proof.
  intros H Hn. apply (f_equal (@List.length Z)) in H.
  rewrite length_map, run_of_keys_length in H. unfold len. lia.
Qed.

(** ** The full run *)

Lemma call_known (calls : list ServiceCall.t) (ids C T E : list Z)
  (call : ServiceCall.t) :
  map ServiceCall.service_call_id calls = ids ->
  Forall (fun r => call_refers C T E r /\ costs_ok r) calls ->
  In call calls ->
  In (ServiceCall.service_call_id call) ids /\
  In (ServiceCall.customer_id call) C /\
  In (ServiceCall.technician_id call) T /\
  In (ServiceCall.equipment_id call) E.
Proof.
  intros <- HF Hin. split; [apply in_map, Hin|].
  apply (proj1 (Forall_forall _ _) HF call Hin).
Qed.

(** The rows of the frame a generator returned, when it has some. *)
Ltac frame_of H rows Hne Hkeys Hrows :=
  let E := fresh "E" in
  destruct (built_Frame _ _ _ _ H) as (rows & E & Hne & Hkeys & Hrows);
  [ apply run_of_keys_nonempty; lia | subst ].

Lemma main_full_built : Total main_full full_run_built.
Proof.
  unfold main_full.
  eapply Total_bind; [apply generate_customers_built|]. intros ? Hcu.
  pose proof Hcu as Hcu'. frame_of Hcu' cu Ncu Kcu Pcu.
  eapply Total_bind; [apply generate_technicians_built|]. intros ? Hte.
  pose proof Hte as Hte'. frame_of Hte' te Nte Kte Pte.
  eapply Total_bind; [apply generate_equipment_types_built|]. intros ? Heq.
  pose proof Heq as Heq'. frame_of Heq' eqp Neq Keq Peq.
  eapply Total_bind; [apply generate_parts_built|]. intros ? Hpa.
  pose proof Hpa as Hpa'. frame_of Hpa' pa Npa Kpa Ppa.
  eapply Total_bind;
    [apply generate_installed_devices_built; assumption|]. intros dev Hdev.
  rewrite Kcu, Keq in Hdev.
  eapply Total_bind;
    [apply generate_service_calls_built; solve [assumption | lia]|].
  intros ? Hsc. rewrite Kcu, Kte, Keq in Hsc.
  pose proof Hsc as Hsc'. frame_of Hsc' sc Nsc Ksc Psc.
  assert (Lsc : len sc = 2000) by (eapply keyed_len; [exact Ksc | lia]).
  eapply Total_bind;
    [apply generate_parts_usage_built; solve [assumption | lia]|].
  intros usage Husage. cbn [pd.iterrows] in Husage. rewrite Ksc, Kpa in Husage.
  eapply Total_bind; [apply generate_incident_response_built, Nte|].
  intros inc Hinc. rewrite Kte in Hinc.
  eapply Total_bind; [apply generate_vehicle_fleet_built, Nte|].
  intros veh Hveh. rewrite Kte in Hveh.
  eapply Total_bind; [apply generate_mailing_list_built|].
  intros mail [Hmail Lmail]. cbn [pd.iterrows] in Hmail. rewrite Kcu in Hmail.
  assert (Lcu : len cu = 500) by (eapply keyed_len; [exact Kcu | lia]).
  change (pd.len (pd.Frame cu)) with (len cu) in Lmail.
  rewrite Lcu in Lmail. change (500 + Z.max 0 300) with 800 in Lmail.
  rewrite Lmail in Hmail.
  eapply Total_bind; [apply generate_subscriptions_built, Ncu|].
  intros sub Hsub. rewrite Kcu in Hsub.
  assert (Rinv : invoices_requested (pd.Frame sc) None = 1700).
  { unfold invoices_requested. change (pd.len (pd.Frame sc)) with (len sc).
    rewrite Lsc. vm_compute. reflexivity. }
  eapply Total_bind; [apply generate_invoices_built; rewrite Rinv; lia|].
  intros ? Hinv. rewrite Rinv, Lsc in Hinv.
  change (Z.min 1700 2000) with 1700 in Hinv.
  pose proof Hinv as Hinv'. frame_of Hinv' inv Ninv Kinv Pinv.
  eapply Total_bind; [apply generate_payments_built|].
  intros pay Hpay. rewrite Kinv in Hpay.
  eapply Total_bind; [apply generate_inventory_built|].
  intros stock Hstock. cbn [pd.iterrows] in Hstock. rewrite Kpa in Hstock.
  eapply Total_bind; [apply generate_appointments_rows; assumption|].
  intros app (history & future & -> & Kapp & Hhist & Lfut & _).
  cbn [pd.iterrows] in Hhist.
  change (pd.len (pd.Frame sc)) with (len sc) in Lfut. rewrite Lsc in Lfut.
  change (Z.max 0 (500 - 2000)) with 0 in Lfut.
  assert (future = []) by (destruct future; [reflexivity | discriminate]).
  subst future. rewrite app_nil_r in *.
  assert (Lapp : len history = 2000).
  { rewrite <- Lsc. unfold len. f_equal. eapply Forall2_length_eq, Hhist. }
  rewrite Lapp in Kapp.
  eapply Total_bind; [apply generate_quotes_built; assumption|].
  intros quo Hquo. rewrite Kcu, Keq in Hquo.
  eapply Total_bind; [apply generate_work_orders_built|].
  intros wo Hwo. cbn [pd.iterrows] in Hwo. rewrite Ksc in Hwo.
  eapply Total_bind; [apply generate_customer_feedback_built; lia|].
  intros fb Hfb. rewrite Lsc in Hfb. change (Z.min 800 2000) with 800 in Hfb.
  eapply Total_bind; [apply generate_leads_built|]. intros leads Hleads.
  apply Total_ret. unfold full_run_built. cbn -[run_of_keys built].
  assert (Hcall := fun call => call_known sc _ _ _ _ call Ksc Psc).
  repeat match goal with |- _ /\ _ => split end; try assumption.
  - (* incident response *)
    eapply built_weaken; [exact Hinc|].
    intros r ((call & Hin & _ & Hs & Ht) & Hb).
    destruct (Hcall call Hin) as (? & ? & ? & ?).
    repeat split; [congruence | congruence | exact Hb].
  - (* invoices *)
    eapply built_weaken; [exact Hinv|].
    intros r (Ha & call & Hin & Hs & Hc).
    destruct (Hcall call Hin) as (? & ? & ? & ?).
    repeat split; solve [apply Ha | congruence].
  - (* appointments *)
    exists history. split; [reflexivity|]. split; [exact Kapp|].
    eapply Forall_impl; [|exact (Forall2_exists_l _ _ _ Hhist)].
    intros r (call & Hin & Hc & Ht & Hs).
    destruct (Hcall call Hin) as (? & ? & ? & ?).
    repeat split; congruence.
  - (* work orders *)
    eapply built_weaken; [exact Hwo|].
    intros r (call & Hin & Hs & Ht). cbn [pd.iterrows] in Hin.
    destruct (Hcall call Hin) as (? & ? & ? & ?).
    split; congruence.
  - (* customer feedback *)
    eapply built_weaken; [exact Hfb|].
    intros r (call & Hin & Hs & Hc).
    destruct (Hcall call Hin) as (? & ? & ? & ?).
    split; congruence.
Qed.

(** ** The incremental run *)

Lemma app_nonempty_r {A} (l l' : list A) : l' <> [] -> l ++ l' <> [].
Proof. destruct l; [auto | discriminate]. Qed.

Lemma generate_increment_built
  (ec : list Customer.t) (et : list Technician.t)
  (ee : list EquipmentType.t) (ep : list Part.t) (nc nt ne np nsc : Z) :
  Total (generate_increment ec et ee ep nc nt ne np nsc)
        (increment_built ec et ee ep nc nt ne np nsc).
Proof.
  unfold generate_increment.
  eapply Total_bind; [apply generate_customers_incremental_built|].
  intros ? Hcu. pose proof Hcu as Hcu'. frame_of Hcu' cu Ncu Kcu Pcu.
  eapply Total_bind; [apply generate_technicians_incremental_built|].
  intros ? Hte. pose proof Hte as Hte'. frame_of Hte' te Nte Kte Pte.
  eapply Total_bind; [apply generate_equipment_types_incremental_built|].
  intros ? Heq. pose proof Heq as Heq'. frame_of Heq' eqp Neq Keq Peq.
  eapply Total_bind; [apply generate_parts_incremental_built|].
  intros ? Hpa. pose proof Hpa as Hpa'. frame_of Hpa' pa Npa Kpa Ppa.
  cbn [pd.concat].
  assert (Nac : ec ++ cu <> []) by (apply app_nonempty_r, Ncu).
  assert (Nat : et ++ te <> []) by (apply app_nonempty_r, Nte).
  assert (Nae : ee ++ eqp <> []) by (apply app_nonempty_r, Neq).
  assert (Nap : ep ++ pa <> []) by (apply app_nonempty_r, Npa).
  eapply Total_bind;
    [apply generate_service_calls_incremental_built;
       solve [assumption | lia]|].
  intros ? Hsc. rewrite !map_app, Kcu, Kte, Keq in Hsc.
  pose proof Hsc as Hsc'. frame_of Hsc' sc Nsc Ksc Psc.
  assert (Lsc : len sc = 200) by (eapply keyed_len; [exact Ksc | lia]).
  eapply Total_bind;
    [apply generate_parts_usage_built; solve [assumption | lia]|].
  intros usage Husage. cbn [pd.iterrows] in Husage.
  rewrite Ksc, map_app, Kpa in Husage.
  assert (Rinv : invoices_requested (pd.Frame sc) None = 170).
  { unfold invoices_requested. change (pd.len (pd.Frame sc)) with (len sc).
    rewrite Lsc. vm_compute. reflexivity. }
  eapply Total_bind; [apply generate_invoices_built; rewrite Rinv; lia|].
  intros ? Hinv. rewrite Rinv, Lsc in Hinv.
  change (Z.min 170 200) with 170 in Hinv.
  pose proof Hinv as Hinv'. frame_of Hinv' inv Ninv Kinv Pinv.
  eapply Total_bind; [apply generate_payments_built|].
  intros pay Hpay. rewrite Kinv in Hpay.
  eapply Total_bind; [apply generate_appointments_rows; assumption|].
  intros app (history & future & -> & Kapp & Hhist & Lfut & _).
  cbn [pd.iterrows] in Hhist.
  change (pd.len (pd.Frame sc)) with (len sc) in Lfut. rewrite Lsc in Lfut.
  change (Z.max 0 (50 - 200)) with 0 in Lfut.
  assert (future = []) by (destruct future; [reflexivity | discriminate]).
  subst future. rewrite app_nil_r in *.
  assert (Lapp : len history = 200).
  { rewrite <- Lsc. unfold len. f_equal. eapply Forall2_length_eq, Hhist. }
  rewrite Lapp in Kapp.
  eapply Total_bind; [apply generate_quotes_built; assumption|].
  intros quo Hquo. rewrite !map_app, Kcu, Keq in Hquo.
  eapply Total_bind; [apply generate_work_orders_built|].
  intros wo Hwo. cbn [pd.iterrows] in Hwo. rewrite Ksc in Hwo.
  eapply Total_bind; [apply generate_customer_feedback_built; lia|].
  intros fb Hfb. rewrite Lsc in Hfb. change (Z.min 100 200) with 100 in Hfb.
  eapply Total_bind; [apply generate_leads_built|]. intros leads Hleads.
  apply Total_ret. unfold increment_built. cbn -[run_of_keys built].
  assert (Hcall := fun call => call_known sc _ _ _ _ call Ksc Psc).
  repeat match goal with |- _ /\ _ => split end; try assumption.
  - (* invoices *)
    eapply built_weaken; [exact Hinv|].
    intros r (Ha & call & Hin & Hs & Hc).
    destruct (Hcall call Hin) as (? & ? & ? & ?).
    repeat split; solve [apply Ha | congruence].
  - (* appointments *)
    exists history. split; [reflexivity|]. split; [exact Kapp|].
    eapply Forall_impl; [|exact (Forall2_exists_l _ _ _ Hhist)].
    intros r (call & Hin & Hc & Ht & Hs).
    destruct (Hcall call Hin) as (? & ? & ? & ?).
    repeat split; congruence.
  - (* work orders *)
    eapply built_weaken; [exact Hwo|].
    intros r (call & Hin & Hs & Ht). cbn [pd.iterrows] in Hin.
    destruct (Hcall call Hin) as (? & ? & ? & ?).
    split; congruence.
  - (* customer feedback *)
    eapply built_weaken; [exact Hfb|].
    intros r (call & Hin & Hs & Hc).
    destruct (Hcall call Hin) as (? & ? & ? & ?).
    split; congruence.
Qed.

Lemma fold_max_spec (l : list Z) (a : Z) :
  a <= fold_left Z.max l a /\
  Forall (fun x => x <= fold_left Z.max l a) l /\
  (fold_left Z.max l a = a \/ In (fold_left Z.max l a) l).
Proof.
  revert a. induction l as [|x t IH]; intros a; cbn [fold_left].
  - split; [lia|]. split; [constructor | left; reflexivity].
  - destruct (IH (Z.max a x)) as (Hge & Hall & Hin). split; [lia|]. split.
    + constructor; [lia | exact Hall].
    + destruct Hin as [E | Hin]; [|right; right; exact Hin].
      rewrite E. destruct (Z.max_spec a x) as [[_ ->] | [_ ->]];
        [right; left; reflexivity | left; reflexivity].
Qed.

(** [series.max()] is a value of the column and bounds every value. *)
Lemma max_spec (ids : list Z) (m : Z) :
  pd.max ids = Some m -> In m ids /\ Forall (fun x => x <= m) ids.
Proof.
  destruct ids as [|x t]; [discriminate|]. cbn [pd.max]. intros [= <-].
  destruct (fold_max_spec t x) as (Hge & Hall & Hin). split.
  - destruct Hin as [-> | Hin]; [left; reflexivity | right; exact Hin].
  - constructor; assumption.
Qed.

Lemma max_of_nonempty (ids : list Z) : ids <> [] -> exists m, pd.max ids = Some m.
Proof. destruct ids; [congruence | eexists; reflexivity]. Qed.

Lemma generate_incremental_data_generates (seeds : Seeds.t) :
  seeded seeds ->
  Total (generate_incremental_data seeds)
        (fun outcome => exists ds, outcome = Generated ds /\
                                   generated_from seeds ds).
Proof.
  intros ((ec & Ec & Nec) & (et & Et & Net) & (ee & Ee & Nee) &
          (ep & Ep & Nep) & (esc & Esc & Nesc)).
  unfold generate_incremental_data. rewrite Ec, Et, Ee, Ep, Esc.
  destruct (max_of_nonempty (map Customer.customer_id ec)) as [mc Mc];
    [apply map_nonempty, Nec|].
  destruct (max_of_nonempty (map Technician.technician_id et)) as [mt Mt];
    [apply map_nonempty, Net|].
  destruct (max_of_nonempty (map EquipmentType.equipment_id ee)) as [me Me];
    [apply map_nonempty, Nee|].
  destruct (max_of_nonempty (map Part.part_id ep)) as [mp Mp];
    [apply map_nonempty, Nep|].
  destruct (max_of_nonempty (map ServiceCall.service_call_id esc))
    as [msc Msc]; [apply map_nonempty, Nesc|].
  rewrite Mc, Mt, Me, Mp, Msc.
  eapply Total_bind; [apply generate_increment_built|]. intros ds Hds.
  apply Total_ret. exists ds. split; [reflexivity|].
  exists ec, et, ee, ep, esc, mc, mt, me, mp, msc.
  do 10 (split; [assumption|]). exact Hds.
Qed.

(** * The claims *)

Lemma built_refers {R} (key : R -> Z) ids (P : R -> Prop) (df : pd.frame R)
  (fk : R -> Z) (parent_keys : list Z) :
  built key ids P df -> (forall r, P r -> In (fk r) parent_keys) ->
  refers fk df parent_keys.
Proof.
  intros H HP. unfold refers. eapply Forall_impl; [|eapply built_Forall, H].
  exact HP.
Qed.

Lemma built_refers_if_set {R} (key : R -> Z) ids (P : R -> Prop)
  (df : pd.frame R) (fk : R -> option Z) (parent_keys : list Z) :
  built key ids P df ->
  (forall r, P r -> forall v, fk r = Some v -> In v parent_keys) ->
  refers_if_set fk df parent_keys.
Proof.
  intros H HP. unfold refers_if_set.
  eapply Forall_impl; [|eapply built_Forall, H]. exact HP.
Qed.

Lemma full_run_integrity (ds : Datasets.t) :
  full_run_built ds -> full_integrity ds.
Proof.
  intros (Hcu & Hte & Heq & Hpa & Hdev & Hsc & Hus & Hinc & Hveh & Hmail &
          Hsub & Hinv & Hpay & Hstock & Happ & Hquo & Hwo & Hfb & _).
  unfold full_integrity, keys.
  rewrite (built_keys _ _ _ _ Hcu), (built_keys _ _ _ _ Hte),
    (built_keys _ _ _ _ Heq), (built_keys _ _ _ _ Hpa),
    (built_keys _ _ _ _ Hsc), (built_keys _ _ _ _ Hinv).
  cbv zeta. unfold call_refers, backup_refers, contact_refers in *.
  repeat match goal with |- _ /\ _ => split end;
    first [ eapply built_refers; [eassumption|]; cbv beta; tauto
          | eapply built_refers_if_set; [eassumption|]; cbv beta; tauto ].
Qed.

Lemma increment_run_integrity (seeds : Seeds.t) (ds : Increment.t) :
  generated_from seeds ds -> increment_integrity seeds ds.
Proof.
  intros (ec & et & ee & ep & esc & mc & mt & me & mp & msc &
          Ec & Et & Ee & Ep & Esc & _ & _ & _ & _ & _ & H).
  destruct H as (Hcu & Hte & Heq & Hpa & Hsc & Hus & Hinv & Hpay & Happ &
                 Hquo & Hwo & Hfb & _).
  unfold increment_integrity, keys.
  rewrite Ec, Et, Ee, Ep, Esc. cbn [existing_keys].
  rewrite (built_keys _ _ _ _ Hcu), (built_keys _ _ _ _ Hte),
    (built_keys _ _ _ _ Heq), (built_keys _ _ _ _ Hpa),
    (built_keys _ _ _ _ Hsc), (built_keys _ _ _ _ Hinv).
  cbv zeta. unfold call_refers in *.
  repeat match goal with |- _ /\ _ => split end;
    first [ eapply built_refers; [eassumption|]; cbv beta;
            first [ tauto | intros r Hr; apply in_or_app; right; tauto ]
          | eapply built_refers_if_set; [eassumption|]; cbv beta;
            first [ tauto
                  | intros r Hr v Hv; apply in_or_app; right;
                    revert v Hv; tauto ] ].
Qed.

(** C1. Referential integrity of both runs.  A full run returns its
    nineteen tables, and in every generated child row each foreign-key
    value (each one that is set, for the nullable columns) is the key of a
    row of the parent table of the same run.  An incremental run over seed
    files that each hold a row returns an increment, and every foreign key
    of a generated row is a key of the pool made of the rows read from the
    seed file and the rows of the increment. *)
Theorem referential_integrity :
  (forall s, exists ds s',
     main_full s = Ok (ds, s') /\ full_integrity ds) /\
  (forall seeds s, seeded seeds -> exists ds s',
     generate_incremental_data seeds s = Ok (Generated ds, s') /\
     increment_integrity seeds ds).
Proof.
  split.
  - intros s. destruct (main_full_built s) as (ds & s' & E & H).
    exists ds, s'. split; [exact E | apply full_run_integrity, H].
  - intros seeds s Hs.
    destruct (generate_incremental_data_generates seeds Hs s)
      as (outcome & s' & E & ds & -> & H).
    exists ds, s'. split; [exact E | apply increment_run_integrity, H].
Qed.

Lemma built_count {R} (key : R -> Z) (start n : Z) (P : R -> Prop)
  (df : pd.frame R) :
  built key (run_of_keys start n) P df -> 0 <= n -> pd.len df = n.
Proof.
  intros H Hn. rewrite (built_len _ _ _ _ H), len_run_of_keys. lia.
Qed.

(** C2. The row counts of a full run: every table generated from a
    requested count has that many rows, incident_response has
    min(150, number of Emergency service calls) rows, and appointments,
    requested with 500, has 2000 rows, one per service call: the count the
    claim gives for it is not the count the code produces. *)
Theorem full_run_row_counts :
  forall s, exists ds s', main_full s = Ok (ds, s') /\ full_row_counts ds.
Proof.
  intros s. destruct (main_full_built s) as (ds & s' & E & H).
  exists ds, s'. split; [exact E|].
  destruct H as (Hcu & Hte & Heq & Hpa & Hdev & Hsc & Hus & Hinc & Hveh &
                 Hmail & Hsub & Hinv & Hpay & Hstock & Happ & Hquo & Hwo &
                 Hfb & Hleads).
  unfold full_row_counts.
  repeat match goal with |- _ /\ _ => split end;
    try (eapply built_count; [eassumption | lia]).
  eapply built_count; [exact Hinc|].
  pose proof (len_nonneg
                (filter is_emergency
                   (pd.iterrows (Datasets.service_calls ds)))). lia.
Qed.

Lemma seq_keys_sorted (start : Z) (k a : nat) :
  StronglySorted Z.lt (map (fun j => start + Z.of_nat j) (seq a k)).
Proof.
  revert a. induction k as [|k IH]; intros a; cbn [seq map]; constructor.
  - apply IH.
  - apply Forall_forall. intros x Hx. apply in_map_iff in Hx.
    destruct Hx as (j & <- & Hj). apply in_seq in Hj. lia.
Qed.

Lemma run_of_keys_fresh (start n : Z) : fresh_keys start (run_of_keys start n).
Proof.
  split.
  - intros k Hk. rewrite run_of_keys_length in Hk.
    apply run_of_keys_nth, Hk.
  - unfold run_of_keys, range. rewrite map_map. apply seq_keys_sorted.
Qed.

Lemma built_fresh {R} (key : R -> Z) (start n : Z) (P : R -> Prop)
  (df : pd.frame R) :
  built key (run_of_keys start n) P df -> fresh_keys start (keys key df).
Proof.
  intros H. unfold keys. rewrite (built_keys _ _ _ _ H).
  apply run_of_keys_fresh.
Qed.

Lemma built_fresh_run {R} (key : R -> Z) (start n : Z) (P : R -> Prop)
  (df : pd.frame R) :
  built key (run_of_keys start n) P df -> 0 <= n ->
  fresh_run start n (keys key df).
Proof.
  intros H Hn. split; [|eapply built_fresh, H].
  unfold keys. rewrite (built_keys _ _ _ _ H), len_run_of_keys. lia.
Qed.

Lemma built_fresh_rows {R} (key : R -> Z) (start n : Z) (P : R -> Prop)
  (df : pd.frame R) :
  built key (run_of_keys start n) P df ->
  fresh_run start (pd.len df) (keys key df).
Proof.
  intros H. split; [|eapply built_fresh, H].
  unfold keys, pd.len, len. rewrite length_map. reflexivity.
Qed.

Lemma built_continues {R} (key : R -> Z) (existing : list Z) (m n : Z)
  (P : R -> Prop) (df : pd.frame R) :
  pd.max existing = Some m ->
  room_for n existing ->
  0 <= n ->
  built key (run_of_keys (m + 1) n) P df ->
  continues existing n (keys key df).
Proof.
  intros Hm Hroom Hn H. exists m. split; [exact Hm|].
  destruct (max_spec existing m Hm) as [Hin Hall].
  split; [eapply built_fresh_run; eassumption|]. split.
  - intros id Hid Hnew. unfold keys in Hnew.
    rewrite (built_keys _ _ _ _ H) in Hnew.
    apply run_of_keys_In in Hnew.
    pose proof (proj1 (Forall_forall _ _) Hall id Hid) as Hle.
    cbv beta in Hle. lia.
  - unfold keys. rewrite (built_keys _ _ _ _ H).
    apply Forall_forall. intros id Hid. apply run_of_keys_In in Hid.
    pose proof (proj1 (Forall_forall _ _) Hroom m Hin) as Hm64.
    cbv beta in Hm64. unfold is_int64 in *. lia.
Qed.

(** C6. Primary keys.  In a full run the keys of each of the nineteen
    tables are 1, 2, 3, ... in row order, one per row: dense and strictly
    increasing from 1.  In an incremental run over seed files that each
    hold a row, and whose keys leave room in numpy.int64 for the new rows,
    the new keys of each base table (5 customers, 2 technicians, 3
    equipment types, 10 parts, 200 service calls) are existing maximum + 1,
    + 2, ... in row order, strictly increasing, and none of them is a key
    of the seed file. *)
Theorem primary_keys :
  (forall s, exists ds s', main_full s = Ok (ds, s') /\ full_keys ds) /\
  (forall seeds s, seeded seeds -> seeds_leave_room seeds -> exists ds s',
     generate_incremental_data seeds s = Ok (Generated ds, s') /\
     increment_keys seeds ds).
Proof.
  split.
  - intros s. destruct (main_full_built s) as (ds & s' & E & H).
    exists ds, s'. split; [exact E|].
    destruct H as (Hcu & Hte & Heq & Hpa & Hdev & Hsc & Hus & Hinc & Hveh &
                   Hmail & Hsub & Hinv & Hpay & Hstock & Happ & Hquo & Hwo &
                   Hfb & Hleads).
    unfold full_keys.
    repeat match goal with |- _ /\ _ => split end;
      first [ eapply built_fresh_run; [eassumption | lia]
            | eapply built_fresh_rows; eassumption ].
  - intros seeds s Hs Hroom.
    destruct (generate_incremental_data_generates seeds Hs s)
      as (outcome & s' & E & ds & -> & H).
    exists ds, s'. split; [exact E|].
    destruct H as (ec & et & ee & ep & esc & mc & mt & me & mp &
      msc & Ec & Et & Ee & Ep & Esc & Mc & Mt & Me & Mp & Msc & Hb).
    destruct Hb as (Hcu & Hte & Heq & Hpa & Hsc & _).
    unfold seeds_leave_room in Hroom.
    unfold increment_keys. rewrite Ec, Et, Ee, Ep, Esc in *.
    cbn [existing_keys] in *.
    destruct Hroom as (Rcu & Rte & Req & Rpa & Rsc).
    repeat match goal with |- _ /\ _ => split end;
      (eapply built_continues; [eassumption | eassumption | lia
                               | eassumption]).
Qed.

Lemma costs_ok_total (r : ServiceCall.t) :
  costs_ok r -> total_is_labor_plus_parts r.
Proof. intros H. split; [exact H|]. destruct H as [-> _]. reflexivity. Qed.

(** C7. In a full run, and in an incremental run over seed files that
    each hold a row, the total_cost of every generated service call is
    labor_cost + parts_cost (the float sum, the same value to the last
    bit), where labor_cost and parts_cost are each rounded to 2
    decimals. *)
Theorem service_call_total_cost :
  (forall s, exists ds s',
     main_full s = Ok (ds, s') /\
     Forall total_is_labor_plus_parts
            (pd.iterrows (Datasets.service_calls ds))) /\
  (forall seeds s, seeded seeds -> exists ds s',
     generate_incremental_data seeds s = Ok (Generated ds, s') /\
     Forall total_is_labor_plus_parts
            (pd.iterrows (Increment.service_calls ds))).
Proof.
  split.
  - intros s. destruct (main_full_built s) as (ds & s' & E & H).
    exists ds, s'. split; [exact E|].
    destruct H as (_ & _ & _ & _ & _ & Hsc & _).
    eapply Forall_impl; [|eapply built_Forall, Hsc].
    intros r [_ Hr]. apply costs_ok_total, Hr.
  - intros seeds s Hs.
    destruct (generate_incremental_data_generates seeds Hs s)
      as (outcome & s' & E & ds & -> & H).
    exists ds, s'. split; [exact E|].
    destruct H as (ec & et & ee & ep & esc & mc & mt & me & mp &
      msc & _ & _ & _ & _ & _ & _ & _ & _ & _ & _ & Hb).
    destruct Hb as (_ & _ & _ & _ & Hsc & _).
    eapply Forall_impl; [|eapply built_Forall, Hsc].
    intros r [_ Hr]. apply costs_ok_total, Hr.
Qed.

(** C8. In a full run, and in an incremental run over seed files that
    each hold a row, every generated invoice has
    total_amount = subtotal + tax_amount and
    tax_amount = round(subtotal * tax_rate, 2). *)
Theorem invoice_amounts :
  (forall s, exists ds s',
     main_full s = Ok (ds, s') /\
     Forall amounts_ok (pd.iterrows (Datasets.invoices ds))) /\
  (forall seeds s, seeded seeds -> exists ds s',
     generate_incremental_data seeds s = Ok (Generated ds, s') /\
     Forall amounts_ok (pd.iterrows (Increment.invoices ds))).
Proof.
  split.
  - intros s. destruct (main_full_built s) as (ds & s' & E & H).
    exists ds, s'. split; [exact E|].
    destruct H as (_ & _ & _ & _ & _ & _ & _ & _ & _ & _ & _ & Hinv & _).
    eapply Forall_impl; [|eapply built_Forall, Hinv].
    intros r [Hr _]. exact Hr.
  - intros seeds s Hs.
    destruct (generate_incremental_data_generates seeds Hs s)
      as (outcome & s' & E & ds & -> & H).
    exists ds, s'. split; [exact E|].
    destruct H as (ec & et & ee & ep & esc & mc & mt & me & mp &
      msc & _ & _ & _ & _ & _ & _ & _ & _ & _ & _ & Hb).
    destruct Hb as (_ & _ & _ & _ & _ & _ & Hinv & _).
    eapply Forall_impl; [|eapply built_Forall, Hinv].
    intros r [Hr _]. exact Hr.
Qed.

(** C9. For every requested count (and every start key, in the
    incremental generator) the technician generator returns, and in every
    row it built the seven skill columns each hold
    max(1, min(10, base + variance)), with base the tier value of the row's
    technician_level and variance in [-2, 2]; hence a value in [1, 10]. *)
Theorem technician_skills :
  (forall n s, exists df s',
     generate_technicians n s = Ok (df, s') /\
     Forall skills_ok (pd.iterrows df)) /\
  (forall n start s, exists df s',
     generate_technicians_incremental n start s = Ok (df, s') /\
     Forall skills_ok (pd.iterrows df)).
Proof.
  split.
  - intros n s. destruct (generate_technicians_built n s) as (df & s' & E & H).
    exists df, s'. split; [exact E | eapply built_Forall, H].
  - intros n start s.
    destruct (generate_technicians_incremental_built n start s)
      as (df & s' & E & H).
    exists df, s'. split; [exact E | eapply built_Forall, H].
Qed.

(** C5. Over any service calls and any non-empty technician table, for a
    requested count n >= 0, the incident generator returns (it raises
    nothing, also when n exceeds the number of Emergency calls), the number
    of incident rows is min(n, number of Emergency calls), and the
    service_call_id of every incident row is the key of a service call
    whose service_type is "Emergency". *)
Theorem incidents_of_emergency_calls
  (calls : list ServiceCall.t) (technicians : list Technician.t) (n : Z)
  (s : sources) :
  technicians <> [] -> 0 <= n ->
  exists df s',
    generate_incident_response (pd.Frame calls) (pd.Frame technicians) n s
      = Ok (df, s') /\
    pd.len df = Z.min n (len (filter is_emergency calls)) /\
    Forall (fun r => exists call,
              In call calls /\
              ServiceCall.service_type call = "Emergency" /\
              IncidentResponse.service_call_id r =
                ServiceCall.service_call_id call)
           (pd.iterrows df).
Proof.
  intros Ht Hn.
  destruct (generate_incident_response_built calls technicians n Ht s)
    as (df & s' & E & H).
  exists df, s'. split; [exact E|]. split.
  - eapply built_count; [exact H|].
    pose proof (len_nonneg (filter is_emergency calls)). lia.
  - eapply Forall_impl; [|eapply built_Forall, H].
    intros r ((call & Hin & Hem & Hs & _) & _). exists call.
    split; [exact Hin|]. split; [|exact Hs].
    apply String.eqb_eq. exact Hem.
Qed.

(** C10. Over any service calls and any non-empty technician table, the
    incident generator returns, and its rows are, in order, the incidents
    of the first n Emergency calls: each row carries the service_call_id
    and, as responding_technician_id, the technician_id of its call. *)
Theorem responding_technician_of_call
  (calls : list ServiceCall.t) (technicians : list Technician.t) (n : Z)
  (s : sources) :
  technicians <> [] ->
  exists df s',
    generate_incident_response (pd.Frame calls) (pd.Frame technicians) n s
      = Ok (df, s') /\
    Forall2 (fun call r =>
               IncidentResponse.service_call_id r =
                 ServiceCall.service_call_id call /\
               IncidentResponse.responding_technician_id r =
                 ServiceCall.technician_id call)
            (firstn (Z.to_nat n) (filter is_emergency calls))
            (pd.iterrows df).
Proof.
  intros Ht.
  destruct (generate_incident_response_rows calls technicians n Ht s)
    as (df & s' & E & rows & -> & HF & _).
  exists (pd.DataFrame rows), s'. split; [exact E|].
  rewrite iterrows_DataFrame. exact HF.
Qed.

(** ** Payments per invoice *)



(** The same for a positive total: 80% of 0.01 rounds to 0.01. *)
Lemma partial_payment_of_a_penny :
  exists p s',
    generate_payments (pd.Frame [penny_invoice]) high_fraction_sources
      = Ok (pd.Frame [p], s') /\
    Payment.amount p = Invoice.total_amount penny_invoice.
Proof.
  eexists _, _. split; [vm_compute; reflexivity | reflexivity].
Qed.

(** ** Empty dependency tables and requested counts *)

Lemma range_nonpositive (n : Z) : n <= 0 -> range n = [].
Proof.
  intros H. unfold range. replace (Z.to_nat n) with 0%nat by lia. reflexivity.
Qed.

Lemma range_positive (n : Z) : 0 < n -> exists t, range n = 0 :: t.
Proof.
  intros H. unfold range.
  destruct (Z.to_nat n) as [|k] eqn:E; [lia|].
  eexists. reflexivity.
Qed.



Lemma Raises_bind_l {A B} (m : M A) (k : A -> M B) (e : exn) :
  Raises m e -> Raises (bind m k) e.
Proof. intros H s. unfold bind. rewrite H. reflexivity. Qed.

Lemma Raises_bind_r {A B} (m : M A) (k : A -> M B) (P : A -> Prop)
  (e : exn) :
  Total m P -> (forall a, P a -> Raises (k a) e) -> Raises (bind m k) e.
Proof.
  intros Hm Hk s. destruct (Hm s) as (a & s' & E & Pa).
  unfold bind. rewrite E. apply Hk, Pa.
Qed.






(** ** Worked inputs *)

(** Three incidents requested over one Emergency call out of two calls. *)
Lemma incidents_of_emergency_calls_witness :
  exists df s',
    generate_incident_response (pd.Frame [sample_call; emergency_call])
      (pd.Frame [on_call_technician]) 3 counting_sources = Ok (df, s') /\
    pd.len df =
      Z.min 3 (len (filter is_emergency [sample_call; emergency_call])) /\
    Forall (fun r => exists call,
              In call [sample_call; emergency_call] /\
              ServiceCall.service_type call = "Emergency" /\
              IncidentResponse.service_call_id r =
                ServiceCall.service_call_id call)
           (pd.iterrows df).
Proof.
  apply (incidents_of_emergency_calls [sample_call; emergency_call]
           [on_call_technician] 3 counting_sources).
  - discriminate.
  - lia.
Defined.

Lemma responding_technician_of_call_witness :
  exists df s',
    generate_incident_response (pd.Frame [sample_call; emergency_call])
      (pd.Frame [on_call_technician]) 3 counting_sources = Ok (df, s') /\
    Forall2 (fun call r =>
               IncidentResponse.service_call_id r =
                 ServiceCall.service_call_id call /\
               IncidentResponse.responding_technician_id r =
                 ServiceCall.technician_id call)
            (firstn (Z.to_nat 3)
               (filter is_emergency [sample_call; emergency_call]))
            (pd.iterrows df).
Proof.
  apply (responding_technician_of_call [sample_call; emergency_call]
           [on_call_technician] 3 counting_sources).
  discriminate.
Defined.

(** An incremental run over the seed directory of one row per base
    table. *)
Lemma referential_integrity_witness :
  exists ds s',
    generate_incremental_data one_row_seeds counting_sources
      = Ok (Generated ds, s') /\
    increment_integrity one_row_seeds ds.
Proof.
  refine (match referential_integrity with
          | conj _ increment => increment one_row_seeds counting_sources _
          end).
  repeat split; eexists; (split; [reflexivity | discriminate]).
Defined.

Lemma primary_keys_witness :
  exists ds s',
    generate_incremental_data one_row_seeds counting_sources
      = Ok (Generated ds, s') /\
    increment_keys one_row_seeds ds.
Proof.
  refine (match primary_keys with
          | conj _ increment => increment one_row_seeds counting_sources _ _
          end).
  - repeat split; eexists; (split; [reflexivity | discriminate]).
  - unfold seeds_leave_room, room_for. cbn [one_row_seeds existing_keys map
      Seeds.customers Seeds.technicians Seeds.equipment_types Seeds.parts
      Seeds.service_calls].
    repeat constructor; vm_compute; discriminate.
Defined.

Lemma service_call_total_cost_witness :
  exists ds s',
    generate_incremental_data one_row_seeds counting_sources
      = Ok (Generated ds, s') /\
    Forall total_is_labor_plus_parts
           (pd.iterrows (Increment.service_calls ds)).
Proof.
  refine (match service_call_total_cost with
          | conj _ increment => increment one_row_seeds counting_sources _
          end).
  repeat split; eexists; (split; [reflexivity | discriminate]).
Defined.

Lemma invoice_amounts_witness :
  exists ds s',
    generate_incremental_data one_row_seeds counting_sources
      = Ok (Generated ds, s') /\
    Forall amounts_ok (pd.iterrows (Increment.invoices ds)).
Proof.
  refine (match invoice_amounts with
          | conj _ increment => increment one_row_seeds counting_sources _
          end).
  repeat split; eexists; (split; [reflexivity | discriminate]).
Defined.

(** Over a customers file whose largest key is 500, the five new customers
    are keyed 501 to 505. *)
Example new_customers_after_500 :
  exists ds s',
    generate_incremental_data
      (Seeds.mk (Some [home_customer; Customer.mk 500 "commercial"])
                (Some [on_call_technician]) (Some [furnace])
                (Some [filter_part]) (Some [sample_call]))
      counting_sources = Ok (Generated ds, s') /\
    keys Customer.customer_id (Increment.customers ds)
      = [501; 502; 503; 504; 505].
Proof.
  set (seeds := Seeds.mk _ _ _ _ _).
  assert (Hs : seeded seeds)
    by (repeat split; eexists; (split; [reflexivity | discriminate])).
  destruct (generate_incremental_data_generates seeds Hs counting_sources)
    as (outcome & s' & E & ds & -> & H).
  exists ds, s'. split; [exact E|].
  destruct H as (ec & et & ee & ep & esc & mc & mt & me & mp & msc &
                 Ec & _ & _ & _ & _ & Mc & _ & _ & _ & _ & Hcu & _).
  injection Ec as <-. injection Mc as <-.
  unfold keys. rewrite (built_keys _ _ _ _ Hcu). reflexivity.
Qed.

(** The run behind both: one incident, for call 2 and its technician 7. *)
Example incident_of_the_emergency_call :
  exists r s',
    generate_incident_response (pd.Frame [sample_call; emergency_call])
      (pd.Frame [on_call_technician]) 3 counting_sources
      = Ok (pd.Frame [r], s') /\
    IncidentResponse.incident_id r = 1 /\
    IncidentResponse.service_call_id r = 2 /\
    IncidentResponse.responding_technician_id r = 7.
Proof. eexists _, _. split; [vm_compute; reflexivity | repeat split]. Qed.

(** ** Further facts on counts and empty frames *)

(** The appointment table has one row per service call, topped up to the
    requested count when that is larger: max(n, number of service calls)
    rows. *)
Lemma generate_appointments_count (customers : list Customer.t)
  (technicians : list Technician.t)
  (service_calls_df : pd.frame ServiceCall.t) (n : Z) :
  customers <> [] -> technicians <> [] ->
  Total (generate_appointments (pd.Frame customers) (pd.Frame technicians)
           service_calls_df n)
        (fun df => pd.len df = Z.max n (pd.len service_calls_df)).
Proof.
  intros Hc Ht.
  eapply Total_weaken; [apply generate_appointments_rows; assumption|].
  intros df (history & future & -> & _ & HF & Lfut & _).
  unfold pd.len at 1. rewrite iterrows_DataFrame, len_app, Lfut.
  assert (len history = pd.len service_calls_df).
  { unfold pd.len, len. f_equal. eapply Forall2_length_eq, HF. }
  lia.
Qed.

(** Two service calls and one appointment requested: two appointments. *)
Example two_calls_one_appointment_requested :
  exists a b s',
    generate_appointments (pd.Frame [Customer.mk 1 "residential"])
      (pd.Frame [on_call_technician]) (pd.Frame [sample_call; emergency_call])
      1 counting_sources
    = Ok (pd.Frame [a; b], s') /\
    Appointment.service_call_id a = Some 1 /\
    Appointment.service_call_id b = Some 2.
Proof. eexists _, _, _. split; [vm_compute; reflexivity | split; reflexivity]. Qed.

(** No service call requested: the list of rows is empty, the frame built
    from it has no column, and the assignment of [total_cost] raises. *)
Example no_service_call_requested :
  forall customers_df technicians_df equipment_df s,
    generate_service_calls customers_df technicians_df equipment_df 0 s
    = Raise (KeyError "labor_cost").
Proof. reflexivity. Qed.

(** The invoices of no service call are [pd.DataFrame([])], a frame with no
    column, and the payment generator raises on it. *)
Example payments_of_no_invoice :
  forall customers_df s,
    (invoices <- generate_invoices (pd.Frame []) customers_df None ;;
     generate_payments invoices) s
    = Raise (KeyError "status").
Proof. reflexivity. Qed.

(** A negative count reaches [DataFrame.sample] as it is. *)
Example negative_feedback_count :
  forall customers_df s,
    generate_customer_feedback (pd.Frame [sample_call]) customers_df (-1) s
    = Raise ValueError.
Proof. reflexivity. Qed.

(** Two technicians on the counting tape. *)
Example two_technicians :
  exists a b s',
    generate_technicians 2 counting_sources = Ok (pd.Frame [a; b], s') /\
    Technician.technician_level a = "junior" /\
    map snd (Technician.skills a) = [2; 3; 4; 5; 1; 2; 3] /\
    Technician.technician_level b = "specialist" /\
    map snd (Technician.skills b) = [9; 10; 10; 7; 8; 9; 10].
Proof.
  eexists _, _, _. split; [vm_compute; reflexivity | repeat split].
Qed.

(** The float sum of two 2-decimal costs is not rounded again: a call of
    1.1 hours at 61 an hour with 0.07 of parts has labor_cost 67.1,
    parts_cost 0.07 and total_cost 67.16999999999999, the double just
    below 67.17. *)
Example total_cost_is_the_float_sum :
  let tape := fun pos : nat =>
    nth pos [2 ^ 53 / 70; 0; 0; 0; 0; 11; 7 * 2 ^ 53 / 30000] 0 in
  exists r s',
    generate_service_calls (pd.Frame [Customer.mk 1 "residential"])
      (pd.Frame [on_call_technician])
      (pd.Frame [EquipmentType.mk 1 "Trane" "X100" "Furnace" 18000 15]) 1
      (mkSources tape 0 tape 0)
    = Ok (pd.Frame [r], s') /\
    ServiceCall.labor_cost r = 67.1%float /\
    ServiceCall.parts_cost r = 0.07%float /\
    ServiceCall.total_cost r = PrimFloat.add 67.1 0.07 /\
    PrimFloat.ltb (ServiceCall.total_cost r) 67.17 = true.
Proof.
  eexists _, _. split; [vm_compute; reflexivity | repeat split].
Qed.

(** * Further properties of the generators *)

#[local] Arguments random.uniform_of : simpl never.
#[local] Arguments round : simpl never.
#[local] Arguments float_of_Z : simpl never.

(** Name the raw draw behind every [random.uniform] value at hand. *)
Ltac name_draws :=
  repeat match goal with
         | H : exists r, _ = random.uniform_of _ _ r |- _ =>
             destruct H as [? ->]
         end.

(** ** Sampling without replacement *)

Lemma remove_nth_Permutation {R} (i : nat) (l : list R) (d : R) :
  (i < List.length l)%nat ->
  Permutation (nth i l d :: pd.remove_nth i l) l.
Proof.
  revert i. induction l as [|x t IH]; intros i Hi; cbn in Hi; [lia|].
  destruct i as [|j]; cbn [nth pd.remove_nth].
  - apply Permutation_refl.
  - eapply perm_trans; [apply perm_swap|].
    apply perm_skip, IH. lia.
Qed.

(** The rows drawn and the rows left make up the population: no row is
    drawn twice. *)
Lemma Total_draw_Permutation {R} (k : nat) (rows : list R) :
  (k <= List.length rows)%nat ->
  Total (pd.draw k rows)
        (fun l => List.length l = k /\
                  exists rest, Permutation (l ++ rest) rows).
Proof.
  revert rows. induction k as [|k IH]; intros rows Hk.
  - apply Total_ret. split; [reflexivity|]. exists rows. apply Permutation_refl.
  - destruct rows as [|x t]; [cbn in Hk; lia|].
    cbn [pd.draw]. eapply Total_bind; [apply Total_numpy_raw|].
    intros r _.
    assert (Hi : (Z.to_nat (r mod len (x :: t)) < List.length (x :: t))%nat).
    { unfold len.
      pose proof (Z.mod_pos_bound r (Z.of_nat (List.length (x :: t)))).
      cbn [List.length] in *. lia. }
    eapply Total_bind.
    + apply IH. rewrite remove_nth_length by exact Hi. cbn [List.length] in *.
      lia.
    + intros l' [Hl (rest & Hp)]. apply Total_ret. split; [cbn; lia|].
      exists rest. cbn [app].
      eapply perm_trans; [apply perm_skip, Hp|].
      apply remove_nth_Permutation, Hi.
Qed.

Lemma Total_sample_Permutation {R} (rows : list R) (n : Z) :
  0 <= n <= len rows ->
  Total (pd.sample (pd.Frame rows) n)
        (fun df => exists l rest,
           df = pd.Frame l /\ len l = n /\ Permutation (l ++ rest) rows).
Proof.
  intros Hn. unfold pd.sample. change (pd.len (pd.Frame rows)) with (len rows).
  replace ((n <? 0) || (len rows <? n)) with false by
    (symmetry; apply orb_false_iff; split; apply Z.ltb_ge; lia).
  eapply Total_bind.
  - apply Total_draw_Permutation. unfold len in Hn. lia.
  - intros l [Hl (rest & Hp)]. apply Total_ret. exists l, rest.
    repeat split; [unfold len; lia | exact Hp].
Qed.

Lemma Forall2_enumerate {A B} (Q : Z -> A -> B -> Prop) (l : list A)
  (rows : list B) :
  Forall2 (fun ix r => Q (fst ix) (snd ix) r) (enumerate l) rows ->
  Forall2 (fun x r => exists i, Q i x r) l rows /\
  List.length rows = List.length l.
Proof.
  unfold enumerate. intros H.
  assert (Hlen : List.length (range (len l)) = List.length l).
  { rewrite range_length. unfold len. lia. }
  remember (range (len l)) as idx eqn:E. clear E.
  revert idx rows H Hlen.
  induction l as [|x t IH]; intros idx rows H Hlen.
  - destruct idx; [|discriminate]. inversion H. split; constructor.
  - destruct idx as [|i idx]; [discriminate|]. cbn [combine] in H.
    inversion H as [|? r ? rows' Hr Hrest]; subst.
    destruct (IH idx rows' Hrest) as [HF HL]; [cbn in Hlen; lia|].
    split; [constructor; [exists i; exact Hr | exact HF] | cbn; lia].
Qed.

(** ** Invoices *)

Lemma generate_invoices_sampled (calls : list ServiceCall.t)
  (customers_df : pd.frame Customer.t) (n_invoices : option Z) :
  0 <= invoices_requested (pd.Frame calls) n_invoices ->
  Total (generate_invoices (pd.Frame calls) customers_df n_invoices)
        (fun df => exists selected rest,
           Permutation (selected ++ rest) calls /\
           len selected =
             Z.min (invoices_requested (pd.Frame calls) n_invoices)
                   (len calls) /\
           Forall2 invoice_row_of selected (pd.iterrows df)).
Proof.
  intros Hn. unfold generate_invoices.
  fold (invoices_requested (pd.Frame calls) n_invoices).
  change (pd.len (pd.Frame calls)) with (len calls).
  eapply Total_bind.
  { apply Total_sample_Permutation. pose proof (len_nonneg calls). lia. }
  intros ? (l & rest & -> & Hlen & Hp). cbn [pd.iterrows].
  eapply Total_bind.
  { apply (Total_forM (enumerate l) _
             (fun ix r => (fun _ call r => invoice_row_of call r)
                            (fst ix) (snd ix) r)).
    intros [i call] _. cbv beta iota. total_steps. name_draws.
    cbn [fst snd]. repeat split; cbn; eauto. }
  intros rows HF. apply Total_ret. exists l, rest.
  split; [exact Hp|]. split; [exact Hlen|].
  rewrite iterrows_DataFrame.
  destruct (Forall2_enumerate (fun _ call r => invoice_row_of call r)
              l rows HF) as [H _].
  eapply Forall2_impl; [|exact H]. intros call r [_ Hr]. exact Hr.
Qed.

Lemma Permutation_selected_In {A} (selected rest l : list A) (x : A) :
  Permutation (selected ++ rest) l -> In x selected -> In x l.
Proof.
  intros Hp Hx. eapply Permutation_in; [exact Hp|].
  apply in_or_app. left. exact Hx.
Qed.

Lemma Permutation_selected_NoDup {A B} (f : A -> B)
  (selected rest l : list A) :
  Permutation (selected ++ rest) l -> NoDup (map f l) ->
  NoDup (map f selected).
Proof.
  intros Hp Hnd.
  assert (H : NoDup (map f (selected ++ rest))).
  { eapply Permutation_NoDup; [|exact Hnd].
    apply Permutation_map, Permutation_sym, Hp. }
  rewrite map_app in H. apply NoDup_app_remove_r in H. exact H.
Qed.

(** X1. Over service calls with distinct keys and a non-negative number
    of invoices requested (85% of the calls by default), the invoice
    generator returns min(requested, number of calls) invoices and no
    service call is invoiced twice. *)
Theorem invoices_of_distinct_calls (calls : list ServiceCall.t)
  (customers_df : pd.frame Customer.t) (n_invoices : option Z) :
  0 <= invoices_requested (pd.Frame calls) n_invoices ->
  NoDup (map ServiceCall.service_call_id calls) ->
  Total (generate_invoices (pd.Frame calls) customers_df n_invoices)
        (fun df =>
           pd.len df =
             Z.min (invoices_requested (pd.Frame calls) n_invoices)
                   (len calls) /\
           NoDup (keys Invoice.service_call_id df)).
Proof.
  intros Hn Hnd.
  eapply Total_weaken; [apply generate_invoices_sampled, Hn|].
  intros df (selected & rest & Hp & Hlen & HF). split.
  - rewrite <- Hlen. unfold pd.len, len. f_equal.
    eapply Forall2_length_eq, HF.
  - unfold keys.
    replace (map Invoice.service_call_id (pd.iterrows df))
      with (map ServiceCall.service_call_id selected).
    + eapply Permutation_selected_NoDup; eassumption.
    + symmetry. eapply Forall2_map_eq; [exact HF|].
      intros call r _ ((E & _) & _). exact E.
Qed.

(** X2. Every invoice is raised for a service call of the input: it
    carries the call's key and the call's customer, its subtotal is the
    call's total cost times a markup drawn in random.uniform(1.1, 1.3),
    rounded to 2 decimals, its tax rate is 0.065, 0.075, 0.08 or 0.085 and
    its status "Paid", "Pending", "Overdue" or "Cancelled". *)
Theorem invoice_rows_of_calls (calls : list ServiceCall.t)
  (customers_df : pd.frame Customer.t) (n_invoices : option Z) :
  0 <= invoices_requested (pd.Frame calls) n_invoices ->
  Total (generate_invoices (pd.Frame calls) customers_df n_invoices)
        (fun df =>
           Forall (fun r => exists call,
                     In call calls /\ invoice_row_of call r)
                  (pd.iterrows df)).
Proof.
  intros Hn.
  eapply Total_weaken; [apply generate_invoices_sampled, Hn|].
  intros df (selected & rest & Hp & _ & HF).
  eapply Forall_impl; [|exact (Forall2_exists_l _ _ _ HF)].
  intros r (call & Hin & Hr). exists call. split; [|exact Hr].
  eapply Permutation_selected_In; eassumption.
Qed.

(** ** Customer feedback *)

Lemma generate_customer_feedback_sampled (calls : list ServiceCall.t)
  (customers_df : pd.frame Customer.t) (n : Z) :
  0 <= n ->
  Total (generate_customer_feedback (pd.Frame calls) customers_df n)
        (fun df => exists selected rest,
           Permutation (selected ++ rest) calls /\
           len selected = Z.min n (len calls) /\
           Forall2 feedback_row_of selected (pd.iterrows df)).
Proof.
  intros Hn. unfold generate_customer_feedback.
  change (pd.len (pd.Frame calls)) with (len calls).
  eapply Total_bind.
  { apply Total_sample_Permutation. pose proof (len_nonneg calls). lia. }
  intros ? (l & rest & -> & Hlen & Hp). cbn [pd.iterrows].
  eapply Total_bind.
  { apply (Total_forM (enumerate l) _
             (fun ix r => (fun _ call r => feedback_row_of call r)
                            (fst ix) (snd ix) r)).
    intros [i call] _. cbv beta iota. total_steps.
    cbn [fst snd]. repeat split; cbn; lia. }
  intros rows HF. apply Total_ret. exists l, rest.
  split; [exact Hp|]. split; [exact Hlen|].
  rewrite iterrows_DataFrame.
  destruct (Forall2_enumerate (fun _ call r => feedback_row_of call r)
              l rows HF) as [H _].
  eapply Forall2_impl; [|exact H]. intros call r [_ Hr]. exact Hr.
Qed.

(** X3. Over service calls with distinct keys and a count n >= 0, the
    feedback generator returns min(n, number of calls) rows; no service
    call is surveyed twice, every row carries the key and the customer of
    its call, and the five ratings lie in [1, 10]. *)
Theorem feedback_of_distinct_calls (calls : list ServiceCall.t)
  (customers_df : pd.frame Customer.t) (n : Z) :
  0 <= n ->
  NoDup (map ServiceCall.service_call_id calls) ->
  Total (generate_customer_feedback (pd.Frame calls) customers_df n)
        (fun df =>
           pd.len df = Z.min n (len calls) /\
           NoDup (keys Feedback.service_call_id df) /\
           Forall (fun r => exists call,
                     In call calls /\ feedback_row_of call r)
                  (pd.iterrows df)).
Proof.
  intros Hn Hnd.
  eapply Total_weaken; [apply generate_customer_feedback_sampled, Hn|].
  intros df (selected & rest & Hp & Hlen & HF). split; [|split].
  - rewrite <- Hlen. unfold pd.len, len. f_equal.
    eapply Forall2_length_eq, HF.
  - unfold keys.
    replace (map Feedback.service_call_id (pd.iterrows df))
      with (map ServiceCall.service_call_id selected).
    + eapply Permutation_selected_NoDup; eassumption.
    + symmetry. eapply Forall2_map_eq; [exact HF|].
      intros call r _ ((E & _) & _). exact E.
  - eapply Forall_impl; [|exact (Forall2_exists_l _ _ _ HF)].
    intros r (call & Hin & Hr). exists call. split; [|exact Hr].
    eapply Permutation_selected_In; eassumption.
Qed.

(** ** Appointments *)

Lemma historical_appointment_row (pre : list ServiceCall.t)
  (call : ServiceCall.t) (state : list Appointment.t * Z) :
  counted state /\ Forall2 historical_row_of pre (fst state) ->
  Total (historical_appointment state call)
        (fun st => counted st /\
                   Forall2 historical_row_of (pre ++ [call]) (fst st)).
Proof.
  intros [Hc HF]. destruct state as [rows next].
  unfold historical_appointment. total_steps. split.
  - apply counted_add; [exact Hc | reflexivity].
  - cbn [fst] in *. apply Forall2_app; [exact HF|].
    constructor; [|constructor]. repeat split. assumption.
Qed.

Lemma future_appointment_row (customers : list Customer.t)
  (technicians : list Technician.t) (history : list Appointment.t)
  (pre : list Z) (i : Z) (state : list Appointment.t * Z) :
  customers <> [] -> technicians <> [] ->
  (counted state /\
   exists future, fst state = history ++ future /\
     len future = len pre /\
     Forall (future_row (map Customer.customer_id customers)
                        (map Technician.technician_id technicians)) future) ->
  Total (future_appointment (pd.Frame customers) (pd.Frame technicians)
           state i)
        (fun st => counted st /\
           exists future, fst st = history ++ future /\
             len future = len (pre ++ [i]) /\
             Forall (future_row (map Customer.customer_id customers)
                       (map Technician.technician_id technicians)) future).
Proof.
  intros Hcu Hte (Hc & future & E & Hl & HF). destruct state as [rows next].
  unfold future_appointment. total_steps. split.
  - apply counted_add; [exact Hc | reflexivity].
  - cbn [fst] in *. eexists (future ++ [_]). split; [|split].
    + rewrite E, app_assoc. reflexivity.
    + rewrite !len_app, !len_one, Hl. reflexivity.
    + apply Forall_app. split; [exact HF|]. constructor; [|constructor].
      repeat split; assumption.
Qed.

(** X4. Over non-empty customer and technician tables, the appointment
    generator returns max(n, number of service calls) rows keyed 1, 2, ...:
    first one "Completed" appointment per service call, in call order, with
    the call's key, customer, technician, type and duration; then, only
    when n exceeds the number of calls, n - calls future appointments with
    no service call, a customer and a technician of the tables, and status
    "Scheduled" or "Confirmed". *)
Theorem appointments_history_then_future (customers : list Customer.t)
  (technicians : list Technician.t)
  (service_calls_df : pd.frame ServiceCall.t) (n : Z) :
  customers <> [] -> technicians <> [] ->
  Total (generate_appointments (pd.Frame customers) (pd.Frame technicians)
           service_calls_df n)
        (fun df => exists history future,
           pd.iterrows df = history ++ future /\
           pd.len df = Z.max n (pd.len service_calls_df) /\
           keys Appointment.appointment_id df = run_of_keys 1 (pd.len df) /\
           Forall2 historical_row_of (pd.iterrows service_calls_df) history /\
           len future = Z.max 0 (n - pd.len service_calls_df) /\
           Forall (future_row (map Customer.customer_id customers)
                     (map Technician.technician_id technicians)) future).
Proof.
  intros Hcu Hte. unfold generate_appointments.
  eapply Total_bind.
  { apply (Total_foldM historical_appointment
             (fun pre st => counted st /\
                            Forall2 historical_row_of pre (fst st))).
    - split; [split; reflexivity | constructor].
    - intros pre call st _ H. apply historical_appointment_row, H. }
  intros [history next] [Hc HF]. cbn [fst] in *.
  eapply Total_bind.
  { apply (Total_foldM _
             (fun pre st => counted st /\
                exists future, fst st = history ++ future /\
                  len future = len pre /\
                  Forall (future_row (map Customer.customer_id customers)
                            (map Technician.technician_id technicians))
                         future)).
    - split; [exact Hc|]. exists []. cbn [fst].
      rewrite app_nil_r. repeat split. constructor.
    - intros pre i st _ H. apply future_appointment_row; assumption. }
  intros [rows next'] ([_ Hk] & future & E & Hl & HFut).
  cbn [fst] in *. subst rows. apply Total_ret.
  exists history, future.
  assert (Hh : len history = pd.len service_calls_df).
  { unfold pd.len, len. f_equal. eapply Forall2_length_eq, HF. }
  assert (Hf : len future = Z.max 0 (n - pd.len service_calls_df)).
  { rewrite Hl. unfold len at 1. rewrite range_length. rewrite Hh. lia. }
  assert (Hlen : pd.len (pd.DataFrame (history ++ future))
                 = len (history ++ future)).
  { unfold pd.len. rewrite iterrows_DataFrame. reflexivity. }
  unfold keys. rewrite Hlen, iterrows_DataFrame.
  repeat split; try assumption.
  rewrite len_app, Hf, Hh. lia.
Qed.

(** ** Mailing list *)

(** X5. From every customer table and every count the mailing-list
    generator returns: one contact per customer in table order, tagged
    "Existing Customer" and carrying the customer's key, followed by
    max(0, n_additional) prospects with no customer; the contact ids are
    1, 2, ... across both parts. *)
Theorem mailing_list_customers_then_prospects
  (customers_df : pd.frame Customer.t) (n_additional : Z) :
  Total (generate_mailing_list customers_df n_additional)
        (fun df => exists contacts prospects,
           pd.iterrows df = contacts ++ prospects /\
           Forall2 customer_contact (pd.iterrows customers_df) contacts /\
           len prospects = Z.max 0 n_additional /\
           Forall prospect prospects /\
           keys Contact.contact_id df = run_of_keys 1 (pd.len df)).
Proof.
  unfold generate_mailing_list.
  set (K := fun rows : list Contact.t =>
              map Contact.contact_id rows = run_of_keys 1 (len rows)).
  eapply Total_bind.
  { apply (Total_foldM _
             (fun pre rows => K rows /\ Forall2 customer_contact pre rows)).
    - split; [reflexivity | constructor].
    - intros pre customer rows _ [Hk HF]. total_steps. split.
      + apply keys_snoc; [exact Hk | reflexivity].
      + apply Forall2_app; [exact HF|]. constructor; [|constructor].
        split; reflexivity. }
  intros contacts [Hk HF].
  eapply Total_bind.
  { apply (Total_foldM _
             (fun (pre : list Z) rows =>
                K rows /\
                exists prospects, rows = contacts ++ prospects /\
                  len prospects = len pre /\ Forall prospect prospects)).
    - split; [exact Hk|]. exists []. rewrite app_nil_r.
      repeat split. constructor.
    - intros pre i rows _ (Hk' & prospects & -> & Hl & HP). total_steps.
      split.
      + apply keys_snoc; [exact Hk' | reflexivity].
      + eexists (prospects ++ [_]). split; [|split].
        * rewrite app_assoc. reflexivity.
        * rewrite !len_app, !len_one, Hl. reflexivity.
        * apply Forall_app. split; [exact HP|]. constructor; [|constructor].
          split; [reflexivity | assumption]. }
  intros rows (Hk' & prospects & -> & Hl & HP). apply Total_ret.
  exists contacts, prospects. unfold keys, pd.len.
  rewrite iterrows_DataFrame. repeat split; try assumption.
  rewrite Hl. unfold len. rewrite range_length. lia.
Qed.

(** ** Inventory *)

(** X6. From every parts table the inventory generator returns one stock
    row per part, in table order, with inventory_id = part_id = the part's
    key and the part's unit cost; current_stock is in [0, 100],
    reorder_point in [5, 25], max_stock_level in [50, 200]; stock_status is
    "Low Stock" when current_stock <= reorder_point and "In Stock"
    otherwise; total_value = round(current_stock * unit_cost, 2). *)
Theorem inventory_row_per_part (parts_df : pd.frame Part.t) :
  Total (generate_inventory parts_df)
        (fun df => Forall2 stock_row_of (pd.iterrows parts_df)
                           (pd.iterrows df)).
Proof.
  unfold generate_inventory. eapply Total_bind.
  { apply (Total_forM _ _ stock_row_of). intros part _. total_steps.
    repeat split; cbn; lia. }
  intros rows HF. apply Total_ret. rewrite iterrows_DataFrame. exact HF.
Qed.

(** ** Work orders *)

(** X7. From every service-call table, and whatever the technician table
    (it is not read), the work-order generator returns one "Completed"
    work order per service call, in table order, keyed by the call's key
    and carrying the call's technician and duration. *)
Theorem work_order_per_call (service_calls_df : pd.frame ServiceCall.t)
  (technicians_df : pd.frame Technician.t) :
  Total (generate_work_orders service_calls_df technicians_df)
        (fun df => Forall2 work_order_row_of (pd.iterrows service_calls_df)
                           (pd.iterrows df)).
Proof.
  unfold generate_work_orders. eapply Total_bind.
  { apply (Total_forM _ _ work_order_row_of). intros call _. total_steps.
    name_draws. repeat split; cbn; eauto. }
  intros rows HF. apply Total_ret. rewrite iterrows_DataFrame. exact HF.
Qed.

(** ** Parts usage *)

(** X8. Over a non-empty parts table and avg_parts_per_call >= 0, the
    parts-usage generator returns the usage rows call by call, in call
    order: between 0 and 2 * avg rows per service call, each carrying the
    call's key, a part of the table and a quantity in [1, 5]; the usage
    ids are 1, 2, ... across the calls. *)
Theorem parts_usage_per_call (service_calls_df : pd.frame ServiceCall.t)
  (parts : list Part.t) (avg : Z) :
  parts <> [] -> 0 <= avg ->
  Total (generate_parts_usage service_calls_df (pd.Frame parts) avg)
        (fun df => exists groups,
           pd.iterrows df = List.concat groups /\
           Forall2 (usage_of (map Part.part_id parts) avg)
                   (pd.iterrows service_calls_df) groups /\
           keys PartsUsage.usage_id df = run_of_keys 1 (pd.len df)).
Proof.
  intros Hp Havg. unfold generate_parts_usage.
  set (ids := map Part.part_id parts).
  eapply Total_bind.
  { apply (Total_foldM _
             (fun pre rows => usage_keys rows /\
                exists groups, rows = List.concat groups /\
                               Forall2 (usage_of ids avg) pre groups)).
    - split; [reflexivity|]. exists []. split; [reflexivity | constructor].
    - intros pre call rows _ (Hk & groups & -> & HF). total_step.
      eapply Total_weaken.
      + apply (Total_foldM _
                 (fun (done : list Z) rows' => usage_keys rows' /\
                    exists group, rows' = List.concat groups ++ group /\
                      len group = len done /\
                      Forall (fun r =>
                         PartsUsage.service_call_id r =
                           ServiceCall.service_call_id call /\
                         In (PartsUsage.part_id r) ids /\
                         1 <= PartsUsage.quantity_used r <= 5) group)).
        * split; [exact Hk|]. exists []. rewrite app_nil_r.
          repeat split. constructor.
        * intros done i rows' _ (Hk' & group & -> & Hl & HG). total_steps.
          split; [apply keys_snoc; [exact Hk' | reflexivity]|].
          eexists (group ++ [_]). split; [|split].
          -- rewrite app_assoc. reflexivity.
          -- rewrite !len_app, !len_one, Hl. reflexivity.
          -- apply Forall_app. split; [exact HG|].
             constructor; [|constructor]. repeat split; cbn; solve [assumption | lia].
      + intros rows' (Hk' & group & -> & Hl & HG). split; [exact Hk'|].
        exists (groups ++ [group]). split.
        * rewrite concat_app. cbn. rewrite app_nil_r. reflexivity.
        * apply Forall2_app; [exact HF|]. constructor; [|constructor].
          split; [|exact HG]. rewrite Hl. unfold len.
          rewrite range_length. lia. }
  intros rows (Hk & groups & -> & HF). apply Total_ret. exists groups.
  unfold keys, pd.len. rewrite iterrows_DataFrame. auto.
Qed.

(** X9. With a negative avg_parts_per_call and at least one service call,
    the parts-usage generator raises ValueError: random.randint(0, 2 * avg)
    has an empty range. *)
Theorem parts_usage_negative_average
  (service_calls_df : pd.frame ServiceCall.t) (parts_df : pd.frame Part.t)
  (avg : Z) :
  avg < 0 -> pd.iterrows service_calls_df <> [] ->
  Raises (generate_parts_usage service_calls_df parts_df avg) ValueError.
Proof.
  intros Havg Hne s. unfold generate_parts_usage.
  destruct (pd.iterrows service_calls_df) as [|call rest]; [congruence|].
  cbn [foldM]. unfold bind, random.randint.
  replace (avg * 2 <? 0) with true by (symmetry; apply Z.ltb_lt; lia).
  reflexivity.
Qed.

(** ** Payments *)

Lemma len_cons {A} (x : A) (l : list A) : len (x :: l) = 1 + len l.
Proof. unfold len. cbn [List.length]. lia. Qed.

Lemma len_nil {A} : len (@nil A) = 0.
Proof. reflexivity. Qed.

Lemma paid_for_count (invoices : list Invoice.t)
  (chunks : list (list Payment.t)) :
  Forall2 paid_for invoices chunks ->
  count_status "Paid" invoices <= len (List.concat chunks)
    <= count_status "Paid" invoices + count_status "Pending" invoices.
Proof.
  unfold count_status.
  induction 1 as [|x c invoices chunks Hc _ IH];
    [unfold len; cbn [List.concat filter List.length]; lia|].
  cbn [List.concat filter]. rewrite len_app. unfold paid_for in Hc.
  destruct (String.eqb (Invoice.status x) "Paid") eqn:Epaid.
  - apply String.eqb_eq in Epaid. rewrite Epaid.
    change (String.eqb "Paid" "Pending") with false. cbv iota.
    destruct Hc as (p & -> & _). rewrite len_one, len_cons. lia.
  - destruct (String.eqb (Invoice.status x) "Pending") eqn:Epending.
    + rewrite len_cons. destruct Hc as [-> | (p & u & -> & _)].
      * rewrite len_nil. lia.
      * rewrite len_one. lia.
    + subst c. rewrite len_nil. lia.
Qed.

Lemma payment_step_kind (invoice : Invoice.t) (state : list Payment.t * Z) :
  Forall payment_kind (fst state) ->
  Total (payment_step state invoice)
        (fun st => Forall payment_kind (fst st)).
Proof.
  intros H. destruct state as [payments next]. unfold payment_step.
  cbn [fst] in H.
  destruct (String.eqb (Invoice.status invoice) "Paid").
  - total_step.
    eapply Total_bind; [apply Total_processing_fee_of|]. intros fee _.
    apply Total_ret. cbn [fst]. apply Forall_app. split; [exact H|].
    constructor; [|constructor]. split; [assumption|]. left. split; reflexivity.
  - destruct (String.eqb (Invoice.status invoice) "Pending").
    + total_step. destruct a.
      * do 3 total_step.
        eapply Total_bind; [apply Total_processing_fee_of|]. intros fee _.
        apply Total_ret. cbn [fst]. apply Forall_app. split; [exact H|].
        constructor; [|constructor]. split; [assumption|]. right.
        split; [assumption | reflexivity].
      * apply Total_ret. exact H.
    + apply Total_ret. exact H.
Qed.

Lemma generate_payments_kind (invoices : list Invoice.t) :
  Total (generate_payments (pd.Frame invoices))
        (fun df => Forall payment_kind (pd.iterrows df)).
Proof.
  unfold generate_payments.
  eapply Total_bind; [apply Total_where|]. intros ? ->. cbn [pd.iterrows].
  eapply Total_bind.
  { apply (Total_foldM payment_step
             (fun _ st => Forall payment_kind (fst st))).
    - constructor.
    - intros pre x st _ Hst. apply payment_step_kind, Hst. }
  intros st Hst. apply Total_ret. rewrite iterrows_DataFrame. exact Hst.
Qed.

(** X10. Over any invoice table the payment generator returns at least
    one row per "Paid" invoice and at most one row per "Paid" or "Pending"
    invoice; the payment ids are 1, 2, ...; every row is a full payment
    ("Completed", no notes) or a partial one ("Completed" or "Pending",
    notes "Partial payment"), paid by one of the five methods. *)
Theorem payments_count_and_kind (invoices : list Invoice.t) :
  Total (generate_payments (pd.Frame invoices))
        (fun df =>
           count_status "Paid" invoices <= pd.len df
             <= count_status "Paid" invoices +
                count_status "Pending" invoices /\
           keys Payment.payment_id df = run_of_keys 1 (pd.len df) /\
           Forall payment_kind (pd.iterrows df)).
Proof.
  eapply Total_weaken.
  - apply (Total_and _ _ _ (generate_payments_rows invoices)
             (generate_payments_kind invoices)).
  - intros df [(chunks & -> & HF & Hk) Hkind].
    unfold keys, pd.len in *. rewrite iterrows_DataFrame in *.
    split; [apply paid_for_count, HF|]. split; assumption.
Qed.

(** ** Row facts of the generators that loop over a count *)

Lemma built_rows {R} (key : R -> Z) ids (P : R -> Prop) (df : pd.frame R) :
  built key ids P df -> keys key df = ids /\ Forall P (pd.iterrows df).
Proof.
  intros H. split; [eapply built_keys, H | eapply built_Forall, H].
Qed.

(** X11. Over a non-empty technician table the vehicle generator returns
    max(0, n) vehicles keyed 1, 2, ..., numbered "HVAC-001",
    "HVAC-002", ..., with current_mileage in [20000, 150000],
    next_maintenance_mileage 3000 to 8000 above it, and year in
    [2015, 2023]. *)
Theorem vehicle_rows (technicians : list Technician.t) (n : Z) :
  technicians <> [] ->
  Total (generate_vehicle_fleet (pd.Frame technicians) n)
        (fun df => keys Vehicle.vehicle_id df = run_of_keys 1 n /\
                   Forall vehicle_ok (pd.iterrows df)).
Proof.
  intros Ht. eapply Total_weaken; [|intros df H; apply (built_rows _ _ _ _ H)].
  apply Total_rows. intros i _. total_steps.
  split; [cbn; lia|]. repeat split; cbn; lia.
Qed.

(** X12. Over a non-empty customer table the subscription generator
    returns max(0, n) subscriptions keyed 1, 2, ...; the annual cost of
    each is the cost of its plan (Basic 120, Premium 200, Comprehensive
    350, Commercial 500) and its discount is 0, 5, 10, 15 or 20. *)
Theorem subscription_rows (customers : list Customer.t) (n : Z) :
  customers <> [] ->
  Total (generate_subscriptions (pd.Frame customers) n)
        (fun df =>
           keys Subscription.subscription_id df = run_of_keys 1 n /\
           Forall subscription_ok (pd.iterrows df)).
Proof.
  intros Hc. eapply Total_weaken; [|intros df H; apply (built_rows _ _ _ _ H)].
  apply Total_rows. intros i _. do 4 total_step.
  destruct (plan_cost_of_plan a H) as (cost & Hcost).
  eapply Total_bind; [apply (Total_lift _ cost Hcost)|]. intros ? ->.
  total_steps. split; [cbn; lia|]. repeat split; assumption.
Qed.

(** ** Service calls *)

Lemma call_priced_with_total_cost (r : ServiceCall.t) :
  call_priced r -> call_priced (with_total_cost r).
Proof. destruct r. exact (fun H => H). Qed.

Lemma service_call_row_priced (id : Z) (customers : list Customer.t)
  (technicians : list Technician.t) (equipment : list EquipmentType.t) :
  customers <> [] -> technicians <> [] -> equipment <> [] ->
  Total (service_call_row id (pd.Frame customers) (pd.Frame technicians)
           (pd.Frame equipment))
        call_priced.
Proof.
  intros Hc Ht He. unfold service_call_row. total_steps. name_draws.
  unfold call_priced. cbn. split; [assumption|]. split; [eauto|].
  split; eauto.
Qed.

Lemma service_calls_rows_keep (n : Z) (body : Z -> M ServiceCall.t)
  (P : ServiceCall.t -> Prop) :
  0 < n ->
  (forall r, P r -> P (with_total_cost r)) ->
  (forall i, 0 <= i < n -> Total (body i) P) ->
  Total (service_calls <- forM (range n) body ;;
         assign_total_cost (pd.DataFrame service_calls))
        (fun df => Forall P (pd.iterrows df)).
Proof.
  intros Hn Hkeep Hbody. eapply Total_bind.
  { apply (Total_forM (range n) body (fun _ r => P r)).
    intros i Hi. apply Hbody, range_In, Hi. }
  intros rows HF.
  assert (Hne : rows <> []).
  { destruct (range_positive n Hn) as [t E]. rewrite E in HF.
    inversion HF. discriminate. }
  rewrite DataFrame_Frame, assign_total_cost_Frame by exact Hne.
  apply Total_ret. cbn [pd.iterrows]. apply Forall_map.
  eapply Forall2_Forall_r; [exact HF|]. intros a b _ Pb. apply Hkeep, Pb.
Qed.

(** X13. For at least one requested call and non-empty customer,
    technician and equipment tables, every row of the service-call
    generator, full or incremental, has a service type of the five,
    duration_hours = round(u, 1) for a draw u of random.uniform(1, 8),
    labor_cost = round(duration_hours * rate, 2) for an hourly rate in
    [50, 100], and parts_cost = round(v, 2) for a draw v of
    random.uniform(0, 300). *)
Theorem service_call_pricing (customers : list Customer.t)
  (technicians : list Technician.t) (equipment : list EquipmentType.t)
  (n start : Z) :
  customers <> [] -> technicians <> [] -> equipment <> [] -> 0 < n ->
  Total (generate_service_calls (pd.Frame customers) (pd.Frame technicians)
           (pd.Frame equipment) n)
        (fun df => Forall call_priced (pd.iterrows df)) /\
  Total (generate_service_calls_incremental n start (pd.Frame customers)
           (pd.Frame technicians) (pd.Frame equipment))
        (fun df => Forall call_priced (pd.iterrows df)).
Proof.
  intros Hc Ht He Hn.
  split; apply service_calls_rows_keep;
    solve [ exact Hn | exact call_priced_with_total_cost
          | intros i _; apply service_call_row_priced; assumption ].
Qed.

(** X14. When no service call is requested (n <= 0) both service-call
    generators raise KeyError('labor_cost'), whatever the parent tables:
    the frame of no row has no column for the total_cost assignment to
    read. *)
Theorem no_service_call_raises
  (customers_df : pd.frame Customer.t)
  (technicians_df : pd.frame Technician.t)
  (equipment_df : pd.frame EquipmentType.t) (n start : Z) :
  n <= 0 ->
  Raises (generate_service_calls customers_df technicians_df equipment_df n)
         (KeyError "labor_cost") /\
  Raises (generate_service_calls_incremental n start customers_df
            technicians_df equipment_df)
         (KeyError "labor_cost").
Proof.
  intros Hn. unfold generate_service_calls, generate_service_calls_incremental.
  rewrite (range_nonpositive n Hn). split; intros s; reflexivity.
Qed.

(** ** Quotes *)

Lemma Total_equipment_cost_drawn :
  Total equipment_cost_of
        (fun cost => cost = 0%float \/
                     exists e, cost = random.uniform_of 500 8000 e).
Proof.
  unfold equipment_cost_of. total_step. destruct a.
  - eapply Total_weaken; [apply Total_uniform | auto].
  - apply Total_ret. left. reflexivity.
Qed.

Lemma Total_quoted_equipment_none (equipment : list EquipmentType.t)
  (cost : float) :
  equipment <> [] ->
  Total (quoted_equipment (pd.Frame equipment) cost)
        (fun o => cost = 0%float -> o = None).
Proof.
  intros He. unfold quoted_equipment.
  destruct (PrimFloat.ltb 0 cost) eqn:E.
  - total_steps. intros ->. vm_compute in E. discriminate.
  - apply Total_ret. reflexivity.
Qed.

(** X15. For non-empty customer and equipment tables the quote generator
    returns max(0, n) quotes keyed 1, 2, ...; in each, labor_rate is in
    [75, 125], labor_cost = labor_hours * labor_rate (not rounded), and
    total_amount = round((labor_cost + e + p) * markup, 2) where e and p are
    the equipment and parts costs before rounding (the columns hold
    round(e, 2) and round(p, 2)) and markup is a draw of
    random.uniform(1.1, 1.4); e is 0, and then equipment_id is None, or a
    draw of random.uniform(500, 8000). *)
Theorem quote_rows (customers : list Customer.t)
  (equipment : list EquipmentType.t) (n : Z) :
  customers <> [] -> equipment <> [] ->
  Total (generate_quotes (pd.Frame customers) (pd.Frame equipment) n)
        (fun df => keys Quote.quote_id df = run_of_keys 1 n /\
                   Forall quote_amounts (pd.iterrows df)).
Proof.
  intros Hc He.
  eapply Total_weaken; [|intros df H; apply (built_rows _ _ _ _ H)].
  apply Total_rows. intros i _. do 3 total_step.
  eapply Total_bind; [apply Total_equipment_cost_drawn|]. intros cost Hcost.
  do 4 total_step.
  eapply Total_bind; [apply Total_quoted_equipment_none, He|].
  intros eq Heq. total_steps. name_draws.
  split; [cbn; lia|]. unfold quote_amounts. cbn.
  split; [lia|]. split; [eauto|]. split; [reflexivity|].
  eexists cost, _, _. split; [reflexivity|]. split; [reflexivity|].
  split; [reflexivity|].
  destruct Hcost as [-> | Hdrawn]; [left; auto | right; exact Hdrawn].
Qed.

(** ** Incident response *)

Lemma NoDup_keys_filter {R K} (key : R -> K) (test : R -> bool)
  (rows : list R) :
  NoDup (map key rows) -> NoDup (map key (filter test rows)).
Proof.
  induction rows as [|r rows IH]; intros H; [constructor|].
  cbn [map] in H. inversion H as [|? ? Hr Hrows]; subst. cbn [filter].
  destruct (test r); [|exact (IH Hrows)].
  cbn [map]. constructor; [|exact (IH Hrows)].
  intros Hin. apply Hr. apply in_map_iff in Hin.
  destruct Hin as (r' & E & Hr'). apply filter_In in Hr'.
  apply in_map_iff. exists r'. tauto.
Qed.

Lemma NoDup_keys_firstn {R K} (key : R -> K) (k : nat) (rows : list R) :
  NoDup (map key rows) -> NoDup (map key (firstn k rows)).
Proof.
  intros H. apply (Permutation_selected_NoDup key _ (skipn k rows) rows);
    [rewrite firstn_skipn; apply Permutation_refl | exact H].
Qed.

(** X16. When the service calls have distinct keys, no two incident rows
    are about the same call: the position i mod len(emergency_calls) never
    wraps around, because the loop stops at
    min(n_incidents, len(emergency_calls)). *)
Theorem incident_per_emergency_call (calls : list ServiceCall.t)
  (technicians : list Technician.t) (n : Z) :
  technicians <> [] ->
  NoDup (map ServiceCall.service_call_id calls) ->
  Total (generate_incident_response (pd.Frame calls) (pd.Frame technicians) n)
        (fun df => NoDup (keys IncidentResponse.service_call_id df)).
Proof.
  intros Ht Hnd.
  eapply Total_weaken; [apply generate_incident_response_rows, Ht|].
  intros df (rows & -> & HF & _). unfold keys. rewrite iterrows_DataFrame.
  rewrite (Forall2_map_eq incident_of ServiceCall.service_call_id
             IncidentResponse.service_call_id _ _ HF)
    by (intros a b _ [E _]; exact E).
  apply NoDup_keys_firstn, NoDup_keys_filter, Hnd.
Qed.

(** ** Tables of no row *)

Lemma Raises_col_no_columns {R V} (name : string) (field : R -> V) :
  Raises (pd.col (@pd.NoColumns R) name field) (KeyError name).
Proof. intros s. reflexivity. Qed.

(** A loop body that reads a column of a frame without columns after
    statements that all return. *)
Ltac raises_key :=
  repeat (eapply Raises_bind_r;
          [ first [ total_prim | apply Total_equipment_cost_of ]
          | intros; cbv beta in *; subst ]);
  apply Raises_bind_l, Raises_col_no_columns.

Lemma generate_customers_none (n : Z) (s : sources) :
  n <= 0 -> generate_customers n s = Ok (pd.NoColumns, s).
Proof.
  intros Hn. unfold generate_customers. rewrite (range_nonpositive n Hn).
  reflexivity.
Qed.

Lemma Raises_after {A B} (m : M A) (k : A -> M B) (a : A) (e : exn) :
  (forall s, m s = Ok (a, s)) -> Raises (k a) e -> Raises (bind m k) e.
Proof. intros Hm Hk s. unfold bind. rewrite Hm. apply Hk. Qed.

(** X17. The customer table generated for a count n <= 0 is the frame
    without columns, so the generators that draw a customer key from it
    (installed devices, subscriptions, quotes) raise
    KeyError('customer_id') as soon as one row is requested of them, where
    an empty table that has its columns makes them raise IndexError. *)
Theorem no_customer_no_column (equipment_df : pd.frame EquipmentType.t)
  (n m : Z) :
  n <= 0 -> 0 < m ->
  Raises (customers_df <- generate_customers n ;;
          generate_installed_devices customers_df equipment_df m)
         (KeyError "customer_id") /\
  Raises (customers_df <- generate_customers n ;;
          generate_subscriptions customers_df m)
         (KeyError "customer_id") /\
  Raises (customers_df <- generate_customers n ;;
          generate_quotes customers_df equipment_df m)
         (KeyError "customer_id").
Proof.
  intros Hn Hm. destruct (range_positive m Hm) as [t E].
  repeat split;
    (eapply Raises_after;
     [intros s; apply generate_customers_none, Hn|]).
  - unfold generate_installed_devices. rewrite E.
    apply Raises_bind_l, Raises_bind_l. raises_key.
  - unfold generate_subscriptions. rewrite E.
    apply Raises_bind_l, Raises_bind_l. raises_key.
  - unfold generate_quotes. rewrite E.
    apply Raises_bind_l, Raises_bind_l. raises_key.
Qed.

Lemma generate_invoices_of_no_call (customers_df : pd.frame Customer.t)
  (n_invoices : option Z) (s : sources) :
  0 <= invoices_requested (pd.Frame []) n_invoices ->
  generate_invoices (pd.Frame []) customers_df n_invoices s
    = Ok (pd.NoColumns, s).
Proof.
  intros Hn. unfold generate_invoices.
  change (match n_invoices with
          | Some n => n
          | None => int (PrimFloat.mul (float_of_Z (pd.len (pd.Frame []))) 0.85)
          end) with (invoices_requested (@pd.Frame ServiceCall.t []) n_invoices).
  change (pd.len (@pd.Frame ServiceCall.t [])) with 0.
  rewrite Z.min_r by exact Hn. reflexivity.
Qed.

(** X18. Over a service-call table that has its columns but no row, the
    invoice generator returns, for any requested count that is not
    negative (or none), the frame without columns and draws nothing;
    handed on to the payment generator, as both runs do, that frame makes
    it raise KeyError('status'). *)
Theorem payments_after_no_invoice (customers_df : pd.frame Customer.t)
  (n_invoices : option Z) :
  0 <= invoices_requested (pd.Frame []) n_invoices ->
  (forall s, generate_invoices (pd.Frame []) customers_df n_invoices s
             = Ok (pd.NoColumns, s)) /\
  Raises (invoices_df <-
            generate_invoices (pd.Frame []) customers_df n_invoices ;;
          generate_payments invoices_df)
         (KeyError "status").
Proof.
  intros Hn. split.
  - intros s. apply generate_invoices_of_no_call, Hn.
  - eapply Raises_after.
    + intros s. apply generate_invoices_of_no_call, Hn.
    + intros s. reflexivity.
Qed.

(** X19. A negative requested count makes the invoice and the feedback
    generator raise ValueError, from DataFrame.sample, whatever the
    tables. *)
Theorem negative_sample_count
  (service_calls_df : pd.frame ServiceCall.t)
  (customers_df : pd.frame Customer.t) (n : Z) :
  n < 0 ->
  Raises (generate_invoices service_calls_df customers_df (Some n))
         ValueError /\
  Raises (generate_customer_feedback service_calls_df customers_df n)
         ValueError.
Proof.
  intros Hn.
  assert (Hlen : 0 <= pd.len service_calls_df) by apply len_nonneg.
  assert (Hs : Raises (pd.sample service_calls_df
                         (Z.min n (pd.len service_calls_df))) ValueError).
  { intros s. unfold pd.sample. rewrite Z.min_l by lia.
    destruct (n <? 0) eqn:E; [reflexivity | apply Z.ltb_ge in E; lia]. }
  split; apply Raises_bind_l, Hs.
Qed.

(** ** The incremental run *)

(** X20. From a seed directory that holds the five base tables, each with
    a row, the incremental run generates 5 customers, 2 technicians, 3
    equipment types, 10 parts, 200 service calls, 170 invoices, 30 quotes,
    200 work orders, 100 feedback rows, 50 leads and 200 appointments, one
    per new service call, although 50 are requested. *)
Theorem incremental_row_counts (seeds : Seeds.t) :
  seeded seeds ->
  Total (generate_incremental_data seeds)
        (fun outcome => exists ds, outcome = Generated ds /\
                                   increment_row_counts ds).
Proof.
  intros Hs.
  eapply Total_weaken; [apply generate_incremental_data_generates, Hs|].
  intros outcome (ds & -> & H). exists ds. split; [reflexivity|].
  destruct H as (ec & et & ee & ep & esc & mc & mt & me & mp & msc &
                 _ & _ & _ & _ & _ & _ & _ & _ & _ & _ & H).
  destruct H as (Hcu & Hte & Heq & Hpa & Hsc & Hus & Hinv & Hpay & Happ &
                 Hquo & Hwo & Hfb & Hleads).
  unfold increment_row_counts.
  repeat match goal with |- _ /\ _ => split end;
    (eapply built_count; [eassumption | lia]).
Qed.

(** X21. In an incremental run the keys of the dependent tables do not
    continue the seed files: usage, invoice, payment, appointment, quote,
    feedback and lead ids are 1, 2, ... whatever the seed directory holds,
    and the work-order ids are the keys of the new service calls. *)
Theorem incremental_dependent_keys (seeds : Seeds.t) :
  seeded seeds ->
  Total (generate_incremental_data seeds)
        (fun outcome => exists ds, outcome = Generated ds /\
                                   dependent_keys_restart ds).
Proof.
  intros Hs.
  eapply Total_weaken; [apply generate_incremental_data_generates, Hs|].
  intros outcome (ds & -> & H). exists ds. split; [reflexivity|].
  destruct H as (ec & et & ee & ep & esc & mc & mt & me & mp & msc &
                 _ & _ & _ & _ & _ & _ & _ & _ & _ & _ & H).
  destruct H as (Hcu & Hte & Heq & Hpa & Hsc & Hus & Hinv & Hpay & Happ &
                 Hquo & Hwo & Hfb & Hleads).
  unfold dependent_keys_restart, keys.
  rewrite (built_keys _ _ _ _ Hwo), (built_keys _ _ _ _ Hsc).
  repeat match goal with |- _ /\ _ => split end;
    solve [ reflexivity | eapply built_keys; eassumption ].
Qed.

(** X22. Run with --incremental while one of the five seed files is
    missing, main returns after the "No existing data found" message: it
    generates no table and draws no random number. *)
Theorem incremental_without_seed_file (argv : list string) (seeds : Seeds.t)
  (s : sources) :
  nth_error argv 1 = Some "--incremental" ->
  seed_missing seeds ->
  main argv seeds s = Ok (IncrementalRun NoExistingData, s).
Proof.
  intros Hargv Hmiss. unfold main.
  destruct argv as [|program [|flag rest]]; try discriminate.
  cbn [nth_error] in Hargv. injection Hargv as ->.
  replace (1 <? len (program :: "--incremental" :: rest)) with true
    by (symmetry; apply Z.ltb_lt; unfold len; cbn [List.length]; lia).
  cbn [nth andb]. rewrite String.eqb_refl.
  assert (E : generate_incremental_data seeds s = Ok (NoExistingData, s)).
  { unfold generate_incremental_data, seed_missing in *.
    destruct (Seeds.customers seeds); [|reflexivity].
    destruct (Seeds.technicians seeds); [|reflexivity].
    destruct (Seeds.equipment_types seeds); [|reflexivity].
    destruct (Seeds.parts seeds); [|reflexivity].
    destruct (Seeds.service_calls seeds); [|reflexivity].
    repeat (destruct Hmiss as [Hmiss | Hmiss]; try discriminate). }
  unfold bind. rewrite E. reflexivity.
Qed.

(** ** Worked inputs of the further properties *)

Ltac distinct_keys := cbn; repeat constructor; cbn; intuition discriminate.

(** Two calls, the default count: int(2 * 0.85) = 1 invoice. *)
Lemma invoices_of_distinct_calls_witness :
  exists df s',
    generate_invoices (pd.Frame [sample_call; emergency_call])
      (pd.Frame [home_customer]) None counting_sources = Ok (df, s') /\
    pd.len df =
      Z.min (invoices_requested (pd.Frame [sample_call; emergency_call]) None)
            (len [sample_call; emergency_call]) /\
    NoDup (keys Invoice.service_call_id df).
Proof.
  refine (invoices_of_distinct_calls [sample_call; emergency_call]
            (pd.Frame [home_customer]) None _ _ counting_sources).
  - vm_compute. discriminate.
  - distinct_keys.
Defined.

Lemma invoice_rows_of_calls_witness :
  exists df s',
    generate_invoices (pd.Frame [sample_call; emergency_call])
      (pd.Frame [home_customer]) (Some 2) counting_sources = Ok (df, s') /\
    Forall (fun r => exists call,
              In call [sample_call; emergency_call] /\ invoice_row_of call r)
           (pd.iterrows df).
Proof.
  refine (invoice_rows_of_calls [sample_call; emergency_call]
            (pd.Frame [home_customer]) (Some 2) _ counting_sources).
  vm_compute. discriminate.
Defined.

(** Five feedback rows requested over two calls. *)
Lemma feedback_of_distinct_calls_witness :
  exists df s',
    generate_customer_feedback (pd.Frame [sample_call; emergency_call])
      (pd.Frame [home_customer]) 5 counting_sources = Ok (df, s') /\
    pd.len df = Z.min 5 (len [sample_call; emergency_call]) /\
    NoDup (keys Feedback.service_call_id df) /\
    Forall (fun r => exists call,
              In call [sample_call; emergency_call] /\
              feedback_row_of call r)
           (pd.iterrows df).
Proof.
  refine (feedback_of_distinct_calls [sample_call; emergency_call]
            (pd.Frame [home_customer]) 5 _ _ counting_sources).
  - lia.
  - distinct_keys.
Defined.

(** Three appointments requested over two calls: two of the past, one of
    the future. *)
Lemma appointments_history_then_future_witness :
  exists df s',
    generate_appointments (pd.Frame [home_customer])
      (pd.Frame [on_call_technician])
      (pd.Frame [sample_call; emergency_call]) 3 counting_sources
      = Ok (df, s') /\
    exists history future,
      pd.iterrows df = history ++ future /\
      pd.len df = Z.max 3 (pd.len (pd.Frame [sample_call; emergency_call])) /\
      keys Appointment.appointment_id df = run_of_keys 1 (pd.len df) /\
      Forall2 historical_row_of
        (pd.iterrows (pd.Frame [sample_call; emergency_call])) history /\
      len future =
        Z.max 0 (3 - pd.len (pd.Frame [sample_call; emergency_call])) /\
      Forall (future_row (map Customer.customer_id [home_customer])
                (map Technician.technician_id [on_call_technician])) future.
Proof.
  refine (appointments_history_then_future [home_customer]
            [on_call_technician] (pd.Frame [sample_call; emergency_call]) 3
            _ _ counting_sources); discriminate.
Defined.

Lemma parts_usage_per_call_witness :
  exists df s',
    generate_parts_usage (pd.Frame [sample_call; emergency_call])
      (pd.Frame [filter_part]) 2 counting_sources = Ok (df, s') /\
    exists groups,
      pd.iterrows df = List.concat groups /\
      Forall2 (usage_of (map Part.part_id [filter_part]) 2)
              (pd.iterrows (pd.Frame [sample_call; emergency_call]))
              groups /\
      keys PartsUsage.usage_id df = run_of_keys 1 (pd.len df).
Proof.
  refine (parts_usage_per_call (pd.Frame [sample_call; emergency_call])
            [filter_part] 2 _ _ counting_sources).
  - discriminate.
  - lia.
Defined.

Lemma parts_usage_negative_average_witness :
  generate_parts_usage (pd.Frame [sample_call]) (pd.Frame [filter_part])
    (-1) counting_sources = Raise ValueError.
Proof.
  refine (parts_usage_negative_average (pd.Frame [sample_call])
            (pd.Frame [filter_part]) (-1) _ _ counting_sources).
  - lia.
  - discriminate.
Defined.

Lemma vehicle_rows_witness :
  exists df s',
    generate_vehicle_fleet (pd.Frame [on_call_technician]) 2
      counting_sources = Ok (df, s') /\
    keys Vehicle.vehicle_id df = run_of_keys 1 2 /\
    Forall vehicle_ok (pd.iterrows df).
Proof.
  refine (vehicle_rows [on_call_technician] 2 _ counting_sources).
  discriminate.
Defined.

Lemma subscription_rows_witness :
  exists df s',
    generate_subscriptions (pd.Frame [home_customer]) 2 counting_sources
      = Ok (df, s') /\
    keys Subscription.subscription_id df = run_of_keys 1 2 /\
    Forall subscription_ok (pd.iterrows df).
Proof.
  refine (subscription_rows [home_customer] 2 _ counting_sources).
  discriminate.
Defined.

(** Two calls of a full run, and two of an increment that starts at key
    2001. *)
Lemma service_call_pricing_witness :
  (exists df s',
     generate_service_calls (pd.Frame [home_customer])
       (pd.Frame [on_call_technician]) (pd.Frame [furnace]) 2
       counting_sources = Ok (df, s') /\
     Forall call_priced (pd.iterrows df)) /\
  (exists df s',
     generate_service_calls_incremental 2 2001 (pd.Frame [home_customer])
       (pd.Frame [on_call_technician]) (pd.Frame [furnace])
       counting_sources = Ok (df, s') /\
     Forall call_priced (pd.iterrows df)).
Proof.
  refine (match service_call_pricing [home_customer] [on_call_technician]
                  [furnace] 2 2001 _ _ _ _ with
          | conj full increment =>
              conj (full counting_sources) (increment counting_sources)
          end); solve [discriminate | lia].
Defined.

Lemma no_service_call_raises_witness :
  generate_service_calls (pd.Frame [home_customer])
    (pd.Frame [on_call_technician]) (pd.Frame [furnace]) 0 counting_sources
    = Raise (KeyError "labor_cost") /\
  generate_service_calls_incremental 0 2001 (pd.Frame [home_customer])
    (pd.Frame [on_call_technician]) (pd.Frame [furnace]) counting_sources
    = Raise (KeyError "labor_cost").
Proof.
  refine (match no_service_call_raises (pd.Frame [home_customer])
                  (pd.Frame [on_call_technician]) (pd.Frame [furnace])
                  0 2001 _ with
          | conj full increment =>
              conj (full counting_sources) (increment counting_sources)
          end).
  lia.
Defined.

Lemma quote_rows_witness :
  exists df s',
    generate_quotes (pd.Frame [home_customer]) (pd.Frame [furnace]) 2
      counting_sources = Ok (df, s') /\
    keys Quote.quote_id df = run_of_keys 1 2 /\
    Forall quote_amounts (pd.iterrows df).
Proof.
  refine (quote_rows [home_customer] [furnace] 2 _ _ counting_sources);
    discriminate.
Defined.

Lemma incident_per_emergency_call_witness :
  exists df s',
    generate_incident_response (pd.Frame [sample_call; emergency_call])
      (pd.Frame [on_call_technician]) 3 counting_sources = Ok (df, s') /\
    NoDup (keys IncidentResponse.service_call_id df).
Proof.
  refine (incident_per_emergency_call [sample_call; emergency_call]
            [on_call_technician] 3 _ _ counting_sources).
  - discriminate.
  - distinct_keys.
Defined.

Lemma no_customer_no_column_witness :
  (customers_df <- generate_customers 0 ;;
   generate_installed_devices customers_df (pd.Frame [furnace]) 1)
    counting_sources = Raise (KeyError "customer_id") /\
  (customers_df <- generate_customers 0 ;;
   generate_subscriptions customers_df 1)
    counting_sources = Raise (KeyError "customer_id") /\
  (customers_df <- generate_customers 0 ;;
   generate_quotes customers_df (pd.Frame [furnace]) 1)
    counting_sources = Raise (KeyError "customer_id").
Proof.
  refine (match no_customer_no_column (pd.Frame [furnace]) 0 1 _ _ with
          | conj devices (conj subscriptions quotes) =>
              conj (devices counting_sources)
                   (conj (subscriptions counting_sources)
                         (quotes counting_sources))
          end); lia.
Defined.

Lemma payments_after_no_invoice_witness :
  generate_invoices (pd.Frame []) (pd.Frame [home_customer]) None
    counting_sources = Ok (pd.NoColumns, counting_sources) /\
  (invoices_df <-
     generate_invoices (pd.Frame []) (pd.Frame [home_customer]) None ;;
   generate_payments invoices_df) counting_sources
    = Raise (KeyError "status").
Proof.
  refine (match payments_after_no_invoice (pd.Frame [home_customer]) None _
          with
          | conj invoices payments =>
              conj (invoices counting_sources) (payments counting_sources)
          end).
  vm_compute. discriminate.
Defined.

Lemma negative_sample_count_witness :
  generate_invoices (pd.Frame [sample_call]) (pd.Frame [home_customer])
    (Some (-1)) counting_sources = Raise ValueError /\
  generate_customer_feedback (pd.Frame [sample_call])
    (pd.Frame [home_customer]) (-1) counting_sources = Raise ValueError.
Proof.
  refine (match negative_sample_count (pd.Frame [sample_call])
                  (pd.Frame [home_customer]) (-1) _ with
          | conj invoices feedback =>
              conj (invoices counting_sources) (feedback counting_sources)
          end).
  lia.
Defined.

Lemma incremental_row_counts_witness :
  exists outcome s',
    generate_incremental_data one_row_seeds counting_sources
      = Ok (outcome, s') /\
    exists ds, outcome = Generated ds /\ increment_row_counts ds.
Proof.
  refine (incremental_row_counts one_row_seeds _ counting_sources).
  repeat split; eexists; (split; [reflexivity | discriminate]).
Defined.

Lemma incremental_dependent_keys_witness :
  exists outcome s',
    generate_incremental_data one_row_seeds counting_sources
      = Ok (outcome, s') /\
    exists ds, outcome = Generated ds /\ dependent_keys_restart ds.
Proof.
  refine (incremental_dependent_keys one_row_seeds _ counting_sources).
  repeat split; eexists; (split; [reflexivity | discriminate]).
Defined.

Lemma incremental_without_seed_file_witness :
  main ["main.py"; "--incremental"] no_seeds counting_sources
    = Ok (IncrementalRun NoExistingData, counting_sources).
Proof.
  refine (incremental_without_seed_file ["main.py"; "--incremental"]
            no_seeds counting_sources _ _).
  - reflexivity.
  - left. reflexivity.
Defined.
